(** * Elmer: signal bus, socket manager and engine

    A shallow embedding of the core of Elmer (core/base_socket.py,
    core/comprehension.py, core/monitoring.py, core/socket_manager.py,
    runtime/graph_encoder.py, runtime/signal_decoder.py, runtime/engine.py)
    and the properties of its registration, routing, lifecycle, health and
    orchestration logic.

    Conventions of the embedding
    - a Python [dict] whose iteration order is observable is an association
      list in insertion order ([PyDict], the manager's [_sockets]); a dict
      that is only read by key is a [gmap] (the manager's [_type_index]);
    - a method that mutates [self] returns the new object state; a method
      that may raise returns an [Outcome];
    - the manager and the engine return, next to their result, the list of
      [Event]s they emit (log records and hardware probes);
    - wall-clock readings ([time.time()]) and fresh identifiers ([uuid4])
      are inputs of the operations that consume them; a reading is a
      rational number and a difference of two readings (an uptime) is
      exact, where the code's floats round it;
    - a text is a [string] holding its UTF-8 bytes, and [len] counts its
      code points ([py_len]). *)

From Stdlib Require QArith_base.
From stdpp Require Import gmap strings list pretty.

Local Open Scope string_scope.
Local Open Scope list_scope.
Local Open Scope Z_scope.

Abbreviation Q := QArith_base.Q.
Abbreviation Qminus := QArith_base.Qminus.
Abbreviation Qmake := QArith_base.Qmake.

(** ** Python values *)

(** The values that occur in payloads, metadata and reports. *)
#[warnings="-register-all"] Inductive PyVal : Type :=
  | PNone
  | PBool (b : bool)
  | PInt (z : Z)
  | PFloat (q : Q)
  | PStr (s : string)
  | PList (l : list PyVal)
  | PDict (d : list (string * PyVal)).

(** A string-keyed dict, in insertion order. *)
Definition PyDict : Type := list (string * PyVal).

(** [isinstance(v, str)] *)
Definition isinstance_str (v : PyVal) : bool :=
  match v with PStr _ => true | _ => false end.

Section Dict.
Context {V : Type}.

(** [d.get(k)] *)
Fixpoint dict_get (k : string) (d : list (string * V)) : option V :=
  match d with
  | [] => None
  | (k', v) :: d' => if decide (k' = k) then Some v else dict_get k d'
  end.

(** [k in d] *)
Definition dict_contains (k : string) (d : list (string * V)) : bool :=
  match dict_get k d with Some _ => true | None => false end.

(** [d[k] = v]: overwrite in place when the key exists, append otherwise. *)
Fixpoint dict_set (k : string) (v : V) (d : list (string * V))
  : list (string * V) :=
  match d with
  | [] => [(k, v)]
  | (k', v') :: d' =>
      if decide (k' = k) then (k', v) :: d' else (k', v') :: dict_set k v d'
  end.

(** [d.pop(k, None)]: the removed value (if any) and the remaining dict. *)
Fixpoint dict_pop (k : string) (d : list (string * V))
  : option V * list (string * V) :=
  match d with
  | [] => (None, [])
  | (k', v') :: d' =>
      if decide (k' = k) then (Some v', d')
      else let '(r, d'') := dict_pop k d' in (r, (k', v') :: d'')
  end.

Definition dict_keys (d : list (string * V)) : list string := d.*1.
Definition dict_values (d : list (string * V)) : list V := d.*2.
End Dict.

(** ** Exceptions, outcomes and events *)

(** The exceptions that derive from [Exception], which is what every
    handler of the manager catches. *)
Inductive Exn : Type :=
  | ValueError (msg : string)
  | RuntimeError (msg : string)
  | OtherException (cls msg : string).

(** [str(exc)] *)
Definition exn_str (e : Exn) : string :=
  match e with
  | ValueError m | RuntimeError m | OtherException _ m => m
  end.

Inductive Outcome (A : Type) : Type :=
  | Returned (a : A)
  | Raised (e : Exn).
Arguments Returned {A} a.
Arguments Raised {A} e.

Inductive LogLevel := INFO | WARNING | ERROR.

Inductive Event : Type :=
  | EvLog (level : LogLevel) (msg : string)
  | EvDetectHardware.

Definition is_detect (e : Event) : bool :=
  match e with EvDetectHardware => true | EvLog _ _ => false end.

Definition detect_count (evs : list Event) : nat :=
  length (filter (λ e, is_detect e = true) evs).

(** ** Signals (ng_ecosystem) *)

Inductive SignalType := SENSORY | INFERENCE | HEALTH | MEMORY | IDENTITY.

(** [SignalType.X.value], as pinned by tests/test_signal_format.py. *)
Definition SignalType_value (t : SignalType) : string :=
  match t with
  | SENSORY => "sensory"
  | INFERENCE => "inference"
  | HEALTH => "health"
  | MEMORY => "memory"
  | IDENTITY => "identity"
  end.

(** Modelled from the spec: the [SubstrateSignal] data class lives in the
    module ng_ecosystem; its fields are those of the spec's data model
    (identity token, type, originating socket, payload, confidence,
    priority, creation timestamp, metadata, optional encoding). *)
Record SubstrateSignal : Type := mkSignal {
  signal_id : string;
  signal_type : SignalType;
  source_socket : string;
  payload : PyDict;
  confidence : Q;
  priority : Z;
  timestamp : Q;
  metadata : PyDict;
  graph_encoding : option PyDict;
}.

(** Modelled from the spec: the single factory [SubstrateSignal.create] of
    ng_ecosystem; it stamps a freshly generated identity [uid] and the
    current time [now] and stores the remaining arguments. *)
Definition SubstrateSignal_create (uid : string) (now : Q)
    (source_socket : string) (signal_type : SignalType) (payload : PyDict)
    (confidence : Q) (priority : Z) (graph_encoding : option PyDict)
    (metadata : PyDict) : SubstrateSignal :=
  {| signal_id := uid; signal_type := signal_type;
     source_socket := source_socket; payload := payload;
     confidence := confidence; priority := priority; timestamp := now;
     metadata := metadata; graph_encoding := graph_encoding |}.

(** The keyword arguments of [with_updates]: [None] for a field that is
    not named in the call. The type is fixed for the life of a signal. *)
Record Overrides : Type := mkOverrides {
  ov_source_socket : option string;
  ov_payload : option PyDict;
  ov_confidence : option Q;
  ov_priority : option Z;
  ov_metadata : option PyDict;
  ov_graph_encoding : option (option PyDict);
}.

Definition no_overrides : Overrides :=
  {| ov_source_socket := None; ov_payload := None; ov_confidence := None;
     ov_priority := None; ov_metadata := None; ov_graph_encoding := None |}.

(** Modelled from the spec: [SubstrateSignal.with_updates] of ng_ecosystem,
    a copy-on-write update returning a signal identical to the receiver
    except for the named fields. *)
Definition with_updates (s : SubstrateSignal) (o : Overrides)
  : SubstrateSignal :=
  {| signal_id := signal_id s;
     signal_type := signal_type s;
     source_socket := default (source_socket s) (ov_source_socket o);
     payload := default (payload s) (ov_payload o);
     confidence := default (confidence s) (ov_confidence o);
     priority := default (priority s) (ov_priority o);
     timestamp := timestamp s;
     metadata := default (metadata s) (ov_metadata o);
     graph_encoding := default (graph_encoding s) (ov_graph_encoding o) |}.

(** ** The socket contract (core/base_socket.py) *)

Module ElmerSocket.

(** The instance attributes set by [ElmerSocket.__init__]. *)
Record BaseState : Type := mkBase {
  _connected : bool;
  _process_count : Z;
  _error_count : Z;
  _last_process_time : Q;
  _connect_time : Q;
}.

Definition __init__ : BaseState :=
  {| _connected := false; _process_count := 0; _error_count := 0;
     _last_process_time := Qmake 0 1; _connect_time := Qmake 0 1 |}.

(** What a subclass provides: the two constant properties, the hardware
    preference, and the four abstract methods. A method receives the
    clock reading it may consume and the attributes of [self]; it yields
    the attributes afterwards and either a value or an exception. *)
Record Class : Type := mkClass {
  socket_id : string;
  socket_type : string;
  hardware_affinity : string;
  m_connect : Q → BaseState → BaseState * Outcome unit;
  m_disconnect : BaseState → BaseState * Outcome unit;
  m_process : Q → BaseState → SubstrateSignal
              → BaseState * Outcome SubstrateSignal;
  m_health_check : Q → BaseState → Outcome PyDict;
}.

(** A socket object: its class and its current attributes. *)
Record t : Type := mk { cls : Class; base : BaseState }.

Definition new (c : Class) : t := {| cls := c; base := __init__ |}.

Definition id (s : t) : string := socket_id (cls s).
Definition type (s : t) : string := socket_type (cls s).

(** Property [is_connected]. *)
Definition is_connected (s : t) : bool := _connected (base s).

Definition connect (now : Q) (s : t) : t * Outcome unit :=
  let '(b, r) := m_connect (cls s) now (base s) in
  ({| cls := cls s; base := b |}, r).

Definition disconnect (s : t) : t * Outcome unit :=
  let '(b, r) := m_disconnect (cls s) (base s) in
  ({| cls := cls s; base := b |}, r).

Definition process (now : Q) (s : t) (signal : SubstrateSignal)
  : t * Outcome SubstrateSignal :=
  let '(b, r) := m_process (cls s) now (base s) signal in
  ({| cls := cls s; base := b |}, r).

Definition health_check (now : Q) (s : t) : Outcome PyDict :=
  m_health_check (cls s) now (base s).

(** [_base_health]: the health fields common to all sockets. The uptime
    is the exact difference of the two clock readings; the code computes
    it on floats, which round it. *)
Definition _base_health (sid stype : string) (now : Q) (self : BaseState)
  : PyDict :=
  [ ("socket_id", PStr sid);
    ("socket_type", PStr stype);
    ("connected", PBool (_connected self));
    ("uptime", PFloat (if _connected self
                       then Qminus now (_connect_time self)
                       else Qmake 0 1));
    ("process_count", PInt (_process_count self));
    ("error_count", PInt (_error_count self));
    ("last_process_time", PFloat (_last_process_time self)) ].

(** The default of the property [hardware_affinity]. *)
Definition default_hardware_affinity : string := "cpu".

End ElmerSocket.

(** ** ComprehensionSocket (core/comprehension.py) *)

Module ComprehensionSocket.
Import ElmerSocket.

Definition SOCKET_ID : string := "elmer:comprehension".
Definition SOCKET_TYPE : string := "sensory".

Definition connect (now : Q) (self : BaseState) : BaseState * Outcome unit :=
  if _connected self then (self, Returned ())
  else ({| _connected := true;
           _process_count := _process_count self;
           _error_count := _error_count self;
           _last_process_time := _last_process_time self;
           _connect_time := now |}, Returned ()).

Definition disconnect (self : BaseState) : BaseState * Outcome unit :=
  ({| _connected := false;
      _process_count := _process_count self;
      _error_count := _error_count self;
      _last_process_time := _last_process_time self;
      _connect_time := _connect_time self |}, Returned ()).

Definition process (now : Q) (self : BaseState) (signal : SubstrateSignal)
  : BaseState * Outcome SubstrateSignal :=
  if negb (_connected self)
  then (self, Raised (RuntimeError "ComprehensionSocket not connected"))
  else
    let self' := {| _connected := _connected self;
                    _process_count := _process_count self + 1;
                    _error_count := _error_count self;
                    _last_process_time := now;
                    _connect_time := _connect_time self |} in
    let enriched_metadata :=
      dict_set "comprehension_version" (PStr "0.1.0")
        (dict_set "comprehension_processed" (PBool true)
           (metadata signal)) in
    (self', Returned (with_updates signal
       {| ov_source_socket := Some SOCKET_ID;
          ov_payload := None; ov_confidence := None; ov_priority := None;
          ov_metadata := Some enriched_metadata;
          ov_graph_encoding := None |})).

Definition health_check (now : Q) (self : BaseState) : Outcome PyDict :=
  let base := _base_health SOCKET_ID SOCKET_TYPE now self in
  Returned (dict_set "status"
              (PStr (if _connected self then "healthy" else "offline")) base).

Definition class : Class :=
  {| socket_id := SOCKET_ID; socket_type := SOCKET_TYPE;
     hardware_affinity := default_hardware_affinity;
     m_connect := connect; m_disconnect := disconnect;
     m_process := process; m_health_check := health_check |}.

End ComprehensionSocket.

(** ** MonitoringSocket (core/monitoring.py) *)

Module MonitoringSocket.
Import ElmerSocket.

Definition SOCKET_ID : string := "elmer:monitoring".
Definition SOCKET_TYPE : string := "health".

Definition connect (now : Q) (self : BaseState) : BaseState * Outcome unit :=
  if _connected self then (self, Returned ())
  else ({| _connected := true;
           _process_count := _process_count self;
           _error_count := _error_count self;
           _last_process_time := _last_process_time self;
           _connect_time := now |}, Returned ()).

Definition disconnect (self : BaseState) : BaseState * Outcome unit :=
  ({| _connected := false;
      _process_count := _process_count self;
      _error_count := _error_count self;
      _last_process_time := _last_process_time self;
      _connect_time := _connect_time self |}, Returned ()).

Definition process (now : Q) (self : BaseState) (signal : SubstrateSignal)
  : BaseState * Outcome SubstrateSignal :=
  if negb (_connected self)
  then (self, Raised (RuntimeError "MonitoringSocket not connected"))
  else
    let self' := {| _connected := _connected self;
                    _process_count := _process_count self + 1;
                    _error_count := _error_count self;
                    _last_process_time := now;
                    _connect_time := _connect_time self |} in
    let enriched_metadata :=
      dict_set "monitoring_version" (PStr "0.1.0")
        (dict_set "monitoring_processed" (PBool true)
           (metadata signal)) in
    (self', Returned (with_updates signal
       {| ov_source_socket := Some SOCKET_ID;
          ov_payload := None; ov_confidence := None; ov_priority := None;
          ov_metadata := Some enriched_metadata;
          ov_graph_encoding := None |})).

Definition health_check (now : Q) (self : BaseState) : Outcome PyDict :=
  let base := _base_health SOCKET_ID SOCKET_TYPE now self in
  Returned (dict_set "status"
              (PStr (if _connected self then "healthy" else "offline")) base).

Definition class : Class :=
  {| socket_id := SOCKET_ID; socket_type := SOCKET_TYPE;
     hardware_affinity := default_hardware_affinity;
     m_connect := connect; m_disconnect := disconnect;
     m_process := process; m_health_check := health_check |}.

End MonitoringSocket.

(** ** SocketManager (core/socket_manager.py) *)

Module SocketManager.

(** What [detect_hardware] reads from the host: [os.cpu_count()], the
    PyTorch installation (if it can be imported) and whether the ROCm
    directory exists. For every CUDA device the host answers the two reads
    of the probe: [torch.cuda.get_device_name(i)], and the attribute
    [total_mem] of [torch.cuda.get_device_properties(i)], which raises
    when the properties object has no attribute of that name. *)
Record CudaProbe : Type := mkProbe {
  probe_name : string;
  probe_total_mem : Outcome Z;
}.

Record TorchEnv : Type := mkTorch {
  cuda_is_available : bool;
  cuda_devices : list CudaProbe;
  mps_is_available : bool;
}.

Record HostEnv : Type := mkHost {
  os_cpu_count : option Z;
  torch : option TorchEnv;
  rocm_isdir : bool;
}.

Record GpuDevice : Type := mkDevice {
  dev_index : Z;
  dev_name : string;
  dev_memory_total : option Z;
}.

(** The dict built by [detect_hardware]. *)
Record Hardware : Type := mkHardware {
  cpu_available : bool;
  cpu_cores : Z;
  gpu_available : bool;
  gpu_devices : list GpuDevice;
  gpu_cuda_available : bool;
  npu_available : bool;
}.

Definition yes_no (b : bool) : string := if b then "yes" else "no".

(** The list comprehension over [range(torch.cuda.device_count())],
    starting at index [i]: it stops at the first read that raises. *)
Fixpoint enumerate_devices (i : Z) (ds : list CudaProbe)
  : Outcome (list GpuDevice) :=
  match ds with
  | [] => Returned []
  | d :: ds' =>
      match probe_total_mem d with
      | Raised exc => Raised exc
      | Returned mem =>
          match enumerate_devices (i + 1) ds' with
          | Raised exc => Raised exc
          | Returned rest =>
              Returned ({| dev_index := i; dev_name := probe_name d;
                           dev_memory_total := Some mem |} :: rest)
          end
      end
  end.

(** What [except ImportError] catches. *)
Definition is_import_error (e : Exn) : bool :=
  match e with
  | OtherException cls _ =>
      bool_decide (cls = "ImportError")
      || bool_decide (cls = "ModuleNotFoundError")
  | _ => false
  end.

(** The PyTorch part of [detect_hardware]: the GPU flag, the device list
    and the CUDA flag after the [try], or the exception that leaves it.
    The flags are set before the device list is built, and the only
    handler is [except ImportError]. *)
Definition probe_torch (env : HostEnv)
  : Outcome (bool * list GpuDevice * bool) :=
  match torch env with
  | Some t =>
      if cuda_is_available t
      then match enumerate_devices 0 (cuda_devices t) with
           | Returned devices => Returned (true, devices, true)
           | Raised exc =>
               if is_import_error exc then Returned (true, [], true)
               else Raised exc
           end
      else if mps_is_available t
      then Returned (true, [ {| dev_index := 0; dev_name := "Apple MPS";
                                dev_memory_total := None |} ], false)
      else Returned (false, [], false)
  | None => Returned (false, [], false)
  end.

Definition detect_hardware (env : HostEnv) : Outcome Hardware * list Event :=
  let cores := match os_cpu_count env with
               | Some n => if decide (n = 0) then 1 else n
               | None => 1
               end in
  match probe_torch env with
  | Raised exc => (Raised exc, [ EvDetectHardware ])
  | Returned (gpu, devices, cuda) =>
      let '(gpu, devices) :=
        if negb gpu
        then if rocm_isdir env
             then (true, [ {| dev_index := 0; dev_name := "AMD ROCm";
                              dev_memory_total := None |} ])
             else (gpu, devices)
        else (gpu, devices) in
      let hw := {| cpu_available := true; cpu_cores := cores;
                   gpu_available := gpu; gpu_devices := devices;
                   gpu_cuda_available := cuda; npu_available := false |} in
      (Returned hw,
       [ EvDetectHardware;
         EvLog INFO ("Hardware detected: CPU=" +:+ pretty cores
                     +:+ " cores, GPU=" +:+ yes_no gpu
                     +:+ ", NPU=" +:+ yes_no false) ])
  end.

Record t : Type := mk {
  _sockets : list (string * ElmerSocket.t);
  _type_index : gmap string (list string);
  _max_sockets : Z;
  _hardware : option Hardware;
  _started : bool;
}.

Definition __init__ (max_sockets : Z) : t :=
  {| _sockets := []; _type_index := ∅; _max_sockets := max_sockets;
     _hardware := None; _started := false |}.

(** The default of the constructor's [max_sockets]. *)
Definition default_max_sockets : Z := 16.

Definition set_sockets (self : t) (sockets : list (string * ElmerSocket.t))
  : t :=
  {| _sockets := sockets; _type_index := _type_index self;
     _max_sockets := _max_sockets self; _hardware := _hardware self;
     _started := _started self |}.

(** *** Registration *)

Definition register (self : t) (socket : ElmerSocket.t)
  : t * Outcome unit * list Event :=
  let sid := ElmerSocket.id socket in
  if dict_contains sid (_sockets self)
  then (self, Raised (ValueError ("Socket already registered: " +:+ sid)), [])
  else if Z.of_nat (length (_sockets self)) >=? _max_sockets self
  then (self,
        Raised (ValueError ("Socket limit reached ("
                            +:+ pretty (_max_sockets self)
                            +:+ "). Cannot register " +:+ sid)), [])
  else
    let sockets := dict_set sid socket (_sockets self) in
    let stype := ElmerSocket.type socket in
    let index := match _type_index self !! stype with
                 | None => <[stype := []]> (_type_index self)
                 | Some _ => _type_index self
                 end in
    let index := alter (λ bucket, bucket ++ [sid]) stype index in
    ({| _sockets := sockets; _type_index := index;
        _max_sockets := _max_sockets self; _hardware := _hardware self;
        _started := _started self |},
     Returned (),
     [ EvLog INFO ("Registered socket: " +:+ sid
                   +:+ " (type=" +:+ stype
                   +:+ ", hw=" +:+ ElmerSocket.hardware_affinity
                                     (ElmerSocket.cls socket) +:+ ")") ]).

Definition unregister (self : t) (socket_id : string) : t * list Event :=
  let '(popped, sockets) := dict_pop socket_id (_sockets self) in
  match popped with
  | None => (self, [])
  | Some socket =>
      let stype := ElmerSocket.type socket in
      let index :=
        match _type_index self !! stype with
        | Some bucket =>
            <[stype := filter (λ sid, sid ≠ socket_id) bucket]>
              (_type_index self)
        | None => _type_index self
        end in
      let evs :=
        if ElmerSocket.is_connected socket
        then match (ElmerSocket.disconnect socket).2 with
             | Returned _ => []
             | Raised exc =>
                 [ EvLog WARNING ("Error disconnecting " +:+ socket_id
                                  +:+ ": " +:+ exn_str exc) ]
             end
        else [] in
      ({| _sockets := sockets; _type_index := index;
          _max_sockets := _max_sockets self; _hardware := _hardware self;
          _started := _started self |}, evs)
  end.

(** *** Lifecycle *)

(** The loop of [connect_all] over [self._sockets.items()]: every socket is
    connected inside its own [try], and its outcome stored in [results]. *)
Fixpoint connect_loop (now : Q) (items : list (string * ElmerSocket.t))
    (results : list (string * bool))
  : list (string * ElmerSocket.t) * list (string * bool) * list Event :=
  match items with
  | [] => ([], results, [])
  | (sid, socket) :: rest =>
      let '(socket', r) := ElmerSocket.connect now socket in
      let '(ok, ev) :=
        match r with
        | Returned _ => (true, EvLog INFO ("Connected socket: " +:+ sid))
        | Raised exc =>
            (false, EvLog ERROR ("Failed to connect " +:+ sid +:+ ": "
                                 +:+ exn_str exc))
        end in
      let '(rest', results', evs) :=
        connect_loop now rest (dict_set sid ok results) in
      ((sid, socket') :: rest', results', ev :: evs)
  end.

(** [connect_all]: when no hardware is stored the probe runs first, and
    an exception of the probe leaves the method before any socket is
    touched. *)
Definition connect_all (env : HostEnv) (now : Q) (self : t)
  : t * Outcome (list (string * bool)) * list Event :=
  let '(probed, ev0) :=
    match _hardware self with
    | None => detect_hardware env
    | Some hw => (Returned hw, [])
    end in
  match probed with
  | Raised exc => (self, Raised exc, ev0)
  | Returned hw =>
      let '(sockets, results, evs) := connect_loop now (_sockets self) [] in
      ({| _sockets := sockets; _type_index := _type_index self;
          _max_sockets := _max_sockets self; _hardware := Some hw;
          _started := true |}, Returned results, ev0 ++ evs)
  end.

Fixpoint disconnect_loop (items : list (string * ElmerSocket.t))
  : list (string * ElmerSocket.t) * list Event :=
  match items with
  | [] => ([], [])
  | (sid, socket) :: rest =>
      let '(rest', evs) := disconnect_loop rest in
      if ElmerSocket.is_connected socket
      then
        let '(socket', r) := ElmerSocket.disconnect socket in
        let ev :=
          match r with
          | Returned _ => EvLog INFO ("Disconnected socket: " +:+ sid)
          | Raised exc =>
              EvLog WARNING ("Error disconnecting " +:+ sid +:+ ": "
                             +:+ exn_str exc)
          end in
        ((sid, socket') :: rest', ev :: evs)
      else ((sid, socket) :: rest', evs)
  end.

Definition disconnect_all (self : t) : t * list Event :=
  let '(sockets, evs) := disconnect_loop (_sockets self) in
  ({| _sockets := sockets; _type_index := _type_index self;
      _max_sockets := _max_sockets self; _hardware := _hardware self;
      _started := false |}, evs).

(** *** Signal routing *)

(** The [for sid in socket_ids] loop of [route_signal]. A socket that is
    missing or not connected is skipped; the result of the first [process]
    that returns is returned at once; a [process] that raises is logged
    and the loop goes on to the next id. When the loop runs out the input
    signal is returned. *)
Fixpoint route_loop (now : Q) (sockets : list (string * ElmerSocket.t))
    (socket_ids : list string) (signal : SubstrateSignal)
  : list (string * ElmerSocket.t) * SubstrateSignal * list Event :=
  match socket_ids with
  | [] => (sockets, signal, [])
  | sid :: rest =>
      match dict_get sid sockets with
      | Some socket =>
          if ElmerSocket.is_connected socket
          then
            let '(socket', r) := ElmerSocket.process now socket signal in
            let sockets' := dict_set sid socket' sockets in
            match r with
            | Returned result => (sockets', result, [])
            | Raised exc =>
                let '(sockets'', result, evs) :=
                  route_loop now sockets' rest signal in
                (sockets'', result,
                 EvLog ERROR ("Socket " +:+ sid
                              +:+ " failed to process signal "
                              +:+ signal_id signal +:+ ": " +:+ exn_str exc)
                 :: evs)
            end
          else route_loop now sockets rest signal
      | None => route_loop now sockets rest signal
      end
  end.

Definition route_signal (now : Q) (self : t) (signal : SubstrateSignal)
  : t * SubstrateSignal * list Event :=
  let target_type := SignalType_value (signal_type signal) in
  let socket_ids := default [] (_type_index self !! target_type) in
  let '(sockets, result, evs) :=
    route_loop now (_sockets self) socket_ids signal in
  (set_sockets self sockets, result, evs).

Definition get_socket (self : t) (socket_id : string)
  : option ElmerSocket.t :=
  dict_get socket_id (_sockets self).

(** *** Health *)

(** [v == s] for a string literal [s]. *)
Definition py_eq_str (v : PyVal) (s : string) : bool :=
  match v with PStr s' => bool_decide (s' = s) | _ => false end.

Fixpoint health_loop (now : Q) (items : list (string * ElmerSocket.t))
    (socket_health : list (string * PyDict)) (statuses : list PyVal)
  : list (string * PyDict) * list PyVal :=
  match items with
  | [] => (socket_health, statuses)
  | (sid, socket) :: rest =>
      match ElmerSocket.health_check now socket with
      | Returned h =>
          health_loop now rest (dict_set sid h socket_health)
            (statuses ++ [default (PStr "unknown") (dict_get "status" h)])
      | Raised exc =>
          health_loop now rest
            (dict_set sid [("status", PStr "error");
                           ("error", PStr (exn_str exc))] socket_health)
            (statuses ++ [PStr "error"])
      end
  end.

Definition overall_status (statuses : list PyVal) : string :=
  match statuses with
  | [] => "no_sockets"
  | _ =>
      if forallb (λ s, py_eq_str s "healthy") statuses then "healthy"
      else if forallb (λ s, py_eq_str s "offline" || py_eq_str s "error")
                statuses
      then "offline"
      else "degraded"
  end.

Record HealthReport : Type := mkReport {
  hr_status : string;
  hr_socket_count : Z;
  hr_connected_count : Z;
  hr_hardware : option Hardware;
  hr_sockets : list (string * PyDict);
}.

Definition health_report (now : Q) (self : t) : HealthReport :=
  let '(socket_health, statuses) := health_loop now (_sockets self) [] [] in
  {| hr_status := overall_status statuses;
     hr_socket_count := Z.of_nat (length (_sockets self));
     hr_connected_count :=
       Z.of_nat (length (filter (λ s, ElmerSocket.is_connected s = true)
                           (dict_values (_sockets self))));
     hr_hardware := _hardware self;
     hr_sockets := socket_health |}.

End SocketManager.

(** ** GraphEncoder (runtime/graph_encoder.py) *)

Module GraphEncoder.

Record t : Type := mk { _embedding_dim : Z }.

Definition __init__ : t := {| _embedding_dim := 384 |}.

(** The dict returned by [encode]. *)
Record Encoding : Type := mkEncoding {
  embedding : list Q;
  target_id : string;
  enc_metadata : PyDict;
}.

(** The keys tried by [_extract_text], in this order. *)
Definition text_keys : list string := ["text"; "content"; "message"; "query"].

(** The [for key in (...)] loop of [_extract_text]: the value of the first
    key that is in the payload and holds a [str]. *)
Fixpoint first_text (keys : list string) (payload : PyDict) : option string :=
  match keys with
  | [] => None
  | key :: keys' =>
      match dict_get key payload with
      | Some (PStr s) => Some s
      | _ => first_text keys' payload
      end
  end.

Section Builtins.
(** [str] on a dict, and the SHA-256 / float32 embedding of a text for a
    given dimension (hashlib and numpy), are taken from the host. *)
Context (py_str : PyDict → string) (hash_embed : Z → string → list Q).

Definition _extract_text (signal : SubstrateSignal) : string :=
  match first_text text_keys (payload signal) with
  | Some s => s
  | None => py_str (payload signal)
  end.

Definition _embed (self : t) (text : string) : list Q :=
  hash_embed (_embedding_dim self) text.

Definition encode (self : t) (signal : SubstrateSignal) : Encoding :=
  let text := _extract_text signal in
  let embedding := _embed self text in
  let target_id :=
    SignalType_value (signal_type signal) +:+ ":" +:+ source_socket signal in
  {| embedding := embedding;
     target_id := target_id;
     enc_metadata :=
       [ ("signal_id", PStr (signal_id signal));
         ("signal_type", PStr (SignalType_value (signal_type signal)));
         ("source_socket", PStr (source_socket signal));
         ("confidence", PFloat (confidence signal));
         ("priority", PInt (priority signal)) ] |}.

End Builtins.

End GraphEncoder.

(** ** SignalDecoder (runtime/signal_decoder.py) *)

Module SignalDecoder.

Definition decode (signal : SubstrateSignal) : PyDict :=
  [ ("signal_id", PStr (signal_id signal));
    ("signal_type", PStr (SignalType_value (signal_type signal)));
    ("source_socket", PStr (source_socket signal));
    ("payload", PDict (payload signal));
    ("confidence", PFloat (confidence signal));
    ("priority", PInt (priority signal));
    ("metadata", PDict (metadata signal));
    ("graph_encoding", match graph_encoding signal with
                       | Some d => PDict d
                       | None => PNone
                       end) ].

End SignalDecoder.

(** ** ElmerEngine (runtime/engine.py) *)

Module ElmerEngine.

(** The part of [ElmerConfig] (core/config.py) the engine reads. *)
Record NGEcosystemConfig : Type := mkEcoConfig {
  module_id : string;
  state_path : string;
  peer_bridge_enabled : bool;
  peer_sync_interval : Z;
  tier3_upgrade_enabled : bool;
  tier3_poll_interval : Q;
}.

Record ElmerConfig : Type := mkConfig {
  version : string;
  max_sockets : Z;
  ng_ecosystem : NGEcosystemConfig;
}.

Definition default_config : ElmerConfig :=
  {| version := "0.1.0"; max_sockets := 16;
     ng_ecosystem :=
       {| module_id := "elmer"; state_path := "";
          peer_bridge_enabled := true; peer_sync_interval := 100;
          tier3_upgrade_enabled := true;
          tier3_poll_interval := Qmake 300 1 |} |}.

(** The external learning collaborator (ng_ecosystem.NGEcosystem), as far
    as the engine calls it. Each call may raise. *)
Record NGEcosystem : Type := mkEco {
  tier : Z;
  get_context : list Q → Outcome PyDict;
  stats : Outcome PyDict;
  shutdown : Outcome unit;
}.

Record t : Type := mk {
  _config : ElmerConfig;
  _socket_manager : SocketManager.t;
  _graph_encoder : GraphEncoder.t;
  _ecosystem : option NGEcosystem;
  _started : bool;
  _start_time : Q;
  _process_count : Z;
}.

Definition __init__ (config : ElmerConfig) : t :=
  {| _config := config;
     _socket_manager := SocketManager.__init__ (max_sockets config);
     _graph_encoder := GraphEncoder.__init__;
     _ecosystem := None;
     _started := false;
     _start_time := Qmake 0 1;
     _process_count := 0 |}.

Definition set_manager (self : t) (m : SocketManager.t) : t :=
  {| _config := _config self; _socket_manager := m;
     _graph_encoder := _graph_encoder self; _ecosystem := _ecosystem self;
     _started := _started self; _start_time := _start_time self;
     _process_count := _process_count self |}.

Inductive StartReport : Type :=
  | AlreadyStarted
  | Started (version : string) (sockets : list (string * bool))
            (ecosystem_tier : Z) (hardware : SocketManager.Hardware).

Section Host.
Context (py_str : PyDict → string) (hash_embed : Z → string → list Q).
(** [NGEcosystem.get_instance], applied to the module id, the state path
    and the nested config dict. *)
Context (get_instance : string → option string → PyDict → Outcome NGEcosystem).

Definition ecosystem_kwargs (c : NGEcosystemConfig) : PyDict :=
  [ ("peer_bridge",
     PDict [ ("enabled", PBool (peer_bridge_enabled c));
             ("sync_interval", PInt (peer_sync_interval c)) ]);
    ("tier3_upgrade",
     PDict [ ("enabled", PBool (tier3_upgrade_enabled c));
             ("poll_interval", PFloat (tier3_poll_interval c)) ]) ].

(** The dict [detect_hardware] returns. *)
Definition hardware_dict (hw : SocketManager.Hardware) : PyDict :=
  [ ("cpu", PDict [ ("available", PBool (SocketManager.cpu_available hw));
                    ("cores", PInt (SocketManager.cpu_cores hw)) ]);
    ("gpu",
     PDict [ ("available", PBool (SocketManager.gpu_available hw));
             ("devices",
              PList ((λ d,
                PDict (("index", PInt (SocketManager.dev_index d))
                       :: ("name", PStr (SocketManager.dev_name d))
                       :: match SocketManager.dev_memory_total d with
                          | Some mem => [("memory_total", PInt mem)]
                          | None => []
                          end))
                <$> SocketManager.gpu_devices hw));
             ("cuda_available", PBool (SocketManager.gpu_cuda_available hw)) ]);
    ("npu", PDict [ ("available", PBool (SocketManager.npu_available hw)) ]) ].

(** The dict [start] returns. *)
Definition report_dict (report : StartReport) : PyDict :=
  match report with
  | AlreadyStarted => [ ("status", PStr "already_started") ]
  | Started version sockets ecosystem_tier hardware =>
      [ ("status", PStr "started");
        ("version", PStr version);
        ("sockets", PDict ((λ e, (e.1, PBool e.2)) <$> sockets));
        ("ecosystem_tier", PInt ecosystem_tier);
        ("hardware", PDict (hardware_dict hardware)) ]
  end.

Definition start (env : SocketManager.HostEnv) (now : Q) (self : t)
  : t * Outcome StartReport * list Event :=
  if _started self then (self, Returned AlreadyStarted, [])
  else
    let ev0 :=
      EvLog INFO ("Starting Elmer engine v" +:+ version (_config self)) in
    let '(m1, r1, evs1) :=
      SocketManager.register (_socket_manager self)
        (ElmerSocket.new ComprehensionSocket.class) in
    match r1 with
    | Raised exc => (set_manager self m1, Raised exc, ev0 :: evs1)
    | Returned _ =>
        let '(m2, r2, evs2) :=
          SocketManager.register m1 (ElmerSocket.new MonitoringSocket.class) in
        match r2 with
        | Raised exc => (set_manager self m2, Raised exc, ev0 :: evs1 ++ evs2)
        | Returned _ =>
            let '(m3, connected, evs3) :=
              SocketManager.connect_all env now m2 in
            match connected with
            | Raised exc =>
                (set_manager self m3, Raised exc, ev0 :: evs1 ++ evs2 ++ evs3)
            | Returned connect_results =>
                let eco_config := ng_ecosystem (_config self) in
                let '(ecosystem, eco_tier, evs4) :=
                  match get_instance (module_id eco_config)
                          (if decide (state_path eco_config = "")
                           then None else Some (state_path eco_config))
                          (ecosystem_kwargs eco_config) with
                  | Returned eco => (Some eco, tier eco, [])
                  | Raised exc =>
                      (None, 0,
                       [ EvLog WARNING
                           ("NG ecosystem init failed (standalone mode): "
                            +:+ exn_str exc) ])
                  end in
                let started :=
                  {| _config := _config self; _socket_manager := m3;
                     _graph_encoder := _graph_encoder self;
                     _ecosystem := ecosystem; _started := true;
                     _start_time := now;
                     _process_count := _process_count self |} in
                let '(probed, evs5) := SocketManager.detect_hardware env in
                match probed with
                | Raised exc =>
                    (started, Raised exc,
                     ev0 :: evs1 ++ evs2 ++ evs3 ++ evs4 ++ evs5)
                | Returned hw =>
                    let report :=
                      Started (version (_config self)) connect_results
                        eco_tier hw in
                    (started, Returned report,
                     ev0 :: evs1 ++ evs2 ++ evs3 ++ evs4 ++ evs5
                       ++ [ EvLog INFO ("Elmer engine started: "
                                        +:+ py_str (report_dict report)) ])
                end
            end
        end
    end.

Definition stop (self : t) : t * Outcome unit * list Event :=
  if negb (_started self) then (self, Returned (), [])
  else
    let ev0 := EvLog INFO "Stopping Elmer engine..." in
    let '(m, evs) := SocketManager.disconnect_all (_socket_manager self) in
    let self1 := set_manager self m in
    match match _ecosystem self with
          | Some eco => shutdown eco
          | None => Returned ()
          end with
    | Raised exc => (self1, Raised exc, ev0 :: evs)
    | Returned _ =>
        ({| _config := _config self1; _socket_manager := m;
            _graph_encoder := _graph_encoder self1;
            _ecosystem := _ecosystem self1; _started := false;
            _start_time := _start_time self1;
            _process_count := _process_count self1 |},
         Returned (), ev0 :: evs ++ [ EvLog INFO "Elmer engine stopped" ])
    end.

(** [process_text]: [uid] is the identity drawn for the new signal and
    [now] the clock reading. *)
Definition process_text (uid : string) (now : Q) (self : t) (text : string)
  : t * Outcome PyDict * list Event :=
  if negb (_started self)
  then (self, Raised (RuntimeError "Engine not started. Call start() first."),
        [])
  else
    let count := _process_count self + 1 in
    let signal :=
      SubstrateSignal_create uid now "engine:input" SENSORY
        [("text", PStr text)] (Qmake 1 1) 5 None
        [("process_id", PInt count)] in
    let '(m, processed, evs) :=
      SocketManager.route_signal now (_socket_manager self) signal in
    let self1 :=
      {| _config := _config self; _socket_manager := m;
         _graph_encoder := _graph_encoder self;
         _ecosystem := _ecosystem self; _started := _started self;
         _start_time := _start_time self; _process_count := count |} in
    let eco_result : Outcome (option PyDict) :=
      match _ecosystem self with
      | Some eco =>
          let graph_encoding :=
            GraphEncoder.encode py_str hash_embed (_graph_encoder self)
              processed in
          match get_context eco (GraphEncoder.embedding graph_encoding) with
          | Returned ctx => Returned (Some ctx)
          | Raised exc => Raised exc
          end
      | None => Returned None
      end in
    match eco_result with
    | Raised exc => (self1, Raised exc, evs)
    | Returned eco_result =>
        let result := SignalDecoder.decode processed in
        let result := dict_set "process_id" (PInt count) result in
        let result :=
          match eco_result with
          | Some ((_ :: _) as ctx) => dict_set "ecosystem" (PDict ctx) result
          | _ => result
          end in
        (self1, Returned result, evs)
    end.

Record EngineHealth : Type := mkHealth {
  eh_status : string;
  eh_version : string;
  eh_uptime : Q;
  eh_process_count : Z;
  eh_sockets : SocketManager.HealthReport;
  eh_ecosystem : option PyDict;
}.

Definition health (now : Q) (self : t) : Outcome EngineHealth :=
  let socket_health := SocketManager.health_report now (_socket_manager self) in
  match match _ecosystem self with
        | Some eco =>
            match stats eco with
            | Returned s => Returned (Some s)
            | Raised exc => Raised exc
            end
        | None => Returned None
        end with
  | Raised exc => Raised exc
  | Returned eco_stats =>
      Returned
        {| eh_status := if _started self then "healthy" else "offline";
           eh_version := version (_config self);
           eh_uptime := if _started self
                        then Qminus now (_start_time self)
                        else Qmake 0 1;
           eh_process_count := _process_count self;
           eh_sockets := socket_health;
           eh_ecosystem := eco_stats |}
  end.

End Host.

End ElmerEngine.

(** ** Sequences of manager operations *)

Module Ops.

Inductive Op : Type :=
  | Register (socket : ElmerSocket.t)
  | Unregister (socket_id : string)
  | ConnectAll (env : SocketManager.HostEnv) (now : Q)
  | DisconnectAll
  | RouteSignal (now : Q) (signal : SubstrateSignal).

(** The manager after one operation (a [register] or [connect_all] that
    raises leaves the manager as the raise found it). *)
Definition step (m : SocketManager.t) (op : Op) : SocketManager.t :=
  match op with
  | Register s => (SocketManager.register m s).1.1
  | Unregister sid => (SocketManager.unregister m sid).1
  | ConnectAll env now => (SocketManager.connect_all env now m).1.1
  | DisconnectAll => (SocketManager.disconnect_all m).1
  | RouteSignal now signal => (SocketManager.route_signal now m signal).1.1
  end.

Definition run (ops : list Op) (m : SocketManager.t) : SocketManager.t :=
  fold_left step ops m.

(** The events emitted by one operation. *)
Definition events (m : SocketManager.t) (op : Op) : list Event :=
  match op with
  | Register s => (SocketManager.register m s).2
  | Unregister sid => (SocketManager.unregister m sid).2
  | ConnectAll env now => (SocketManager.connect_all env now m).2
  | DisconnectAll => (SocketManager.disconnect_all m).2
  | RouteSignal now signal => (SocketManager.route_signal now m signal).2
  end.

Fixpoint trace (ops : list Op) (m : SocketManager.t) : list Event :=
  match ops with
  | [] => []
  | op :: ops' => events m op ++ trace ops' (step m op)
  end.

End Ops.

(** ** Invariants of the registry *)

(** How often [sid] occurs in a bucket. *)
Definition occurrences (sid : string) (bucket : list string) : nat :=
  length (filter (λ x, x = sid) bucket).

(** The registry is a dict (no key twice) and files every socket under its
    own id. *)
Definition registry_ok (m : SocketManager.t) : Prop :=
  NoDup (dict_keys (SocketManager._sockets m))
  ∧ ∀ sid s, dict_get sid (SocketManager._sockets m) = Some s
             → ElmerSocket.id s = sid.

(** Every id in a type bucket is registered. *)
Definition index_in_registry (m : SocketManager.t) : Prop :=
  ∀ stype bucket sid,
    SocketManager._type_index m !! stype = Some bucket →
    sid ∈ bucket → is_Some (dict_get sid (SocketManager._sockets m)).

(** Every registered socket is listed exactly once in the bucket of its
    type, and in no other bucket. *)
Definition registry_in_index (m : SocketManager.t) : Prop :=
  ∀ sid s,
    dict_get sid (SocketManager._sockets m) = Some s →
    (∃ bucket, SocketManager._type_index m !! ElmerSocket.type s = Some bucket
               ∧ occurrences sid bucket = 1%nat)
    ∧ ∀ stype bucket, stype ≠ ElmerSocket.type s →
        SocketManager._type_index m !! stype = Some bucket → sid ∉ bucket.

Definition consistent (m : SocketManager.t) : Prop :=
  index_in_registry m ∧ registry_in_index m.

(** A registry with every socket reduced to its class: the part of the
    registry that connecting, disconnecting and routing leave alone. *)
Definition classes_of (sockets : list (string * ElmerSocket.t))
  : list (string * ElmerSocket.Class) :=
  (λ e, (e.1, ElmerSocket.cls e.2)) <$> sockets.

Definition manager_inv (m : SocketManager.t) : Prop :=
  registry_ok m ∧ consistent m.

(** An id that routing passes over: its socket is missing from the
    registry or not connected. *)
Definition idle (sockets : list (string * ElmerSocket.t)) (sid : string)
  : Prop :=
  ∀ s, dict_get sid sockets = Some s → ElmerSocket.is_connected s = false.

(** What [health_report] files for one socket: its health dict, or the
    error entry when [health_check] raises. *)
Definition health_entry (now : Q) (s : ElmerSocket.t) : PyDict :=
  match ElmerSocket.health_check now s with
  | Returned h => h
  | Raised exc => [("status", PStr "error"); ("error", PStr (exn_str exc))]
  end.

(** Whether [connect] returns (rather than raises) on a socket. *)
Definition connect_ok (now : Q) (s : ElmerSocket.t) : bool :=
  match (ElmerSocket.connect now s).2 with
  | Returned _ => true
  | Raised _ => false
  end.

(** The first of [keys] that is a key of the payload, with the value it
    holds (of whatever type). *)
Fixpoint first_present (keys : list string) (payload : PyDict)
  : option (string * PyVal) :=
  match keys with
  | [] => None
  | key :: keys' =>
      match dict_get key payload with
      | Some v => Some (key, v)
      | None => first_present keys' payload
      end
  end.

(** The statuses listed in the per-socket part of a health report. *)
Definition reported_statuses (socket_health : list (string * PyDict))
  : list PyVal :=
  (λ e, default (PStr "unknown") (dict_get "status" e.2)) <$> socket_health.

(** ** Sockets used in examples *)

Module Doubles.
Import ElmerSocket.

(** A socket of any id and type that behaves like the shipped ones. *)
Definition Relay (sid stype : string) : Class :=
  {| socket_id := sid; socket_type := stype;
     hardware_affinity := default_hardware_affinity;
     m_connect := ComprehensionSocket.connect;
     m_disconnect := ComprehensionSocket.disconnect;
     m_process := λ now self signal,
       if negb (_connected self)
       then (self, Raised (RuntimeError "Relay not connected"))
       else ({| _connected := _connected self;
                _process_count := _process_count self + 1;
                _error_count := _error_count self;
                _last_process_time := now;
                _connect_time := _connect_time self |},
             Returned (with_updates signal
               {| ov_source_socket := Some sid; ov_payload := None;
                  ov_confidence := None; ov_priority := None;
                  ov_metadata := None; ov_graph_encoding := None |}));
     m_health_check := λ now self,
       Returned (dict_set "status"
          (PStr (if _connected self then "healthy" else "offline"))
          (_base_health sid stype now self)) |}.

(** A socket that connects but whose [process] and [health_check] raise. *)
Definition Broken (sid stype : string) : Class :=
  {| socket_id := sid; socket_type := stype;
     hardware_affinity := default_hardware_affinity;
     m_connect := ComprehensionSocket.connect;
     m_disconnect := ComprehensionSocket.disconnect;
     m_process := λ now self signal,
       ({| _connected := _connected self;
           _process_count := _process_count self;
           _error_count := _error_count self + 1;
           _last_process_time := _last_process_time self;
           _connect_time := _connect_time self |},
        Raised (ValueError "incompatible signal"));
     m_health_check := λ now self, Raised (RuntimeError "probe failed") |}.

(** A socket whose [connect] raises because its resources are missing. *)
Definition Unplugged (sid stype : string) : Class :=
  {| socket_id := sid; socket_type := stype;
     hardware_affinity := "gpu";
     m_connect := λ now self,
       (self, Raised (RuntimeError "resources unavailable"));
     m_disconnect := ComprehensionSocket.disconnect;
     m_process := λ now self signal,
       (self, Raised (RuntimeError "Unplugged not connected"));
     m_health_check := λ now self,
       Returned (dict_set "status" (PStr "offline")
                   (_base_health sid stype now self)) |}.

(** A socket that connects and whose [process] hands back the signal it
    was given. *)
Definition Echo (sid stype : string) : Class :=
  {| socket_id := sid; socket_type := stype;
     hardware_affinity := default_hardware_affinity;
     m_connect := ComprehensionSocket.connect;
     m_disconnect := ComprehensionSocket.disconnect;
     m_process := λ now self signal, (self, Returned signal);
     m_health_check := λ now self,
       Returned (dict_set "status"
          (PStr (if _connected self then "healthy" else "offline"))
          (_base_health sid stype now self)) |}.

(** A host with PyTorch and one CUDA device whose properties object has
    no attribute [total_mem] (PyTorch names it [total_memory]). *)
Definition cuda_box : SocketManager.HostEnv :=
  {| SocketManager.os_cpu_count := Some 16;
     SocketManager.torch :=
       Some {| SocketManager.cuda_is_available := true;
               SocketManager.cuda_devices :=
                 [ {| SocketManager.probe_name := "NVIDIA A100";
                      SocketManager.probe_total_mem :=
                        Raised (OtherException "AttributeError"
                                  "'_CudaDeviceProperties' object has no attribute 'total_mem'") |} ];
               SocketManager.mps_is_available := false |};
     SocketManager.rocm_isdir := false |}.

Definition laptop : SocketManager.HostEnv :=
  {| SocketManager.os_cpu_count := Some 8; SocketManager.torch := None;
     SocketManager.rocm_isdir := false |}.

Definition t0 : Q := Qmake 0 1.
Definition t1 : Q := Qmake 1 1.

Definition hello : SubstrateSignal :=
  SubstrateSignal_create "sig-1" t0 "test:input" SENSORY
    [("text", PStr "route me")] (Qmake 1 1) 5 None [].

Definition recall : SubstrateSignal :=
  SubstrateSignal_create "sig-2" t0 "test:input" MEMORY
    [("query", PStr "something")] (Qmake 1 1) 5 None [].

(** A manager with the two shipped sockets, connected. *)
Definition shipped : SocketManager.t :=
  Ops.run [ Ops.Register (new ComprehensionSocket.class);
            Ops.Register (new MonitoringSocket.class);
            Ops.ConnectAll laptop t0 ]
    (SocketManager.__init__ 16).

(** A manager with two connected sensory sockets, the first of which
    fails on every signal. *)
Definition broken_then_relay : SocketManager.t :=
  Ops.run [ Ops.Register (new (Broken "lab:broken" "sensory"));
            Ops.Register (new (Relay "lab:relay" "sensory"));
            Ops.ConnectAll laptop t0 ]
    (SocketManager.__init__ 16).

(** A manager with one connected sensory socket that echoes. *)
Definition echo_only : SocketManager.t :=
  Ops.run [ Ops.Register (new (Echo "lab:echo" "sensory"));
            Ops.ConnectAll laptop t0 ]
    (SocketManager.__init__ 16).

(** The two shipped sockets registered, not yet connected. *)
Definition shipped_registered : SocketManager.t :=
  Ops.run [ Ops.Register (new ComprehensionSocket.class);
            Ops.Register (new MonitoringSocket.class) ]
    (SocketManager.__init__ 16).

(** A manager with one socket that cannot connect between two that can. *)
Definition one_unplugged : SocketManager.t :=
  Ops.run [ Ops.Register (new ComprehensionSocket.class);
            Ops.Register (new (Unplugged "lab:gpu" "inference"));
            Ops.Register (new MonitoringSocket.class) ]
    (SocketManager.__init__ 16).

End Doubles.

(** ** Python [len] on text *)

(** A [string] holds a text in UTF-8. A byte of the form [10xxxxxx]
    continues a code point; every other byte starts one. *)
Definition is_continuation (c : Ascii.ascii) : bool :=
  match c with
  | Ascii.Ascii _ _ _ _ _ _ b6 b7 => b7 && negb b6
  end.

(** [len(text)]: the number of code points of [text]. *)
Fixpoint py_len (text : string) : Z :=
  match text with
  | EmptyString => 0
  | String c rest => (if is_continuation c then 0 else 1) + py_len rest
  end.

(** ** Python list slices *)

(** [l[-n:]]: the last [n] items for a positive [n] (all of [l] when it
    has fewer); for [n = 0] the start index is [0], so the whole list; for
    a negative [n] the start index is [-n], so the first [-n] items are
    dropped. *)
Definition slice_last {A : Type} (n : Z) (l : list A) : list A :=
  if decide (0 < n)
  then drop (length l - Z.to_nat n) l
  else drop (Z.to_nat (- n)) l.

(** ** More of the socket manager (core/socket_manager.py) *)

Module SocketViews.

(** One entry of [list_sockets]. *)
Record SocketInfo : Type := mkInfo {
  info_socket_id : string;
  info_socket_type : string;
  info_connected : bool;
  info_hardware_affinity : string;
}.

Definition list_sockets (self : SocketManager.t) : list SocketInfo :=
  (λ s, {| info_socket_id := ElmerSocket.id s;
           info_socket_type := ElmerSocket.type s;
           info_connected := ElmerSocket.is_connected s;
           info_hardware_affinity :=
             ElmerSocket.hardware_affinity (ElmerSocket.cls s) |})
    <$> dict_values (SocketManager._sockets self).

End SocketViews.

(** A socket class whose [connect] and [disconnect] keep the contract of
    the base class: they return, and leave the socket connected,
    respectively disconnected. *)
Definition well_behaved (c : ElmerSocket.Class) : Prop :=
  (∀ now self, ∃ self', ElmerSocket.m_connect c now self = (self', Returned ())
                        ∧ ElmerSocket._connected self' = true)
  ∧ (∀ self, ∃ self', ElmerSocket.m_disconnect c self = (self', Returned ())
                      ∧ ElmerSocket._connected self' = false).

(** The two socket classes that come with the engine. *)
Definition shipped (c : ElmerSocket.Class) : Prop :=
  c = ComprehensionSocket.class ∨ c = MonitoringSocket.class.

(** The metadata keys the shipped sockets write. *)
Definition annotation_keys : list string :=
  [ "comprehension_processed"; "comprehension_version";
    "monitoring_processed"; "monitoring_version" ].

(** The connected sockets among the ids of a bucket. *)
Definition connected_in (sockets : list (string * ElmerSocket.t))
    (bucket : list string) : list string :=
  filter (λ sid, ElmerSocket.is_connected <$> dict_get sid sockets = Some true)
    bucket.

(** ** Pipelines (pipelines/sensory.py, inference.py, memory.py, identity.py) *)

Module SensoryPipeline.

Record t : Type := mk { _process_count : Z }.

Definition __init__ : t := {| _process_count := 0 |}.

Definition process (uid : string) (now : Q) (self : t) (text : string)
  : t * SubstrateSignal :=
  ({| _process_count := _process_count self + 1 |},
   SubstrateSignal_create uid now "pipeline:sensory" SENSORY
     [ ("text", PStr text);
       ("input_length", PInt (py_len text)) ]
     (Qmake 1 1) 5 None
     [ ("pipeline", PStr "sensory"); ("version", PStr "0.1.0") ]).

Definition stats (self : t) : PyDict :=
  [ ("pipeline", PStr "sensory");
    ("process_count", PInt (_process_count self)) ].

End SensoryPipeline.

Module InferencePipeline.

Record t : Type := mk { _process_count : Z }.

Definition __init__ : t := {| _process_count := 0 |}.

Definition process (uid : string) (now : Q) (self : t)
    (signal : SubstrateSignal) : t * SubstrateSignal :=
  ({| _process_count := _process_count self + 1 |},
   SubstrateSignal_create uid now "pipeline:inference" INFERENCE
     (dict_set "inference_result" (PStr "pass_through") (payload signal))
     (confidence signal) (priority signal) None
     (dict_set "parent_signal" (PStr (signal_id signal))
        (dict_set "version" (PStr "0.1.0")
           (dict_set "pipeline" (PStr "inference") (metadata signal))))).

Definition stats (self : t) : PyDict :=
  [ ("pipeline", PStr "inference");
    ("process_count", PInt (_process_count self)) ].

End InferencePipeline.

Module MemoryPipeline.

Record t : Type := mk {
  _buffer : list SubstrateSignal;
  _max_signals : Z;
  _store_count : Z;
  _recall_count : Z;
}.

Definition __init__ (max_signals : Z) : t :=
  {| _buffer := []; _max_signals := max_signals;
     _store_count := 0; _recall_count := 0 |}.

Definition default_max_signals : Z := 1000.

Definition store (uid : string) (now : Q) (self : t)
    (signal : SubstrateSignal) : t * SubstrateSignal :=
  let buffer := _buffer self ++ [signal] in
  let buffer :=
    if Z.of_nat (length buffer) >? _max_signals self
    then slice_last (_max_signals self) buffer
    else buffer in
  ({| _buffer := buffer; _max_signals := _max_signals self;
      _store_count := _store_count self + 1;
      _recall_count := _recall_count self |},
   SubstrateSignal_create uid now "pipeline:memory" MEMORY
     [ ("action", PStr "stored");
       ("stored_signal_id", PStr (signal_id signal));
       ("buffer_size", PInt (Z.of_nat (length buffer))) ]
     (Qmake 1 1) 3 None
     [ ("pipeline", PStr "memory"); ("version", PStr "0.1.0") ]).

(** The signals [recall] reports: [self._buffer[-k:] if self._buffer else []]. *)
Definition recent (self : t) (k : Z) : list SubstrateSignal :=
  match _buffer self with
  | [] => []
  | _ => slice_last k (_buffer self)
  end.

Definition recall (uid : string) (now : Q) (self : t) (query : string)
    (k : Z) : t * SubstrateSignal :=
  let recent := recent self k in
  ({| _buffer := _buffer self; _max_signals := _max_signals self;
      _store_count := _store_count self;
      _recall_count := _recall_count self + 1 |},
   SubstrateSignal_create uid now "pipeline:memory" MEMORY
     [ ("action", PStr "recalled");
       ("query", PStr query);
       ("recalled_count", PInt (Z.of_nat (length recent)));
       ("signal_ids", PList ((λ s, PStr (signal_id s)) <$> recent)) ]
     (Qmake 1 2) 3 None
     [ ("pipeline", PStr "memory"); ("version", PStr "0.1.0") ]).

(** The default of [recall]'s [k]. *)
Definition default_k : Z := 5.

Definition stats (self : t) : PyDict :=
  [ ("pipeline", PStr "memory");
    ("buffer_size", PInt (Z.of_nat (length (_buffer self))));
    ("store_count", PInt (_store_count self));
    ("recall_count", PInt (_recall_count self)) ].

(** A run of [store] calls, each with the identity and clock reading it
    draws. *)
Fixpoint store_all (self : t)
    (calls : list (string * Q * SubstrateSignal)) : t :=
  match calls with
  | [] => self
  | (uid, now, signal) :: calls' => store_all (store uid now self signal).1 calls'
  end.

End MemoryPipeline.

(** ** The pipeline chain of the hook (elmer_hook.py) *)

Module ElmerHook.

(** The pipelines [_process_message] drives. *)
Record Pipelines : Type := mkPipelines {
  _sensory : SensoryPipeline.t;
  _inference : InferencePipeline.t;
  _memory : MemoryPipeline.t;
}.

Definition new_pipelines : Pipelines :=
  {| _sensory := SensoryPipeline.__init__;
     _inference := InferencePipeline.__init__;
     _memory := MemoryPipeline.__init__ MemoryPipeline.default_max_signals |}.

(** [_process_message]: sensory, then inference, then the memory store;
    [uid1], [uid2], [uid3] are the identities drawn for the three signals
    created on the way. None of the three pipelines raises, so the
    handler of the [try] is never entered. *)
Definition _process_message (uid1 uid2 uid3 : string) (now : Q)
    (self : Pipelines) (text : string) (result : PyDict)
  : Pipelines * PyDict :=
  let '(sensory, sensory_signal) :=
    SensoryPipeline.process uid1 now (_sensory self) text in
  let '(inference, inference_signal) :=
    InferencePipeline.process uid2 now (_inference self) sensory_signal in
  let '(memory, _) :=
    MemoryPipeline.store uid3 now (_memory self) inference_signal in
  ({| _sensory := sensory; _inference := inference; _memory := memory |},
   dict_set "elmer"
     (PDict [ ("sensory_signal", PStr (signal_id sensory_signal));
              ("inference_signal", PStr (signal_id inference_signal));
              ("pipelines_active", PBool true) ])
     result).

(** [_derive_target] *)
Definition _derive_target (text : string) : string := "elmer:substrate_input".

End ElmerHook.
(** * Properties *)

(** ** Dicts *)

Section DictFacts.
Context {V : Type}.
Implicit Types (k : string) (v : V) (d : list (string * V)).

Lemma dict_get_None k d : dict_get k d = None ↔ k ∉ dict_keys d.
Proof.
  unfold dict_keys. induction d as [|[k' v'] d IH]; simpl.
  - split; [intros _; apply not_elem_of_nil | done].
  - rewrite not_elem_of_cons. destruct (decide (k' = k)) as [->|Hne].
    + split; [done | intros [? _]; done].
    + rewrite IH. split; [intros ?; split; [congruence | done] | intros [_ ?]; done].
Qed.

Lemma dict_get_Some_keys k v d : dict_get k d = Some v → k ∈ dict_keys d.
Proof.
  intros H. destruct (decide (k ∈ dict_keys d)) as [|Hn]; [done|].
  apply dict_get_None in Hn. congruence.
Qed.

Lemma dict_get_set_eq k v d : dict_get k (dict_set k v d) = Some v.
Proof.
  induction d as [|[k' v'] d IH]; simpl.
  - by rewrite decide_True.
  - destruct (decide (k' = k)) as [->|Hne]; simpl.
    + by rewrite decide_True.
    + by rewrite decide_False.
Qed.

Lemma dict_get_set_ne k k' v d :
  k ≠ k' → dict_get k' (dict_set k v d) = dict_get k' d.
Proof.
  intros Hne. induction d as [|[k0 v0] d IH]; simpl.
  - by rewrite decide_False.
  - destruct (decide (k0 = k)) as [->|Hne0]; simpl.
    + by rewrite !decide_False.
    + destruct (decide (k0 = k')); [done | apply IH].
Qed.

Lemma dict_set_fresh k v d : dict_get k d = None → dict_set k v d = d ++ [(k, v)].
Proof.
  induction d as [|[k' v'] d IH]; simpl; [done|].
  destruct (decide (k' = k)); [done|]. intros H. by rewrite IH.
Qed.

Lemma dict_keys_set_present k v d :
  k ∈ dict_keys d → dict_keys (dict_set k v d) = dict_keys d.
Proof.
  unfold dict_keys. induction d as [|[k' v'] d IH]; simpl.
  - intros H. by apply elem_of_nil in H.
  - destruct (decide (k' = k)) as [->|Hne]; simpl; [done|].
    intros [?|?]%elem_of_cons; [congruence|]. f_equal. by apply IH.
Qed.

Lemma dict_pop_fst k d : (dict_pop k d).1 = dict_get k d.
Proof.
  induction d as [|[k' v'] d IH]; simpl; [done|].
  destruct (decide (k' = k)); [done|].
  destruct (dict_pop k d) as [r d'']. simpl in *. done.
Qed.

Lemma dict_pop_absent k d : dict_get k d = None → dict_pop k d = (None, d).
Proof.
  induction d as [|[k' v'] d IH]; simpl; [done|].
  destruct (decide (k' = k)); [done|]. intros H. by rewrite IH.
Qed.

Lemma dict_pop_keys k d :
  dict_keys (dict_pop k d).2 `sublist_of` dict_keys d.
Proof.
  unfold dict_keys. induction d as [|[k' v'] d IH]; simpl; [done|].
  destruct (decide (k' = k)); simpl.
  - by apply sublist_cons.
  - destruct (dict_pop k d) as [r d'']. simpl in *. by apply sublist_skip.
Qed.

Lemma dict_pop_get k k' d :
  NoDup (dict_keys d) →
  dict_get k' (dict_pop k d).2 = if decide (k' = k) then None else dict_get k' d.
Proof.
  unfold dict_keys. induction d as [|[k0 v0] d IH]; simpl; intros Hnd.
  - by destruct (decide (k' = k)).
  - apply NoDup_cons in Hnd as [Hnotin Hnd]. specialize (IH Hnd).
    destruct (decide (k0 = k)) as [->|Hne]; simpl.
    + destruct (decide (k' = k)) as [->|Hne'].
      * by apply dict_get_None.
      * by rewrite decide_False.
    + destruct (dict_pop k d) as [r d'']. simpl in *.
      destruct (decide (k0 = k')) as [->|Hne0].
      * by rewrite decide_False.
      * done.
Qed.

End DictFacts.

(** ** Routing *)

Section Routing.
Import SocketManager.
Implicit Types (sockets : list (string * ElmerSocket.t)) (m : SocketManager.t).

Lemma set_sockets_id m : set_sockets m (_sockets m) = m.
Proof. by destruct m. Qed.

Lemma route_loop_idle_prefix now sockets pre rest signal :
  Forall (idle sockets) pre →
  route_loop now sockets (pre ++ rest) signal
  = route_loop now sockets rest signal.
Proof.
  induction 1 as [|sid pre Hsid _ IH]; simpl; [done|].
  destruct (dict_get sid sockets) as [s|] eqn:Hget; [|done].
  by rewrite (Hsid s Hget).
Qed.

Lemma route_loop_idle now sockets ids signal :
  Forall (idle sockets) ids →
  route_loop now sockets ids signal = (sockets, signal, []).
Proof.
  intros H. rewrite <- (app_nil_r ids). by rewrite route_loop_idle_prefix.
Qed.

(** When the first connected socket returns, the loop stops there. *)
Lemma route_loop_returns now sockets sid rest signal s s' result :
  dict_get sid sockets = Some s →
  ElmerSocket.is_connected s = true →
  ElmerSocket.process now s signal = (s', Returned result) →
  route_loop now sockets (sid :: rest) signal
  = (dict_set sid s' sockets, result, []).
Proof. intros Hget Hc Hp. simpl. by rewrite Hget, Hc, Hp. Qed.

(** When the first connected socket raises, the failure is logged and the
    loop carries on with the ids that follow. *)
Lemma route_loop_raises now sockets sid rest signal s s' exc :
  dict_get sid sockets = Some s →
  ElmerSocket.is_connected s = true →
  ElmerSocket.process now s signal = (s', Raised exc) →
  route_loop now sockets (sid :: rest) signal
  = let '(sockets', result, evs) :=
      route_loop now (dict_set sid s' sockets) rest signal in
    (sockets', result,
     EvLog ERROR ("Socket " +:+ sid +:+ " failed to process signal "
                  +:+ signal_id signal +:+ ": " +:+ exn_str exc) :: evs).
Proof. intros Hget Hc Hp. simpl. by rewrite Hget, Hc, Hp. Qed.

End Routing.

(** C2. A signal whose type has no bucket, an empty bucket, or a bucket
    without a connected socket is returned as it came in: the result is
    the input signal itself (hence equal in every field), the manager is
    unchanged and nothing is logged. *)
Theorem route_signal_pass_through (now : Q) (m : SocketManager.t)
    (signal : SubstrateSignal) :
  (∀ sid s,
     sid ∈ default [] (SocketManager._type_index m
                         !! SignalType_value (signal_type signal)) →
     SocketManager.get_socket m sid = Some s →
     ElmerSocket.is_connected s = false) →
  SocketManager.route_signal now m signal = (m, signal, []).
Proof.
  intros Hidle. unfold SocketManager.route_signal.
  rewrite route_loop_idle.
  - by rewrite set_sockets_id.
  - apply Forall_forall. intros sid Hin s Hs. by apply (Hidle sid).
Qed.

Lemma route_signal_pass_through_witness :
  SocketManager.route_signal Doubles.t1 Doubles.shipped Doubles.recall
  = (Doubles.shipped, Doubles.recall, [])
  ∧ SocketManager.route_signal Doubles.t1
      (SocketManager.disconnect_all Doubles.shipped).1 Doubles.hello
    = ((SocketManager.disconnect_all Doubles.shipped).1, Doubles.hello, []).
Proof.
  split.
  - apply route_signal_pass_through.
    intros sid s Hin. vm_compute in Hin. by apply elem_of_nil in Hin.
  - apply route_signal_pass_through.
    intros sid s Hin. vm_compute in Hin.
    apply list_elem_of_singleton in Hin as ->.
    vm_compute. by intros [= <-].
Defined.

(** C3 (amended). The bucket of the signal's type is scanned in
    registration order: ids whose socket is missing or disconnected are
    passed over and the first connected socket receives the signal.  When
    its [process] returns, that result is the result of the routing call
    as it stands, nothing is logged, and only that socket's state changes.
    When the socket is one of the two shipped ones, its [process] does
    return, and the result's source socket is that socket's id. *)
Theorem route_signal_first_connected (now : Q) (m : SocketManager.t)
    (signal : SubstrateSignal) (pre post : list string) (sid : string)
    (s : ElmerSocket.t) :
  SocketManager._type_index m !! SignalType_value (signal_type signal)
    = Some (pre ++ sid :: post) →
  (∀ x sx, x ∈ pre → SocketManager.get_socket m x = Some sx →
           ElmerSocket.is_connected sx = false) →
  SocketManager.get_socket m sid = Some s →
  ElmerSocket.is_connected s = true →
  (∀ s' result,
     ElmerSocket.process now s signal = (s', Returned result) →
     SocketManager.route_signal now m signal
     = (SocketManager.set_sockets m
          (dict_set sid s' (SocketManager._sockets m)), result, []))
  ∧ (shipped (ElmerSocket.cls s) →
     ∃ s' result,
       ElmerSocket.process now s signal = (s', Returned result)
       ∧ SocketManager.route_signal now m signal
         = (SocketManager.set_sockets m
              (dict_set sid s' (SocketManager._sockets m)), result, [])
       ∧ source_socket result = ElmerSocket.id s
       ∧ signal_id result = signal_id signal
       ∧ signal_type result = signal_type signal
       ∧ payload result = payload signal).
Proof.
  intros Hidx Hpre Hget Hc.
  assert (Hroute : ∀ s' result,
            ElmerSocket.process now s signal = (s', Returned result) →
            SocketManager.route_signal now m signal
            = (SocketManager.set_sockets m
                 (dict_set sid s' (SocketManager._sockets m)), result, [])).
  { intros s' result Hp.
    unfold SocketManager.route_signal. rewrite Hidx. simpl.
    rewrite route_loop_idle_prefix.
    - by rewrite (route_loop_returns _ _ _ _ _ s s' result).
    - apply Forall_forall. intros x Hx sx Hsx. by apply (Hpre x). }
  split; [exact Hroute|].
  intros Hshipped. destruct s as [c b].
  unfold ElmerSocket.is_connected in Hc. simpl in Hc, Hshipped.
  assert (Hp : ∃ s' result,
            ElmerSocket.process now (ElmerSocket.mk c b) signal
            = (s', Returned result)
            ∧ source_socket result = ElmerSocket.socket_id c
            ∧ signal_id result = signal_id signal
            ∧ signal_type result = signal_type signal
            ∧ payload result = payload signal).
  { destruct Hshipped as [-> | ->]; unfold ElmerSocket.process; simpl.
    - unfold ComprehensionSocket.process. rewrite Hc. simpl.
      by eexists _, _.
    - unfold MonitoringSocket.process. rewrite Hc. simpl.
      by eexists _, _. }
  destruct Hp as (s' & result & Hp & Hsrc & Hid & Hty & Hpay).
  exists s', result. split; [exact Hp|]. split; [by apply Hroute|].
  by unfold ElmerSocket.id.
Qed.

Lemma route_signal_first_connected_witness :
  ∃ m' result,
    SocketManager.route_signal Doubles.t1 Doubles.shipped Doubles.hello
    = (m', result, [])
    ∧ source_socket result = "elmer:comprehension".
Proof.
  destruct (route_signal_first_connected Doubles.t1 Doubles.shipped
              Doubles.hello [] [] "elmer:comprehension"
              (ElmerSocket.mk ComprehensionSocket.class
                 (ElmerSocket.mkBase true 0 0 (Qmake 0 1) Doubles.t0)))
    as [_ Hshipped].
  - vm_compute. reflexivity.
  - intros x sx Hx. by apply elem_of_nil in Hx.
  - vm_compute. reflexivity.
  - reflexivity.
  - destruct Hshipped as (s' & result & _ & Hroute & Hsrc & _);
      [by left|].
    eexists _, result. split; [exact Hroute | exact Hsrc].
Defined.

(** C3 (as stated, refuted). A registered, connected socket whose
    [process] returns need not stamp its id on what it returns: the
    manager passes the socket's result on as it is.  A connected socket
    that hands back the signal it was given is the first connected socket
    of its bucket, its [process] returns, and the routed result still
    names the sender of the signal as its source, not the socket. *)
Lemma route_signal_source_not_stamped :
  SocketManager._type_index Doubles.echo_only
    !! SignalType_value (signal_type Doubles.hello) = Some ["lab:echo"]
  ∧ (∃ s, SocketManager.get_socket Doubles.echo_only "lab:echo" = Some s
          ∧ ElmerSocket.id s = "lab:echo"
          ∧ ElmerSocket.is_connected s = true
          ∧ ElmerSocket.process Doubles.t1 s Doubles.hello
            = (s, Returned Doubles.hello))
  ∧ SocketManager.route_signal Doubles.t1 Doubles.echo_only Doubles.hello
    = (Doubles.echo_only, Doubles.hello, [])
  ∧ source_socket
      (SocketManager.route_signal Doubles.t1 Doubles.echo_only
         Doubles.hello).1.2 = "test:input".
Proof.
  split; [vm_compute; reflexivity|].
  split; [eexists; split; [vm_compute; reflexivity|];
          split; [reflexivity|]; split; reflexivity|].
  split; vm_compute; reflexivity.
Qed.

(** C1 (not met by the code). With two connected sockets in
    the bucket, the first of which raises, the loop logs the failure and
    goes on to the second socket: the caller receives the second socket's
    output, not the signal it passed in, and both sockets have seen the
    signal. *)
Theorem route_signal_failure_reaches_second_socket :
  ∃ m' result,
    SocketManager.route_signal Doubles.t1 Doubles.broken_then_relay
      Doubles.hello
    = (m', result,
       [ EvLog ERROR "Socket lab:broken failed to process signal sig-1: incompatible signal" ])
    ∧ SocketManager._type_index Doubles.broken_then_relay !! "sensory"
      = Some ["lab:broken"; "lab:relay"]
    ∧ ElmerSocket.is_connected <$>
        SocketManager.get_socket Doubles.broken_then_relay "lab:broken"
      = Some true
    ∧ source_socket result = "lab:relay"
    ∧ source_socket Doubles.hello = "test:input"
    ∧ (ElmerSocket._error_count ∘ ElmerSocket.base) <$>
        SocketManager.get_socket m' "lab:broken" = Some 1
    ∧ (ElmerSocket._process_count ∘ ElmerSocket.base) <$>
        SocketManager.get_socket m' "lab:relay" = Some 1.
Proof. eexists _, _. vm_compute. repeat split. Qed.

(** ** Registration *)

Section Registration.
Import SocketManager.
Implicit Types (m : SocketManager.t) (socket s : ElmerSocket.t).

Lemma occurrences_app sid (l1 l2 : list string) :
  occurrences sid (l1 ++ l2) = (occurrences sid l1 + occurrences sid l2)%nat.
Proof. unfold occurrences. by rewrite filter_app, length_app. Qed.

Lemma occurrences_absent sid (l : list string) :
  sid ∉ l → occurrences sid l = 0%nat.
Proof.
  unfold occurrences. induction l as [|x l IH]; [done|].
  rewrite not_elem_of_cons. intros [Hne Hl].
  rewrite filter_cons_False by congruence. by apply IH.
Qed.

Lemma occurrences_filter_ne sid sid' (l : list string) :
  sid ≠ sid' →
  occurrences sid (filter (λ x, x ≠ sid') l) = occurrences sid l.
Proof.
  intros Hne. unfold occurrences. induction l as [|x l IH]; [done|].
  destruct (decide (x = sid')) as [->|Hx].
  - rewrite (filter_cons_False (λ x, x ≠ sid')) by naive_solver.
    rewrite (filter_cons_False (λ x, x = sid)) by congruence. done.
  - rewrite (filter_cons_True (λ x, x ≠ sid')) by done.
    destruct (decide (x = sid)) as [->|Hx'].
    + rewrite !(filter_cons_True (λ x, x = sid)) by done. simpl. by rewrite IH.
    + rewrite !(filter_cons_False (λ x, x = sid)) by done. done.
Qed.

Lemma dict_contains_true {V} k (d : list (string * V)) :
  dict_contains k d = true ↔ is_Some (dict_get k d).
Proof.
  unfold dict_contains. destruct (dict_get k d); split; done.
Qed.

Lemma dict_get_set {V} k k' (v : V) d :
  dict_get k' (dict_set k v d)
  = if decide (k' = k) then Some v else dict_get k' d.
Proof.
  destruct (decide (k' = k)) as [->|Hne].
  - apply dict_get_set_eq.
  - by apply dict_get_set_ne.
Qed.

(** The type index after a successful [register]. *)
Lemma register_index (index : gmap string (list string)) stype sid t :
  alter (λ bucket, bucket ++ [sid]) stype
    (match index !! stype with
     | None => <[stype := []]> index
     | Some _ => index
     end) !! t
  = if decide (t = stype)
    then Some (default [] (index !! stype) ++ [sid])
    else index !! t.
Proof.
  destruct (decide (t = stype)) as [->|Hne].
  - rewrite lookup_alter_eq. destruct (index !! stype) as [b|] eqn:Hb.
    + by rewrite Hb.
    + by rewrite lookup_insert_eq.
  - rewrite lookup_alter_ne by done.
    destruct (index !! stype); [done|]. by rewrite lookup_insert_ne.
Qed.

End Registration.

(** The three ways [register] can go. *)
Lemma register_cases (m : SocketManager.t) (socket : ElmerSocket.t) :
  let sid := ElmerSocket.id socket in
  let stype := ElmerSocket.type socket in
  (is_Some (SocketManager.get_socket m sid) →
   SocketManager.register m socket
   = (m, Raised (ValueError ("Socket already registered: " +:+ sid)), []))
  ∧ (SocketManager.get_socket m sid = None →
     SocketManager._max_sockets m
       ≤ Z.of_nat (length (SocketManager._sockets m)) →
     SocketManager.register m socket
     = (m, Raised (ValueError ("Socket limit reached ("
                               +:+ pretty (SocketManager._max_sockets m)
                               +:+ "). Cannot register " +:+ sid)), []))
  ∧ (SocketManager.get_socket m sid = None →
     Z.of_nat (length (SocketManager._sockets m))
       < SocketManager._max_sockets m →
     ∃ m' evs,
       SocketManager.register m socket = (m', Returned (), evs)
       ∧ SocketManager._sockets m' = SocketManager._sockets m ++ [(sid, socket)]
       ∧ SocketManager._type_index m' !! stype
         = Some (default [] (SocketManager._type_index m !! stype) ++ [sid])
       ∧ (∀ other, other ≠ stype →
            SocketManager._type_index m' !! other
            = SocketManager._type_index m !! other)
       ∧ SocketManager._max_sockets m' = SocketManager._max_sockets m
       ∧ SocketManager._hardware m' = SocketManager._hardware m
       ∧ SocketManager._started m' = SocketManager._started m).
Proof.
  intros sid stype. unfold SocketManager.get_socket, SocketManager.register.
  fold sid stype. split; [|split].
  - intros Hdup. apply dict_contains_true in Hdup. by rewrite Hdup.
  - intros Hnew Hfull. unfold dict_contains. rewrite Hnew.
    destruct (Z.geb_spec (Z.of_nat (length (SocketManager._sockets m)))
                (SocketManager._max_sockets m)); [done | lia].
  - intros Hnew Hroom. unfold dict_contains. rewrite Hnew.
    destruct (Z.geb_spec (Z.of_nat (length (SocketManager._sockets m)))
                (SocketManager._max_sockets m)); [lia|].
    eexists _, _. split; [reflexivity|]. simpl.
    split; [by apply dict_set_fresh|].
    split; [by rewrite register_index, decide_True|].
    split; [|done].
    intros other Hne. by rewrite register_index, decide_False.
Qed.

(** C4. [register] raises the duplicate-id error when the id is already in
    the registry and the capacity error when the id is new and the
    registry already holds [_max_sockets] entries; either way the manager
    is left exactly as it was. Otherwise the socket is added at the end of
    the registry and at the end of the bucket of its type, and nothing
    else changes. *)
Theorem register_contract (m : SocketManager.t) (socket : ElmerSocket.t) :
  let sid := ElmerSocket.id socket in
  let stype := ElmerSocket.type socket in
  (is_Some (SocketManager.get_socket m sid) →
   SocketManager.register m socket
   = (m, Raised (ValueError ("Socket already registered: " +:+ sid)), []))
  ∧ (SocketManager.get_socket m sid = None →
     SocketManager._max_sockets m
       ≤ Z.of_nat (length (SocketManager._sockets m)) →
     SocketManager.register m socket
     = (m, Raised (ValueError ("Socket limit reached ("
                               +:+ pretty (SocketManager._max_sockets m)
                               +:+ "). Cannot register " +:+ sid)), []))
  ∧ (SocketManager.get_socket m sid = None →
     Z.of_nat (length (SocketManager._sockets m))
       < SocketManager._max_sockets m →
     ∃ m' evs,
       SocketManager.register m socket = (m', Returned (), evs)
       ∧ SocketManager._sockets m' = SocketManager._sockets m ++ [(sid, socket)]
       ∧ SocketManager._type_index m' !! stype
         = Some (default [] (SocketManager._type_index m !! stype) ++ [sid])
       ∧ (∀ other, other ≠ stype →
            SocketManager._type_index m' !! other
            = SocketManager._type_index m !! other)
       ∧ SocketManager._max_sockets m' = SocketManager._max_sockets m
       ∧ SocketManager._hardware m' = SocketManager._hardware m
       ∧ SocketManager._started m' = SocketManager._started m).
Proof. apply register_cases. Qed.

(** ** Consistency of registry and type index *)

Section Consistency.
Import SocketManager.
Implicit Types (m : SocketManager.t) (s : ElmerSocket.t)
  (d : list (string * ElmerSocket.t)).

Lemma classes_of_keys d : dict_keys (classes_of d) = dict_keys d.
Proof.
  unfold dict_keys, classes_of. rewrite <- list_fmap_compose.
  by apply list_fmap_ext.
Qed.

Lemma classes_of_get k d :
  dict_get k (classes_of d) = ElmerSocket.cls <$> dict_get k d.
Proof.
  induction d as [|[k' s] d IH]; simpl; [done|].
  destruct (decide (k' = k)); [done | apply IH].
Qed.

Lemma classes_of_set k s s' d :
  dict_get k d = Some s → ElmerSocket.cls s' = ElmerSocket.cls s →
  classes_of (dict_set k s' d) = classes_of d.
Proof.
  intros Hget Hcls. induction d as [|[k' s0] d IH]; simpl in *; [done|].
  destruct (decide (k' = k)) as [->|Hne]; simpl.
  - injection Hget as ->. unfold classes_of. simpl. by rewrite Hcls.
  - unfold classes_of in *. simpl. f_equal. by apply IH.
Qed.

Lemma cls_connect now s : ElmerSocket.cls (ElmerSocket.connect now s).1 = ElmerSocket.cls s.
Proof. unfold ElmerSocket.connect. by destruct (ElmerSocket.m_connect _ _ _). Qed.

Lemma cls_disconnect s : ElmerSocket.cls (ElmerSocket.disconnect s).1 = ElmerSocket.cls s.
Proof. unfold ElmerSocket.disconnect. by destruct (ElmerSocket.m_disconnect _ _). Qed.

Lemma cls_process now s signal :
  ElmerSocket.cls (ElmerSocket.process now s signal).1 = ElmerSocket.cls s.
Proof. unfold ElmerSocket.process. by destruct (ElmerSocket.m_process _ _ _ _). Qed.

Lemma connect_loop_classes now d results :
  classes_of (connect_loop now d results).1.1 = classes_of d.
Proof.
  revert results. induction d as [|[sid s] d IH]; intros results; simpl; [done|].
  pose proof (cls_connect now s) as Hc.
  destruct (ElmerSocket.connect now s) as [s' r]. simpl in Hc.
  destruct r as [[]|exc]; simpl;
    match goal with |- context [connect_loop now d ?r] =>
      specialize (IH r); destruct (connect_loop now d r) as [[rest' res'] evs]
    end; simpl in *; unfold classes_of in *; simpl; by rewrite Hc, IH.
Qed.

Lemma disconnect_loop_classes d :
  classes_of (disconnect_loop d).1 = classes_of d.
Proof.
  induction d as [|[sid s] d IH]; simpl; [done|].
  destruct (disconnect_loop d) as [rest' evs]. simpl in IH.
  destruct (ElmerSocket.is_connected s).
  - pose proof (cls_disconnect s) as Hc.
    destruct (ElmerSocket.disconnect s) as [s' r]. simpl in *.
    unfold classes_of in *. simpl. by rewrite Hc, IH.
  - simpl. unfold classes_of in *. simpl. by rewrite IH.
Qed.

Lemma route_loop_classes now d ids signal :
  classes_of (route_loop now d ids signal).1.1 = classes_of d.
Proof.
  revert d. induction ids as [|sid ids IH]; intros d; simpl; [done|].
  destruct (dict_get sid d) as [s|] eqn:Hget; [|apply IH].
  destruct (ElmerSocket.is_connected s); [|apply IH].
  pose proof (cls_process now s signal) as Hc.
  destruct (ElmerSocket.process now s signal) as [s' r]. simpl in Hc.
  destruct r as [result|exc]; simpl.
  - by apply (classes_of_set _ s).
  - specialize (IH (dict_set sid s' d)).
    destruct (route_loop now (dict_set sid s' d) ids signal) as [[d'' res] evs].
    simpl in *. rewrite IH. by apply (classes_of_set _ s).
Qed.

(** The invariant only looks at the classes in the registry and at the
    type index. *)
Lemma manager_inv_classes m m' :
  classes_of (_sockets m') = classes_of (_sockets m) →
  _type_index m' = _type_index m →
  manager_inv m → manager_inv m'.
Proof.
  intros Hcls Hidx [[Hnd Hid] [Hir Hri]].
  assert (Hget : ∀ sid s', dict_get sid (_sockets m') = Some s' →
            ∃ s, dict_get sid (_sockets m) = Some s
                 ∧ ElmerSocket.cls s = ElmerSocket.cls s').
  { intros sid s' Hs'.
    pose proof (classes_of_get sid (_sockets m)) as H1.
    rewrite <- Hcls, classes_of_get, Hs' in H1. simpl in H1.
    destruct (dict_get sid (_sockets m)) as [s|]; [|done].
    injection H1 as H1. by exists s. }
  assert (Hsome : ∀ sid, is_Some (dict_get sid (_sockets m)) →
            is_Some (dict_get sid (_sockets m'))).
  { intros sid [s Hs].
    pose proof (classes_of_get sid (_sockets m')) as H1.
    rewrite Hcls, classes_of_get, Hs in H1. simpl in H1.
    destruct (dict_get sid (_sockets m')); [by eexists | done]. }
  split; [split | split].
  - by rewrite <- classes_of_keys, Hcls, classes_of_keys.
  - intros sid s' Hs'. destruct (Hget _ _ Hs') as (s & Hs & Hc).
    unfold ElmerSocket.id. rewrite <- Hc. by apply Hid.
  - intros stype bucket sid Hb Hin. rewrite Hidx in Hb. eauto.
  - intros sid s' Hs'. destruct (Hget _ _ Hs') as (s0 & Hs & Hc).
    unfold ElmerSocket.type. rewrite <- Hc, Hidx. by apply (Hri sid s0).
Qed.

Lemma manager_inv_init max_sockets : manager_inv (__init__ max_sockets).
Proof.
  split; [split | split].
  - apply NoDup_nil_2.
  - done.
  - intros stype bucket sid Hb. simpl in Hb. by rewrite lookup_empty in Hb.
  - done.
Qed.

Lemma manager_inv_register m socket :
  manager_inv m → manager_inv (register m socket).1.1.
Proof.
  intros Hinv.
  destruct (register_cases m socket) as (Hdup & Hfull & Hok).
  destruct (get_socket m (ElmerSocket.id socket)) as [old|] eqn:Hget.
  { by rewrite Hdup. }
  destruct (Z_lt_le_dec (Z.of_nat (length (_sockets m))) (_max_sockets m))
    as [Hroom|Hnoroom]; [|by rewrite Hfull].
  destruct (Hok eq_refl Hroom) as (m' & evs & -> & Hs & Hb & Hothers & _).
  simpl. clear Hdup Hfull Hok.
  destruct Hinv as [[Hnd Hid] [Hir Hri]]. unfold get_socket in Hget.
  set (sid := ElmerSocket.id socket) in *.
  set (stype := ElmerSocket.type socket) in *.
  assert (Hs' : _sockets m' = dict_set sid socket (_sockets m)).
  { by rewrite dict_set_fresh. }
  assert (Hfresh : ∀ t bucket, _type_index m !! t = Some bucket → sid ∉ bucket).
  { intros t bucket Ht Hin. destruct (Hir _ _ _ Ht Hin) as [? ?]. congruence. }
  assert (Hold : sid ∉ default [] (_type_index m !! stype)).
  { destruct (_type_index m !! stype) as [b|] eqn:Hbt; simpl.
    - by apply (Hfresh stype).
    - apply not_elem_of_nil. }
  split; [split | split].
  - rewrite Hs. unfold dict_keys in *. rewrite fmap_app. simpl.
    apply NoDup_app. split; [done|]. split; [|apply NoDup_singleton].
    intros x Hx ->%list_elem_of_singleton. by apply dict_get_None in Hget.
  - intros k s. rewrite Hs', dict_get_set.
    destruct (decide (k = sid)) as [->|Hne]; [by intros [= <-] | apply Hid].
  - intros t bucket k Ht Hin. rewrite Hs', dict_get_set.
    destruct (decide (k = sid)); [by eexists|].
    destruct (decide (t = stype)) as [->|Hne].
    + rewrite Hb in Ht. injection Ht as <-.
      apply elem_of_app in Hin as [Hin|Hin%list_elem_of_singleton]; [|done].
      destruct (_type_index m !! stype) as [b|] eqn:Hbt; simpl in Hin.
      * by apply (Hir stype b).
      * by apply elem_of_nil in Hin.
    + rewrite Hothers in Ht by done. by apply (Hir t bucket).
  - intros k s. rewrite Hs', dict_get_set.
    destruct (decide (k = sid)) as [->|Hne].
    + intros [= <-]. fold stype. split.
      * eexists. split; [done|].
        rewrite occurrences_app, occurrences_absent by done.
        unfold occurrences. by rewrite filter_cons_True.
      * intros t bucket Hnt Ht. rewrite Hothers in Ht by done.
        by apply (Hfresh t).
    + intros Hk. destruct (Hri _ _ Hk) as [(b & Hbk & Hocc) Hrest]. split.
      * destruct (decide (ElmerSocket.type s = stype)) as [Heq|Hnt].
        -- rewrite Heq in *. rewrite Hb, Hbk. simpl. eexists. split; [done|].
           rewrite occurrences_app, Hocc. unfold occurrences.
           by rewrite filter_cons_False.
        -- rewrite Hothers by done. eauto.
      * intros t bucket Hnt Ht.
        destruct (decide (t = stype)) as [->|Hts].
        -- rewrite Hb in Ht. injection Ht as <-.
           rewrite elem_of_app, list_elem_of_singleton.
           intros [Hin|?]; [|done].
           destruct (_type_index m !! stype) as [b'|] eqn:Hbt; simpl in Hin.
           ++ by apply (Hrest stype b').
           ++ by apply elem_of_nil in Hin.
        -- rewrite Hothers in Ht by done. by apply (Hrest t).
Qed.

Lemma manager_inv_unregister m socket_id :
  manager_inv m → manager_inv (unregister m socket_id).1.
Proof.
  intros Hinv. unfold unregister.
  pose proof (dict_pop_fst socket_id (_sockets m)) as Hfst.
  pose proof (dict_pop_keys socket_id (_sockets m)) as Hkeys.
  destruct Hinv as [[Hnd Hid] [Hir Hri]].
  pose proof (λ k, dict_pop_get socket_id k (_sockets m) Hnd) as Hpop.
  destruct (dict_pop socket_id (_sockets m)) as [popped rest].
  simpl in Hfst, Hkeys, Hpop. subst popped.
  destruct (dict_get socket_id (_sockets m)) as [s|] eqn:Hget; [|done].
  simpl. destruct (Hri _ _ Hget) as [(b & Hb & Hocc) Hrest]. rewrite Hb.
  set (stype := ElmerSocket.type s) in *.
  split; [split | split];
    unfold index_in_registry, registry_in_index; cbn [_sockets _type_index].
  - by eapply sublist_NoDup.
  - intros k s0. rewrite Hpop. destruct (decide (k = socket_id)); [done|apply Hid].
  - intros t bucket k Ht Hin. rewrite Hpop.
    destruct (decide (t = stype)) as [->|Hne].
    + rewrite lookup_insert_eq in Ht. injection Ht as <-.
      apply list_elem_of_filter in Hin as [Hk Hin].
      rewrite decide_False by done. by apply (Hir stype b).
    + rewrite lookup_insert_ne in Ht by done.
      destruct (decide (k = socket_id)) as [->|Hk].
      * by destruct (Hrest t bucket).
      * by apply (Hir t bucket).
  - intros k s0. rewrite Hpop.
    destruct (decide (k = socket_id)) as [->|Hne]; [done|]. intros Hk.
    destruct (Hri _ _ Hk) as [(b0 & Hb0 & Hocc0) Hrest0]. split.
    + destruct (decide (ElmerSocket.type s0 = stype)) as [Heq|Hnt].
      * rewrite Heq in *. rewrite lookup_insert_eq. eexists. split; [done|].
        rewrite Hb in Hb0. injection Hb0 as <-.
        by rewrite occurrences_filter_ne.
      * rewrite lookup_insert_ne by done. eauto.
    + intros t bucket Hnt Ht.
      destruct (decide (t = stype)) as [->|Hts].
      * rewrite lookup_insert_eq in Ht. injection Ht as <-.
        intros [_ Hin]%list_elem_of_filter. by apply (Hrest0 stype b).
      * rewrite lookup_insert_ne in Ht by done. by apply (Hrest0 t).
Qed.

(** The two ways [connect_all] can go: the probe raises and nothing
    happens, or the hardware is known (stored, or just probed) and every
    socket is connected. *)
Lemma connect_all_cases env now m :
  (∃ exc ev0,
     _hardware m = None ∧ detect_hardware env = (Raised exc, ev0)
     ∧ connect_all env now m = (m, Raised exc, ev0))
  ∨ (∃ hw ev0,
       (_hardware m = Some hw ∧ ev0 = []
        ∨ _hardware m = None ∧ detect_hardware env = (Returned hw, ev0))
       ∧ connect_all env now m
         = ({| _sockets := (connect_loop now (_sockets m) []).1.1;
               _type_index := _type_index m;
               _max_sockets := _max_sockets m;
               _hardware := Some hw;
               _started := true |},
            Returned (connect_loop now (_sockets m) []).1.2,
            ev0 ++ (connect_loop now (_sockets m) []).2)).
Proof.
  unfold connect_all. destruct (_hardware m) as [hw|] eqn:Hhw.
  - right. exists hw, []. split; [by left|].
    by destruct (connect_loop now (_sockets m) []) as [[? ?] ?].
  - destruct (detect_hardware env) as [[hw|exc] ev0] eqn:Hd.
    + right. exists hw, ev0. split; [by right|].
      by destruct (connect_loop now (_sockets m) []) as [[? ?] ?].
    + left. by exists exc, ev0.
Qed.

Lemma manager_inv_step m op : manager_inv m → manager_inv (Ops.step m op).
Proof.
  destruct op as [socket|sid|env now| |now signal]; simpl.
  - apply manager_inv_register.
  - apply manager_inv_unregister.
  - destruct (connect_all_cases env now m)
      as [(exc & ev0 & _ & _ & ->)|(hw & ev0 & _ & ->)]; [done|].
    apply manager_inv_classes; [apply connect_loop_classes | done].
  - apply manager_inv_classes.
    + unfold disconnect_all.
      pose proof (disconnect_loop_classes (_sockets m)) as H.
      by destruct (disconnect_loop (_sockets m)).
    + unfold disconnect_all. by destruct (disconnect_loop (_sockets m)).
  - apply manager_inv_classes.
    + unfold route_signal.
      pose proof (route_loop_classes now (_sockets m)
        (default [] (_type_index m !! SignalType_value (signal_type signal)))
        signal) as H.
      by destruct (route_loop _ _ _ _) as [[? ?] ?].
    + unfold route_signal. by destruct (route_loop _ _ _ _) as [[? ?] ?].
Qed.

Lemma manager_inv_run ops m : manager_inv m → manager_inv (Ops.run ops m).
Proof.
  revert m. induction ops as [|op ops IH]; intros m Hinv; [done|].
  simpl. apply IH. by apply manager_inv_step.
Qed.

End Consistency.

(** C5. Whatever operations are applied to a new manager (registering,
    unregistering, and also connecting, disconnecting and routing), the
    registry and the type index agree afterwards: every id listed in a
    type bucket is a key of the registry, and every registered socket is
    listed exactly once in the bucket of its own type and in no other. *)
Theorem registry_index_consistent (max_sockets : Z) (ops : list Ops.Op) :
  consistent (Ops.run ops (SocketManager.__init__ max_sockets)).
Proof. apply manager_inv_run, manager_inv_init. Qed.

(** ** Health aggregation *)

Section Health.
Import SocketManager.

Lemma health_entry_status now s :
  default (PStr "unknown") (dict_get "status" (health_entry now s))
  = match ElmerSocket.health_check now s with
    | Returned h => default (PStr "unknown") (dict_get "status" h)
    | Raised _ => PStr "error"
    end.
Proof. unfold health_entry. by destruct (ElmerSocket.health_check now s). Qed.

(** On a dict the loop appends one entry and one status per socket, in
    registry order. *)
Lemma health_loop_spec now items socket_health statuses :
  NoDup (dict_keys socket_health ++ dict_keys items) →
  health_loop now items socket_health statuses
  = (socket_health ++ ((λ e, (e.1, health_entry now e.2)) <$> items),
     statuses ++ reported_statuses
                   ((λ e, (e.1, health_entry now e.2)) <$> items)).
Proof.
  revert socket_health statuses.
  induction items as [|[sid s] items IH]; intros acc sts Hnd; simpl.
  - by rewrite !app_nil_r.
  - assert (Hfresh : dict_get sid acc = None).
    { apply dict_get_None. apply NoDup_app in Hnd as (_ & Hdis & _).
      intros Hin. apply (Hdis _ Hin). unfold dict_keys. simpl. left. }
    assert (Hnd' : ∀ h, NoDup (dict_keys (acc ++ [(sid, h)]) ++ dict_keys items)).
    { intros h. unfold dict_keys in *. rewrite fmap_app. simpl in *.
      by rewrite <- app_assoc. }
    pose proof (health_entry_status now s) as Hst. unfold health_entry in *.
    destruct (ElmerSocket.health_check now s) as [h|exc];
      rewrite dict_set_fresh by done; rewrite IH by apply Hnd';
      rewrite <- !app_assoc; simpl; unfold reported_statuses; simpl;
      by rewrite ?Hst.
Qed.

Lemma forallb_py_eq (P : PyVal → Prop) (p : PyVal → bool) (l : list PyVal) :
  (∀ v, p v = true ↔ P v) → forallb p l = true ↔ Forall P l.
Proof.
  intros Hp. rewrite forallb_forall, Forall_forall.
  split; intros H v Hv; apply Hp, H; by apply list_elem_of_In.
Qed.

Lemma py_eq_str_true v s : py_eq_str v s = true ↔ v = PStr s.
Proof.
  destruct v; simpl; try (split; [done | by intros [=]]).
  rewrite bool_decide_eq_true. split; [by intros -> | by intros [= ->]].
Qed.

Lemma overall_status_spec (statuses : list PyVal) :
  (overall_status statuses = "no_sockets" ↔ statuses = [])
  ∧ (statuses ≠ [] →
     (overall_status statuses = "healthy"
      ↔ Forall (λ v, v = PStr "healthy") statuses)
     ∧ (overall_status statuses = "offline"
        ↔ Forall (λ v, v = PStr "offline" ∨ v = PStr "error") statuses)
     ∧ (overall_status statuses = "degraded"
        ↔ ¬ Forall (λ v, v = PStr "healthy") statuses
          ∧ ¬ Forall (λ v, v = PStr "offline" ∨ v = PStr "error") statuses)).
Proof.
  assert (Hh : forallb (λ s, py_eq_str s "healthy") statuses = true
               ↔ Forall (λ v, v = PStr "healthy") statuses).
  { apply forallb_py_eq. intros v. apply py_eq_str_true. }
  assert (Ho : forallb (λ s, py_eq_str s "offline" || py_eq_str s "error")
                 statuses = true
               ↔ Forall (λ v, v = PStr "offline" ∨ v = PStr "error") statuses).
  { apply forallb_py_eq. intros v.
    by rewrite orb_true_iff, !py_eq_str_true. }
  destruct statuses as [|v l]; [by split|].
  assert (Hex : Forall (λ v, v = PStr "healthy") (v :: l) →
                Forall (λ v, v = PStr "offline" ∨ v = PStr "error") (v :: l) →
                False).
  { intros H1%Forall_cons_1 H2%Forall_cons_1.
    destruct H1 as [-> _]. by destruct H2 as [[[=]|[=]] _]. }
  unfold overall_status.
  destruct (forallb (λ s, py_eq_str s "healthy") (v :: l)) eqn:E1;
    [|destruct (forallb (λ s, py_eq_str s "offline" || py_eq_str s "error")
                  (v :: l)) eqn:E2].
  - pose proof (proj1 Hh eq_refl) as H1. split; [by split|]. intros _.
    split; [by split|]. split; [split; [done | by intros ?; exfalso; eauto]|].
    split; [done | by intros [? _]].
  - pose proof (proj1 Ho eq_refl) as H2. split; [by split|]. intros _.
    assert (¬ Forall (λ v, v = PStr "healthy") (v :: l)) by eauto.
    split; [split; [done | by intros ?]|]. split; [by split|].
    split; [done | by intros [_ ?]].
  - assert (¬ Forall (λ v, v = PStr "healthy") (v :: l)).
    { intros H1. apply Hh in H1. congruence. }
    assert (¬ Forall (λ v, v = PStr "offline" ∨ v = PStr "error") (v :: l)).
    { intros H2. apply Ho in H2. congruence. }
    split; [by split|]. intros _.
    split; [split; [done | by intros ?]|].
    split; [split; [done | by intros ?]|]. by split.
Qed.

End Health.



(** The four combinations of two sockets that are connected or not. *)
Example health_report_two_sockets :
  let report c1 c2 :=
    SocketManager.health_report Doubles.t1
      (SocketManager.set_sockets (SocketManager.__init__ 16)
         [ ("a", ElmerSocket.mk ComprehensionSocket.class
                   (ElmerSocket.mkBase c1 0 0 Doubles.t0 Doubles.t0));
           ("b", ElmerSocket.mk MonitoringSocket.class
                   (ElmerSocket.mkBase c2 0 0 Doubles.t0 Doubles.t0)) ]) in
  SocketManager.hr_status (report true true) = "healthy"
  ∧ SocketManager.hr_status (report true false) = "degraded"
  ∧ SocketManager.hr_status (report false true) = "degraded"
  ∧ SocketManager.hr_status (report false false) = "offline"
  ∧ SocketManager.hr_status
      (SocketManager.health_report Doubles.t1 (SocketManager.__init__ 16))
    = "no_sockets".
Proof. vm_compute. repeat split. Qed.

(** ** Bulk connect *)

Section Lifecycle.
Import SocketManager.

Lemma detect_count_app (l1 l2 : list Event) :
  detect_count (l1 ++ l2) = (detect_count l1 + detect_count l2)%nat.
Proof. unfold detect_count. by rewrite filter_app, length_app. Qed.

Lemma detect_count_logs (evs : list Event) :
  Forall (λ e, is_detect e = false) evs → detect_count evs = 0%nat.
Proof.
  unfold detect_count. induction 1 as [|e evs He _ IH]; [done|].
  rewrite filter_cons_False; [done | by rewrite He].
Qed.

Lemma detect_hardware_events env : detect_count (detect_hardware env).2 = 1%nat.
Proof.
  unfold detect_hardware.
  destruct (probe_torch env) as [[[gpu ds] cuda]|exc]; [|done].
  by destruct (if negb gpu then _ else _) as [gpu' ds'].
Qed.

(** On a dict the loop connects every socket once, in registry order, and
    stores one outcome per socket. *)
Lemma connect_loop_spec now items results :
  NoDup (dict_keys results ++ dict_keys items) →
  connect_loop now items results
  = ((λ e, (e.1, (ElmerSocket.connect now e.2).1)) <$> items,
     results ++ ((λ e, (e.1, connect_ok now e.2)) <$> items),
     (connect_loop now items results).2)
  ∧ Forall (λ e, is_detect e = false) (connect_loop now items results).2.
Proof.
  revert results. induction items as [|[sid s] items IH]; intros acc Hnd; simpl.
  - by rewrite app_nil_r.
  - assert (Hfresh : dict_get sid acc = None).
    { apply dict_get_None. apply NoDup_app in Hnd as (_ & Hdis & _).
      intros Hin. apply (Hdis _ Hin). unfold dict_keys. simpl. left. }
    assert (Hnd' : ∀ b, NoDup (dict_keys (acc ++ [(sid, b)]) ++ dict_keys items)).
    { intros b. unfold dict_keys in *. rewrite fmap_app. simpl in *.
      by rewrite <- app_assoc. }
    unfold connect_ok.
    destruct (ElmerSocket.connect now s) as [s' r]. simpl.
    destruct r as [[]|exc]; rewrite dict_set_fresh by done;
      match goal with |- context [connect_loop now items ?r] =>
        destruct (IH r (Hnd' _)) as [Heq Hlog];
        destruct (connect_loop now items r) as [[rest' res'] evs]
      end; simpl in *; injection Heq as -> ->;
      (split; [by rewrite <- app_assoc | by apply Forall_cons]).
Qed.

Lemma route_loop_logs now sockets ids signal :
  Forall (λ e, is_detect e = false) (route_loop now sockets ids signal).2.
Proof.
  revert sockets. induction ids as [|sid ids IH]; intros sockets; simpl; [done|].
  destruct (dict_get sid sockets) as [s|]; [|apply IH].
  destruct (ElmerSocket.is_connected s); [|apply IH].
  destruct (ElmerSocket.process now s signal) as [s' [result|exc]]; [done|].
  specialize (IH (dict_set sid s' sockets)).
  destruct (route_loop now (dict_set sid s' sockets) ids signal) as [[? ?] evs].
  by apply Forall_cons.
Qed.

Lemma disconnect_loop_logs items :
  Forall (λ e, is_detect e = false) (disconnect_loop items).2.
Proof.
  induction items as [|[sid s] items IH]; simpl; [done|].
  destruct (disconnect_loop items) as [rest' evs].
  destruct (ElmerSocket.is_connected s); [|done].
  destruct (ElmerSocket.disconnect s) as [s' [[]|exc]]; by apply Forall_cons.
Qed.

(** Once the hardware has been detected, no operation detects it again or
    forgets it. *)
Lemma hardware_cached_step m op hw :
  NoDup (dict_keys (_sockets m)) →
  _hardware m = Some hw →
  _hardware (Ops.step m op) = Some hw
  ∧ detect_count (Ops.events m op) = 0%nat.
Proof.
  intros Hnd Hhw. destruct op as [socket|sid|env now| |now signal]; simpl.
  - unfold register. destruct (dict_contains _ _); [done|].
    by destruct (_ >=? _).
  - unfold unregister. destruct (dict_pop sid (_sockets m)) as [[s|] rest];
      [|done]. simpl. split; [done|]. apply detect_count_logs.
    destruct (ElmerSocket.is_connected s); [|done].
    destruct (ElmerSocket.disconnect s).2; [done | by apply Forall_cons].
  - destruct (connect_loop_spec now (_sockets m) []) as [_ Hlog]; [done|].
    destruct (connect_all_cases env now m)
      as [(exc & ev0 & Hnone & _)|(hw' & ev0 & [[Hsome ->]|[Hnone _]] & ->)];
      try congruence.
    simpl. split; [congruence | by apply detect_count_logs].
  - unfold disconnect_all. pose proof (disconnect_loop_logs (_sockets m)) as Hlog.
    destruct (disconnect_loop (_sockets m)) as [? evs]. simpl in *.
    split; [done | by apply detect_count_logs].
  - unfold route_signal.
    pose proof (route_loop_logs now (_sockets m)
      (default [] (_type_index m !! SignalType_value (signal_type signal)))
      signal) as Hlog.
    destruct (route_loop _ _ _ _) as [[? ?] evs]. simpl in *.
    split; [done | by apply detect_count_logs].
Qed.

Lemma hardware_cached_run ops m hw :
  manager_inv m →
  _hardware m = Some hw →
  _hardware (Ops.run ops m) = Some hw
  ∧ detect_count (Ops.trace ops m) = 0%nat.
Proof.
  revert m. induction ops as [|op ops IH]; intros m Hinv Hhw; [done|].
  simpl. destruct (hardware_cached_step m op hw) as [Hhw' Hc];
    [apply Hinv | done |].
  destruct (IH (Ops.step m op)) as [Hhw'' Hc']; [by apply manager_inv_step | done |].
  split; [done|]. by rewrite detect_count_app, Hc, Hc'.
Qed.

End Lifecycle.

(** C7 (not met by the code). On a host where PyTorch reports CUDA and
    the properties of a device have no attribute [total_mem], the probe
    raises inside [connect_all]: the call returns no result map, no socket
    has been connected, no hardware is stored, and the next call probes
    again. *)
Theorem connect_all_probe_failure :
  let m := Doubles.shipped_registered in
  let r := SocketManager.connect_all Doubles.cuda_box Doubles.t0 m in
  r.1.2 = Raised (OtherException "AttributeError"
                    "'_CudaDeviceProperties' object has no attribute 'total_mem'")
  ∧ r.1.1 = m
  ∧ dict_keys (SocketManager._sockets m)
    = ["elmer:comprehension"; "elmer:monitoring"]
  ∧ Forall (λ s, ElmerSocket.is_connected s = false)
      (dict_values (SocketManager._sockets r.1.1))
  ∧ SocketManager._hardware r.1.1 = None
  ∧ SocketManager._started r.1.1 = false
  ∧ detect_count r.2 = 1%nat
  ∧ detect_count
      (SocketManager.connect_all Doubles.cuda_box Doubles.t1 r.1.1).2 = 1%nat
  ∧ (SocketManager.connect_all Doubles.cuda_box Doubles.t1 r.1.1).1.2 = r.1.2.
Proof.
  cbv zeta. split; [reflexivity|]. split; [reflexivity|].
  split; [reflexivity|]. split; [by repeat constructor|].
  repeat split.
Qed.

(** X26. Whenever the hardware is already stored, or the probe returns,
    [connect_all] returns a result map: it probes exactly when no result
    is stored, and stores what the probe returned; whatever is done with
    the manager afterwards, further calls of [connect_all] included,
    never probes again. It calls [connect] once on every registered
    socket, whatever the other sockets did, and the map holds one entry
    per registered socket, in registry order: [true] where [connect]
    returned and [false] where it raised. *)
Theorem connect_all_contract (env : SocketManager.HostEnv) (now : Q)
    (m : SocketManager.t) :
  manager_inv m →
  (SocketManager._hardware m = None →
   ∃ hw, (SocketManager.detect_hardware env).1 = Returned hw) →
  let m' := (SocketManager.connect_all env now m).1.1 in
  let evs := (SocketManager.connect_all env now m).2 in
  ∃ results,
    (SocketManager.connect_all env now m).1.2 = Returned results
    ∧ detect_count evs
      = (if SocketManager._hardware m is None then 1 else 0)%nat
    ∧ Returned <$> SocketManager._hardware m'
      = Some (match SocketManager._hardware m with
              | Some hw => Returned hw
              | None => (SocketManager.detect_hardware env).1
              end)
    ∧ (∀ ops, SocketManager._hardware (Ops.run ops m')
              = SocketManager._hardware m'
              ∧ detect_count (Ops.trace ops m') = 0%nat)
    ∧ SocketManager._sockets m'
      = (λ e, (e.1, (ElmerSocket.connect now e.2).1))
          <$> SocketManager._sockets m
    ∧ results = (λ e, (e.1, connect_ok now e.2)) <$> SocketManager._sockets m
    ∧ dict_keys results = dict_keys (SocketManager._sockets m)
    ∧ NoDup (dict_keys results).
Proof.
  intros Hinv Hprobe m' evs.
  assert (Hinv' : manager_inv m')
    by apply (manager_inv_step m (Ops.ConnectAll env now) Hinv).
  assert (Hnd : NoDup (dict_keys (SocketManager._sockets m))) by apply Hinv.
  destruct (connect_loop_spec now (SocketManager._sockets m) [])
    as [Hloop Hlog]; [done|].
  pose proof (detect_hardware_events env) as Hdet.
  destruct (connect_all_cases env now m)
    as [(exc & ev0 & Hnone & Hd & _)|(hw & ev0 & Hknown & Heq)].
  { destruct (Hprobe Hnone) as [hw Hhw]. rewrite Hd in Hhw. discriminate Hhw. }
  subst m' evs. rewrite Heq in *. cbn [fst snd] in *.
  rewrite Hloop in *. cbn [fst snd app] in *.
  eexists. split; [reflexivity|].
  assert (Hkeys : dict_keys ((λ e, (e.1, connect_ok now e.2))
                               <$> SocketManager._sockets m)
                  = dict_keys (SocketManager._sockets m)).
  { unfold dict_keys. rewrite <- list_fmap_compose. by apply list_fmap_ext. }
  split; [|split; [|split; [|split; [done|split; [done|split]]]]].
  - rewrite detect_count_app, (detect_count_logs _ Hlog).
    destruct Hknown as [[-> ->]|[-> Hd]]; [done|].
    rewrite Hd in Hdet. simpl in Hdet. lia.
  - destruct Hknown as [[-> ->]|[-> Hd]]; [done | by rewrite Hd].
  - intros ops. by apply hardware_cached_run.
  - done.
  - by rewrite Hkeys.
Qed.

Lemma connect_all_contract_witness :
  (SocketManager.connect_all Doubles.laptop Doubles.t1 Doubles.one_unplugged).1.2
  = Returned [("elmer:comprehension", true); ("lab:gpu", false);
              ("elmer:monitoring", true)]
  ∧ detect_count
      (SocketManager.connect_all Doubles.laptop Doubles.t1
         Doubles.one_unplugged).2 = 1%nat
  ∧ (ElmerSocket.is_connected ∘ snd) <$>
      SocketManager._sockets
        (SocketManager.connect_all Doubles.laptop Doubles.t1
           Doubles.one_unplugged).1.1
    = [true; false; true]
  ∧ ∀ ops,
      detect_count
        (Ops.trace ops
           (SocketManager.connect_all Doubles.laptop Doubles.t1
              Doubles.one_unplugged).1.1) = 0%nat.
Proof.
  destruct (connect_all_contract Doubles.laptop Doubles.t1
              Doubles.one_unplugged
              (manager_inv_run _ _ (manager_inv_init 16)))
    as (results & Hr & Hdetect & _ & Hlater & Hsockets & Hresults & _).
  { intros _. eexists. reflexivity. }
  split; [rewrite Hr, Hresults; vm_compute; reflexivity|].
  split; [exact Hdetect|].
  split; [rewrite Hsockets; vm_compute; reflexivity|].
  intros ops. apply Hlater.
Defined.

(** ** Engine *)

Section Engine.
Import ElmerEngine.
Context (py_str : PyDict → string) (hash_embed : Z → string → list Q).
Context (get_instance : string → option string → PyDict → Outcome NGEcosystem).

(** A call that starts the engine leaves it started. *)
Lemma start_sets_started env now e e' report evs :
  start py_str get_instance env now e = (e', Returned report, evs) →
  _started e' = true.
Proof.
  unfold start. destruct (_started e) eqn:Hs.
  { by intros [= <- _ _]. }
  destruct (SocketManager.register _ _) as [[m1 [[]|exc1]] evs1]; [|done].
  destruct (SocketManager.register m1 _) as [[m2 [[]|exc2]] evs2]; [|done].
  destruct (SocketManager.connect_all env now m2)
    as [[m3 [res|exc3]] evs3]; [|done].
  destruct (get_instance _ _ _) as [eco|exc];
    destruct (SocketManager.detect_hardware env) as [[hw|exc5] evs5];
    try done; by intros [= <- _ _].
Qed.

(** The shape of [process_text] on a started engine. *)
Lemma process_text_started uid now e text :
  _started e = true →
  let r := process_text py_str hash_embed uid now e text in
  _process_count r.1.1 = _process_count e + 1
  ∧ _started r.1.1 = true
  ∧ _ecosystem r.1.1 = _ecosystem e
  ∧ (∀ result, r.1.2 = Returned result →
       dict_get "process_id" result = Some (PInt (_process_count e + 1)))
  ∧ ((∀ eco embedding, _ecosystem e = Some eco →
        ∃ ctx, get_context eco embedding = Returned ctx) →
     ∃ result, r.1.2 = Returned result).
Proof.
  intros Hs r. subst r. unfold process_text. rewrite Hs. simpl.
  destruct (SocketManager.route_signal _ _ _) as [[m processed] evs].
  destruct (_ecosystem e) as [eco|] eqn:Heco.
  - destruct (get_context eco _) as [ctx|exc] eqn:Hctx; simpl.
    + split; [done|]. split; [done|]. split; [done|]. split.
      * intros result [= <-]. by destruct ctx as [|? ?].
      * intros _. by eexists.
    + split; [done|]. split; [done|]. split; [done|]. split; [done|].
      intros Hctx'.
      match type of Hctx with get_context eco ?emb = _ =>
        destruct (Hctx' eco emb eq_refl) as [ctx Hc]
      end. congruence.
  - simpl. split; [done|]. split; [done|]. split; [done|]. split.
    + by intros result [= <-].
    + intros _. by eexists.
Qed.

End Engine.

(** C8. [process_text] on an engine that is not started (a new engine, or
    a stopped one) raises the not-started error and changes nothing. On a
    started engine every call adds one to the engine's counter, and the
    record it returns carries the new counter as its process id; so of two
    calls in a row that return, the second carries the first one's id plus
    one. A call returns whenever the collaborator is absent or answers. *)
Theorem process_text_counter (py_str : PyDict → string)
    (hash_embed : Z → string → list Q)
    (get_instance : string → option string → PyDict
                    → Outcome ElmerEngine.NGEcosystem)
    (e : ElmerEngine.t) (uid : string) (now : Q) (text : string) :
  let call e uid now text :=
    ElmerEngine.process_text py_str hash_embed uid now e text in
  (ElmerEngine._started e = false →
   call e uid now text
   = (e, Raised (RuntimeError "Engine not started. Call start() first."), []))
  ∧ (∀ config, ElmerEngine._started (ElmerEngine.__init__ config) = false)
  ∧ (∀ env e0 report evs,
       ElmerEngine.start py_str get_instance env now e0 = (e, Returned report, evs) →
       ElmerEngine._started e = true)
  ∧ (ElmerEngine._started e = true →
     ElmerEngine._process_count (call e uid now text).1.1
       = ElmerEngine._process_count e + 1
     ∧ (∀ result, (call e uid now text).1.2 = Returned result →
          dict_get "process_id" result
          = Some (PInt (ElmerEngine._process_count e + 1)))
     ∧ ((∀ eco embedding, ElmerEngine._ecosystem e = Some eco →
           ∃ ctx, ElmerEngine.get_context eco embedding = Returned ctx) →
        ∃ result, (call e uid now text).1.2 = Returned result)
     ∧ (∀ uid' now' text' result result',
          (call e uid now text).1.2 = Returned result →
          (call (call e uid now text).1.1 uid' now' text').1.2
            = Returned result' →
          ∃ n, dict_get "process_id" result = Some (PInt n)
               ∧ dict_get "process_id" result' = Some (PInt (n + 1)))).
Proof.
  intros call. subst call. cbv beta. split; [|split; [done|split]].
  - intros Hs. unfold ElmerEngine.process_text. by rewrite Hs.
  - intros env e0 report evs. apply start_sets_started.
  - intros Hs.
    destruct (process_text_started py_str hash_embed uid now e text Hs)
      as (Hcount & Hs' & Heco & Hid & Htotal).
    split; [done|]. split; [done|]. split; [done|].
    intros uid' now' text' result result' Hr Hr'.
    destruct (process_text_started py_str hash_embed uid' now'
                (ElmerEngine.process_text py_str hash_embed uid now e text).1.1
                text' Hs') as (_ & _ & _ & Hid' & _).
    exists (ElmerEngine._process_count e + 1). split; [by apply Hid|].
    rewrite <- Hcount. by apply Hid'.
Qed.

(** C10. The status at the top of the engine's health record is "healthy"
    when the engine is started and "offline" when it is not, whatever the
    socket manager reports underneath; it is never "degraded". A started
    engine whose sockets are all offline still reports "healthy". *)
Theorem engine_health_status (now : Q) (e : ElmerEngine.t) :
  (∀ h, ElmerEngine.health now e = Returned h →
     ElmerEngine.eh_status h
       = (if ElmerEngine._started e then "healthy" else "offline")
     ∧ ElmerEngine.eh_status h ≠ "degraded"
     ∧ ElmerEngine.eh_sockets h
       = SocketManager.health_report now (ElmerEngine._socket_manager e))
  ∧ ((∀ eco, ElmerEngine._ecosystem e = Some eco →
        ∃ s, ElmerEngine.stats eco = Returned s) →
     ∃ h, ElmerEngine.health now e = Returned h)
  ∧ ∃ e0 h0,
      ElmerEngine._started e0 = true
      ∧ ElmerEngine.health now e0 = Returned h0
      ∧ SocketManager.hr_status (ElmerEngine.eh_sockets h0) = "offline"
      ∧ ElmerEngine.eh_status h0 = "healthy".
Proof.
  split; [|split].
  - intros h. unfold ElmerEngine.health.
    destruct (ElmerEngine._ecosystem e) as [eco|];
      [destruct (ElmerEngine.stats eco); [|done]|];
      intros [= <-]; simpl; (split; [done|]); (split; [|done]);
      by destruct (ElmerEngine._started e).
  - intros Hstats. unfold ElmerEngine.health.
    destruct (ElmerEngine._ecosystem e) as [eco|]; [|by eexists].
    destruct (Hstats eco eq_refl) as [s ->]. by eexists.
  - exists (ElmerEngine.mk ElmerEngine.default_config
              (SocketManager.disconnect_all Doubles.shipped).1
              GraphEncoder.__init__ None true Doubles.t0 0).
    eexists. split; [done|]. split; [reflexivity|].
    split; [|done]. vm_compute. reflexivity.
Qed.

(** ** Encoder *)

Section Encoder.
Import GraphEncoder.

(** What the key loop of [_extract_text] finds. *)
Lemma first_text_found keys payload pre key post s :
  keys = pre ++ key :: post →
  (∀ k, k ∈ pre → isinstance_str <$> dict_get k payload ≠ Some true) →
  dict_get key payload = Some (PStr s) →
  first_text keys payload = Some s.
Proof.
  intros -> Hpre Hkey. induction pre as [|k pre IH]; simpl.
  - by rewrite Hkey.
  - assert (Hk : isinstance_str <$> dict_get k payload ≠ Some true).
    { apply Hpre. left. }
    rewrite IH; [|intros k' Hk'; apply Hpre; by right].
    destruct (dict_get k payload) as [[]|]; try done.
Qed.

Lemma first_text_none keys payload :
  (∀ k, k ∈ keys → isinstance_str <$> dict_get k payload ≠ Some true) →
  first_text keys payload = None.
Proof.
  induction keys as [|k keys IH]; intros Hall; simpl; [done|].
  assert (Hk : isinstance_str <$> dict_get k payload ≠ Some true).
  { apply Hall. left. }
  rewrite IH; [|intros k' Hk'; apply Hall; by right].
  destruct (dict_get k payload) as [[]|]; try done.
Qed.

End Encoder.

(** C9 (as stated, refuted). A payload whose "text" entry is not a string:
    "text" is the first of the four keys that is present, yet the text
    extracted is the string held under "content"; and when no other key
    holds a string the whole payload is stringified although "text" was
    found. *)
Lemma extract_text_ignores_present_non_string :
  let signal payload :=
    SubstrateSignal_create "sig-9" Doubles.t0 "test:input" SENSORY payload
      (Qmake 1 1) 5 None [] in
  first_present GraphEncoder.text_keys
    [("text", PInt 5); ("content", PStr "hi")] = Some ("text", PInt 5)
  ∧ (∀ py_str,
       GraphEncoder._extract_text py_str
         (signal [("text", PInt 5); ("content", PStr "hi")]) = "hi")
  ∧ first_present GraphEncoder.text_keys [("text", PInt 5)]
    = Some ("text", PInt 5)
  ∧ (∀ py_str,
       GraphEncoder._extract_text py_str (signal [("text", PInt 5)])
       = py_str [("text", PInt 5)]).
Proof. cbv zeta. repeat split. Qed.

(** C9 (amended). The target id of an encoding is the signal type's value,
    a colon and the source socket. The text that is embedded is the string
    held under the first of "text", "content", "message", "query" (in this
    order) that is in the payload and holds a string; when none of the
    four holds a string it is [str] of the whole payload. *)
Theorem encode_target_and_text (py_str : PyDict → string)
    (hash_embed : Z → string → list Q) (enc : GraphEncoder.t)
    (signal : SubstrateSignal) :
  let holds_str k := isinstance_str <$> dict_get k (payload signal) in
  GraphEncoder.text_keys = ["text"; "content"; "message"; "query"]
  ∧ GraphEncoder.target_id (GraphEncoder.encode py_str hash_embed enc signal)
    = SignalType_value (signal_type signal) +:+ ":" +:+ source_socket signal
  ∧ GraphEncoder.embedding (GraphEncoder.encode py_str hash_embed enc signal)
    = hash_embed (GraphEncoder._embedding_dim enc)
        (GraphEncoder._extract_text py_str signal)
  ∧ (∀ pre key post s,
       GraphEncoder.text_keys = pre ++ key :: post →
       (∀ k, k ∈ pre → holds_str k ≠ Some true) →
       dict_get key (payload signal) = Some (PStr s) →
       GraphEncoder._extract_text py_str signal = s)
  ∧ ((∀ k, k ∈ GraphEncoder.text_keys → holds_str k ≠ Some true) →
     GraphEncoder._extract_text py_str signal = py_str (payload signal)).
Proof.
  intros holds_str. subst holds_str. cbv beta.
  split; [done|]. split; [done|]. split; [done|]. split.
  - intros pre key post s Hkeys Hpre Hkey. unfold GraphEncoder._extract_text.
    by rewrite (first_text_found _ _ pre key post s).
  - intros Hnone. unfold GraphEncoder._extract_text.
    by rewrite first_text_none.
Qed.

(** * Further properties *)

(** ** Registry: lookup, removal, capacity *)

Section RegistryMore.
Import SocketManager.
Implicit Types (m : SocketManager.t) (s : ElmerSocket.t)
  (d : list (string * ElmerSocket.t)).

Lemma dict_get_fmap {A B} (f : A → B) k (d : list (string * A)) :
  dict_get k ((λ e, (e.1, f e.2)) <$> d) = f <$> dict_get k d.
Proof.
  induction d as [|[k' a] d IH]; simpl; [done|].
  destruct (decide (k' = k)); [done | apply IH].
Qed.


Lemma dict_pop_app_fresh {A} k (a : A) (d : list (string * A)) :
  dict_get k d = None → dict_pop k (d ++ [(k, a)]) = (Some a, d).
Proof.
  induction d as [|[k' a'] d IH]; simpl.
  - by rewrite decide_True.
  - destruct (decide (k' = k)); [done|]. intros H. by rewrite IH.
Qed.

Lemma dict_pop_length {A} k (d : list (string * A)) :
  (length (dict_pop k d).2 ≤ length d)%nat.
Proof.
  induction d as [|[k' a'] d IH]; simpl; [done|].
  destruct (decide (k' = k)); simpl; [lia|].
  destruct (dict_pop k d) as [r d'']. simpl in *. lia.
Qed.

Lemma classes_of_length d : length (classes_of d) = length d.
Proof. unfold classes_of. apply length_fmap. Qed.

Lemma filter_ne_absent (sid : string) (l : list string) :
  sid ∉ l → filter (λ x, x ≠ sid) l = l.
Proof.
  induction l as [|x l IH]; [done|].
  rewrite not_elem_of_cons. intros [Hne Hl].
  rewrite filter_cons_True by congruence. by rewrite IH.
Qed.

(** The operations other than [register] and [unregister] keep the
    classes in the registry and the type index. *)
Lemma step_keeps_registration m op :
  match op with
  | Ops.Register _ | Ops.Unregister _ => True
  | _ => classes_of (_sockets (Ops.step m op)) = classes_of (_sockets m)
         ∧ _type_index (Ops.step m op) = _type_index m
  end.
Proof.
  destruct op as [socket|sid|env now| |now signal]; simpl; try done.
  - destruct (connect_all_cases env now m)
      as [(exc & ev0 & _ & _ & ->)|(hw & ev0 & _ & ->)]; [done|].
    split; [apply connect_loop_classes | done].
  - unfold disconnect_all.
    pose proof (disconnect_loop_classes (_sockets m)) as H.
    by destruct (disconnect_loop (_sockets m)).
  - unfold route_signal.
    pose proof (route_loop_classes now (_sockets m)
      (default [] (_type_index m !! SignalType_value (signal_type signal)))
      signal) as H.
    by destruct (route_loop _ _ _ _) as [[? ?] ?].
Qed.

Lemma step_max_sockets m op : _max_sockets (Ops.step m op) = _max_sockets m.
Proof.
  destruct op as [socket|sid|env now| |now signal]; simpl.
  - unfold register. destruct (dict_contains _ _); [done|].
    by destruct (_ >=? _).
  - unfold unregister. destruct (dict_pop sid (_sockets m)) as [[s|] rest]; done.
  - by destruct (connect_all_cases env now m)
      as [(exc & ev0 & _ & _ & ->)|(hw & ev0 & _ & ->)].
  - unfold disconnect_all. by destruct (disconnect_loop (_sockets m)).
  - unfold route_signal. by destruct (route_loop _ _ _ _) as [[? ?] ?].
Qed.

Lemma step_within_capacity m op :
  Z.of_nat (length (_sockets m)) ≤ _max_sockets m →
  Z.of_nat (length (_sockets (Ops.step m op))) ≤ _max_sockets m.
Proof.
  intros Hle. pose proof (step_keeps_registration m op) as Hkeep.
  destruct op as [socket|sid|env now| |now signal];
    [| |by rewrite <- classes_of_length, (proj1 Hkeep), classes_of_length..].
  - simpl. unfold register. destruct (dict_contains _ _) eqn:Hdup; [done|].
    destruct (Z.geb_spec (Z.of_nat (length (_sockets m))) (_max_sockets m));
      [done|]. simpl.
    rewrite dict_set_fresh.
    + rewrite length_app. simpl. lia.
    + unfold dict_contains in Hdup. by destruct (dict_get _ _).
  - simpl. unfold unregister.
    pose proof (dict_pop_length sid (_sockets m)) as Hlen.
    destruct (dict_pop sid (_sockets m)) as [[s|] rest]; simpl in *; lia.
Qed.

End RegistryMore.

(** X1. After a [register] that succeeds, [get_socket] finds the socket under
    its id, and every other id resolves as before. *)
Theorem get_socket_after_register (m : SocketManager.t)
    (socket : ElmerSocket.t) :
  SocketManager.get_socket m (ElmerSocket.id socket) = None →
  Z.of_nat (length (SocketManager._sockets m)) < SocketManager._max_sockets m →
  let m' := (SocketManager.register m socket).1.1 in
  SocketManager.get_socket m' (ElmerSocket.id socket) = Some socket
  ∧ ∀ sid, sid ≠ ElmerSocket.id socket →
           SocketManager.get_socket m' sid = SocketManager.get_socket m sid.
Proof.
  intros Hnew Hroom m'.
  destruct (register_cases m socket) as (_ & _ & Hok).
  destruct (Hok Hnew Hroom) as (m1 & evs & Heq & Hs & _).
  subst m'. rewrite Heq. simpl. unfold SocketManager.get_socket in *.
  rewrite Hs, <- dict_set_fresh by done. split.
  - apply dict_get_set_eq.
  - intros sid Hne. by rewrite dict_get_set_ne.
Qed.

Lemma get_socket_after_register_witness :
  SocketManager.get_socket
    (SocketManager.register (SocketManager.__init__ 16)
       (ElmerSocket.new ComprehensionSocket.class)).1.1
    "elmer:comprehension"
  = Some (ElmerSocket.new ComprehensionSocket.class).
Proof.
  apply (get_socket_after_register (SocketManager.__init__ 16)
           (ElmerSocket.new ComprehensionSocket.class)); [reflexivity | done].
Defined.

(** X2. [unregister] of an id that is not registered changes nothing and logs
    nothing. Otherwise the id is gone from the registry and from every
    type bucket, and every other id resolves as before. *)
Theorem unregister_removes (m : SocketManager.t) (sid : string) :
  manager_inv m →
  let m' := (SocketManager.unregister m sid).1 in
  (SocketManager.get_socket m sid = None →
   SocketManager.unregister m sid = (m, []))
  ∧ SocketManager.get_socket m' sid = None
  ∧ (∀ other, other ≠ sid →
       SocketManager.get_socket m' other = SocketManager.get_socket m other)
  ∧ (∀ stype bucket, SocketManager._type_index m' !! stype = Some bucket →
       sid ∉ bucket).
Proof.
  intros Hinv m'.
  pose proof (manager_inv_unregister m sid Hinv) as [_ [Hir' _]].
  destruct Hinv as [[Hnd Hid] [Hir Hri]].
  assert (Hgone : SocketManager.get_socket m' sid = None
                  ∧ ∀ other, other ≠ sid →
                      SocketManager.get_socket m' other
                      = SocketManager.get_socket m other).
  { subst m'. unfold SocketManager.unregister, SocketManager.get_socket.
    pose proof (dict_pop_fst sid (SocketManager._sockets m)) as Hfst.
    pose proof (λ k, dict_pop_get sid k (SocketManager._sockets m) Hnd) as Hpop.
    destruct (dict_pop sid (SocketManager._sockets m)) as [popped rest].
    simpl in Hfst, Hpop. subst popped.
    destruct (dict_get sid (SocketManager._sockets m)) as [s|] eqn:Hget; simpl.
    - split; [by rewrite Hpop, decide_True|].
      intros other Hne. by rewrite Hpop, decide_False.
    - by split. }
  split; [|split; [apply Hgone | split; [apply Hgone|]]].
  - unfold SocketManager.get_socket, SocketManager.unregister. intros Hnone.
    by rewrite dict_pop_absent.
  - intros stype bucket Hb Hin. destruct Hgone as [Hnone _].
    destruct (Hir' _ _ _ Hb Hin) as [s Hs].
    unfold SocketManager.get_socket in Hnone. fold m' in Hs. congruence.
Qed.

Lemma unregister_removes_witness :
  SocketManager.get_socket
    (SocketManager.unregister Doubles.shipped "elmer:monitoring").1
    "elmer:monitoring" = None
  ∧ SocketManager._type_index
      (SocketManager.unregister Doubles.shipped "elmer:monitoring").1
      !! "health" = Some [].
Proof.
  split; [|vm_compute; reflexivity].
  apply (unregister_removes Doubles.shipped "elmer:monitoring"
           (manager_inv_run _ _ (manager_inv_init 16))).
Defined.

(** X3. Registering a new socket and unregistering it again gives back the
    registry as it was, and every type bucket holds the ids it held
    before (a bucket created for the socket's type stays behind, empty). *)
Theorem register_unregister_round_trip (m : SocketManager.t)
    (socket : ElmerSocket.t) :
  manager_inv m →
  SocketManager.get_socket m (ElmerSocket.id socket) = None →
  Z.of_nat (length (SocketManager._sockets m)) < SocketManager._max_sockets m →
  let m' := (SocketManager.unregister (SocketManager.register m socket).1.1
               (ElmerSocket.id socket)).1 in
  SocketManager._sockets m' = SocketManager._sockets m
  ∧ (∀ stype, default [] (SocketManager._type_index m' !! stype)
              = default [] (SocketManager._type_index m !! stype))
  ∧ SocketManager._type_index m' !! ElmerSocket.type socket
    = Some (default [] (SocketManager._type_index m
                          !! ElmerSocket.type socket)).
Proof.
  intros Hinv Hnew Hroom m'.
  destruct (register_cases m socket) as (_ & _ & Hok).
  destruct (Hok Hnew Hroom) as (m1 & evs & Heq & Hs & Hb & Hothers & _).
  subst m'. rewrite Heq. simpl. unfold SocketManager.get_socket in Hnew.
  unfold SocketManager.unregister. rewrite Hs, dict_pop_app_fresh by done.
  rewrite Hb. cbn [SocketManager._sockets SocketManager._type_index fst].
  assert (Hold : ElmerSocket.id socket
                 ∉ default [] (SocketManager._type_index m
                                 !! ElmerSocket.type socket)).
  { destruct Hinv as [_ [Hir _]].
    destruct (SocketManager._type_index m !! ElmerSocket.type socket)
      as [b|] eqn:Hbt; simpl; [|apply not_elem_of_nil].
    intros Hin. destruct (Hir _ _ _ Hbt Hin) as [? ?]. congruence. }
  assert (Hfilter : filter (λ x, x ≠ ElmerSocket.id socket)
                      (default [] (SocketManager._type_index m
                                     !! ElmerSocket.type socket)
                       ++ [ElmerSocket.id socket])
                    = default [] (SocketManager._type_index m
                                    !! ElmerSocket.type socket)).
  { rewrite filter_app, filter_ne_absent by done.
    rewrite filter_cons_False by (intros H; by apply H). by rewrite app_nil_r. }
  rewrite Hfilter. split; [done|]. split.
  - intros stype. destruct (decide (stype = ElmerSocket.type socket)) as [->|Hne].
    + by rewrite lookup_insert_eq.
    + by rewrite lookup_insert_ne, Hothers.
  - by rewrite lookup_insert_eq.
Qed.

Lemma register_unregister_round_trip_witness :
  SocketManager._sockets
    (SocketManager.unregister
       (SocketManager.register Doubles.shipped
          (ElmerSocket.new (Doubles.Relay "lab:relay" "memory"))).1.1
       "lab:relay").1
  = SocketManager._sockets Doubles.shipped.
Proof.
  apply (register_unregister_round_trip Doubles.shipped
           (ElmerSocket.new (Doubles.Relay "lab:relay" "memory"))
           (manager_inv_run _ _ (manager_inv_init 16)));
    [vm_compute; reflexivity | vm_compute; reflexivity].
Defined.

(** X4. A manager created with a non-negative [max_sockets] never holds more
    sockets than that, whatever is done with it. *)
Theorem registry_within_capacity (max_sockets : Z) (ops : list Ops.Op) :
  0 ≤ max_sockets →
  Z.of_nat (length (SocketManager._sockets
                      (Ops.run ops (SocketManager.__init__ max_sockets))))
    ≤ max_sockets.
Proof.
  intros Hmax.
  assert (H : ∀ m, SocketManager._max_sockets m = max_sockets →
                   Z.of_nat (length (SocketManager._sockets m)) ≤ max_sockets →
                   Z.of_nat (length (SocketManager._sockets (Ops.run ops m)))
                     ≤ max_sockets).
  { induction ops as [|op ops IH]; intros m Hm Hle; [done|].
    simpl. apply IH.
    - by rewrite step_max_sockets.
    - rewrite <- Hm. apply step_within_capacity. by rewrite Hm. }
  by apply H.
Qed.

Lemma registry_within_capacity_witness :
  Z.of_nat (length (SocketManager._sockets
     (Ops.run [ Ops.Register (ElmerSocket.new ComprehensionSocket.class);
                Ops.Register (ElmerSocket.new MonitoringSocket.class) ]
        (SocketManager.__init__ 1)))) ≤ 1.
Proof. apply registry_within_capacity. lia. Defined.

(** ** Lifecycle and routing *)

Section LifecycleMore.
Import SocketManager.
Implicit Types (m : SocketManager.t) (s : ElmerSocket.t)
  (d : list (string * ElmerSocket.t)).


Lemma connected_in_ext d1 d2 (l : list string) :
  (∀ x, x ∈ l → dict_get x d1 = dict_get x d2) →
  connected_in d1 l = connected_in d2 l.
Proof.
  unfold connected_in. induction l as [|x l IH]; intros Hext; [done|].
  assert (Hx : dict_get x d1 = dict_get x d2) by (apply Hext; left).
  assert (IH' : filter (λ sid, ElmerSocket.is_connected <$> dict_get sid d1
                               = Some true) l
                = filter (λ sid, ElmerSocket.is_connected <$> dict_get sid d2
                                 = Some true) l).
  { apply IH. intros y Hy. apply Hext. by right. }
  rewrite !filter_cons, IH', Hx. done.
Qed.

(** When every connected socket of the bucket raises, the loop hands back
    the input signal and has logged once per connected socket. *)
Lemma omap_ext_in {A B} (f g : A → option B) (l : list A) :
  (∀ x, x ∈ l → f x = g x) → omap f l = omap g l.
Proof.
  induction l as [|x l IH]; intros Hfg; [done|].
  change (omap f (x :: l))
    with (match f x with Some y => y :: omap f l | None => omap f l end).
  change (omap g (x :: l))
    with (match g x with Some y => y :: omap g l | None => omap g l end).
  rewrite (Hfg x) by left. rewrite IH; [done|].
  intros y Hy. apply Hfg. by right.
Qed.

(** The loop of [route_signal] over a bucket in which every connected
    socket raises: the signal comes back, and the log holds the error
    record of each connected socket, in bucket order. *)
Lemma route_loop_all_fail now signal (bucket : list string) d :
  NoDup bucket →
  (∀ sid s, sid ∈ bucket → dict_get sid d = Some s →
            ElmerSocket.is_connected s = true →
            ∃ s' exc, ElmerSocket.process now s signal = (s', Raised exc)) →
  (route_loop now d bucket signal).1.2 = signal
  ∧ (route_loop now d bucket signal).2
    = omap (λ sid,
        match dict_get sid d with
        | Some s =>
            if ElmerSocket.is_connected s
            then match (ElmerSocket.process now s signal).2 with
                 | Raised exc =>
                     Some (EvLog ERROR
                             ("Socket " +:+ sid
                              +:+ " failed to process signal "
                              +:+ signal_id signal +:+ ": " +:+ exn_str exc))
                 | Returned _ => None
                 end
            else None
        | None => None
        end) bucket
  ∧ length (route_loop now d bucket signal).2
    = length (connected_in d bucket).
Proof.
  revert d. induction bucket as [|sid rest IH]; intros d Hnd Hfail; [done|].
  apply NoDup_cons in Hnd as [Hnotin Hnd]. simpl. unfold connected_in.
  destruct (dict_get sid d) as [s|] eqn:Hget.
  - destruct (ElmerSocket.is_connected s) eqn:Hc.
    + destruct (Hfail sid s) as (s' & exc & Hp); [left | done | done |].
      rewrite Hp.
      assert (Hext : ∀ x, x ∈ rest →
                dict_get x (dict_set sid s' d) = dict_get x d).
      { intros x Hx. apply dict_get_set_ne. by intros ->. }
      destruct (IH (dict_set sid s' d) Hnd) as (Hsig & Hevs & Hlen).
      { intros x sx Hx Hgx. rewrite Hext in Hgx by done.
        apply (Hfail x sx); [by right | done]. }
      destruct (route_loop now (dict_set sid s' d) rest signal)
        as [[d'' result] evs]. simpl in *. split; [done|]. split.
      * f_equal. rewrite Hevs. apply omap_ext_in.
        intros x Hx. by rewrite Hext.
      * rewrite filter_cons, decide_True
          by (by rewrite Hget; simpl; rewrite Hc).
        simpl. f_equal. rewrite Hlen. f_equal. by apply connected_in_ext.
    + rewrite filter_cons, decide_False by (by rewrite Hget; simpl; rewrite Hc).
      apply IH; [done|]. intros x sx Hx. apply Hfail. by right.
  - rewrite filter_cons, decide_False by (by rewrite Hget).
    apply IH; [done|]. intros x sx Hx. apply Hfail. by right.
Qed.

End LifecycleMore.




(** X6. Whenever the hardware is already stored, or the probe returns,
    [connect_all] leaves every socket under its id in the state its own
    [connect] produced, and files that socket's outcome under the same id
    in the map it returns; a socket whose [connect] does what the base
    class asks ends up connected with outcome [true], whatever the other
    sockets did; and the manager is marked started. *)
Theorem connect_all_per_socket (env : SocketManager.HostEnv) (now : Q)
    (m : SocketManager.t) (sid : string) (s : ElmerSocket.t) :
  NoDup (dict_keys (SocketManager._sockets m)) →
  (SocketManager._hardware m = None →
   ∃ hw, (SocketManager.detect_hardware env).1 = Returned hw) →
  SocketManager.get_socket m sid = Some s →
  let m' := (SocketManager.connect_all env now m).1.1 in
  SocketManager.get_socket m' sid = Some (ElmerSocket.connect now s).1
  ∧ (∃ results,
       (SocketManager.connect_all env now m).1.2 = Returned results
       ∧ dict_get sid results = Some (connect_ok now s))
  ∧ (well_behaved (ElmerSocket.cls s) →
     ElmerSocket.is_connected (ElmerSocket.connect now s).1 = true
     ∧ connect_ok now s = true)
  ∧ SocketManager._started m' = true.
Proof.
  intros Hnd Hprobe Hget m'. subst m'.
  unfold SocketManager.get_socket in *.
  destruct (connect_loop_spec now (SocketManager._sockets m) []) as [Heq _];
    [done|].
  assert (Hwb : well_behaved (ElmerSocket.cls s) →
                ElmerSocket.is_connected (ElmerSocket.connect now s).1 = true
                ∧ connect_ok now s = true).
  { intros [Hon _]. unfold connect_ok, ElmerSocket.connect,
      ElmerSocket.is_connected.
    destruct (Hon now (ElmerSocket.base s)) as (b & -> & Hb). by simpl. }
  destruct (connect_all_cases env now m)
    as [(exc & ev0 & Hnone & Hd & _)|(hw & ev0 & _ & ->)].
  { destruct (Hprobe Hnone) as [hw Hhw]. rewrite Hd in Hhw. discriminate Hhw. }
  rewrite Heq.
  cbn [fst snd SocketManager._sockets SocketManager._started app].
  rewrite (dict_get_fmap (λ x, (ElmerSocket.connect now x).1) sid), Hget.
  split; [done|]. split; [|done].
  eexists. split; [reflexivity|].
  by rewrite (dict_get_fmap (connect_ok now) sid), Hget.
Qed.

Lemma connect_all_per_socket_witness :
  ElmerSocket.is_connected <$>
    SocketManager.get_socket
      (SocketManager.connect_all Doubles.laptop Doubles.t1
         Doubles.one_unplugged).1.1 "elmer:monitoring"
  = Some true.
Proof.
  destruct (connect_all_per_socket Doubles.laptop Doubles.t1
              Doubles.one_unplugged "elmer:monitoring"
              (ElmerSocket.new MonitoringSocket.class)) as [-> _].
  - vm_compute. apply (bool_decide_unpack _). vm_compute. exact I.
  - intros _. eexists. reflexivity.
  - vm_compute. reflexivity.
  - reflexivity.
Defined.

(** X7. Routing never changes what is registered: the ids and classes in the
    registry, the type index, the capacity, the stored hardware and the
    started flag are the same before and after. *)
Theorem route_signal_keeps_registration (now : Q) (m : SocketManager.t)
    (signal : SubstrateSignal) :
  let m' := (SocketManager.route_signal now m signal).1.1 in
  classes_of (SocketManager._sockets m') = classes_of (SocketManager._sockets m)
  ∧ dict_keys (SocketManager._sockets m') = dict_keys (SocketManager._sockets m)
  ∧ SocketManager._type_index m' = SocketManager._type_index m
  ∧ SocketManager._max_sockets m' = SocketManager._max_sockets m
  ∧ SocketManager._hardware m' = SocketManager._hardware m
  ∧ SocketManager._started m' = SocketManager._started m.
Proof.
  intros m'.
  destruct (step_keeps_registration m (Ops.RouteSignal now signal))
    as [Hc Hi]. simpl in Hc, Hi. fold m' in Hc, Hi.
  split; [done|]. split; [by rewrite <- !classes_of_keys, Hc|].
  split; [done|]. subst m'. unfold SocketManager.route_signal.
  by destruct (SocketManager.route_loop _ _ _ _) as [[? ?] ?].
Qed.

(** X8. When every connected socket in the bucket of the signal's type raises,
    [route_signal] returns the input signal, and its log is exactly one
    ERROR record per connected socket of the bucket, in bucket order: the
    record names the socket's id, the signal's id and the exception that
    socket's [process] raised. *)
Theorem route_signal_all_fail (now : Q) (m : SocketManager.t)
    (signal : SubstrateSignal) :
  let bucket := default [] (SocketManager._type_index m
                              !! SignalType_value (signal_type signal)) in
  NoDup bucket →
  (∀ sid s, sid ∈ bucket → SocketManager.get_socket m sid = Some s →
            ElmerSocket.is_connected s = true →
            ∃ s' exc, ElmerSocket.process now s signal = (s', Raised exc)) →
  (SocketManager.route_signal now m signal).1.2 = signal
  ∧ (SocketManager.route_signal now m signal).2
    = omap (λ sid,
        match SocketManager.get_socket m sid with
        | Some s =>
            if ElmerSocket.is_connected s
            then match (ElmerSocket.process now s signal).2 with
                 | Raised exc =>
                     Some (EvLog ERROR
                             ("Socket " +:+ sid
                              +:+ " failed to process signal "
                              +:+ signal_id signal +:+ ": " +:+ exn_str exc))
                 | Returned _ => None
                 end
            else None
        | None => None
        end) bucket
  ∧ length (SocketManager.route_signal now m signal).2
    = length (connected_in (SocketManager._sockets m) bucket).
Proof.
  intros bucket Hnd Hfail.
  destruct (route_loop_all_fail now signal bucket (SocketManager._sockets m)
              Hnd Hfail) as (Hsig & Hevs & Hlen).
  unfold SocketManager.route_signal. fold bucket.
  by destruct (SocketManager.route_loop _ _ _ _) as [[? ?] ?].
Qed.

Lemma route_signal_all_fail_witness :
  let m := (SocketManager.unregister Doubles.broken_then_relay "lab:relay").1 in
  (SocketManager.route_signal Doubles.t1 m Doubles.hello).1.2 = Doubles.hello
  ∧ (SocketManager.route_signal Doubles.t1 m Doubles.hello).2
    = [ EvLog ERROR
          "Socket lab:broken failed to process signal sig-1: incompatible signal" ].
Proof.
  destruct (route_signal_all_fail Doubles.t1
              (SocketManager.unregister Doubles.broken_then_relay
                 "lab:relay").1
              Doubles.hello) as (Hsig & Hevs & _).
  - vm_compute. apply NoDup_singleton.
  - intros sid s Hin. vm_compute in Hin.
    apply list_elem_of_singleton in Hin as ->.
    vm_compute. intros [= <-] _. by eexists _, _.
  - split; [exact Hsig | exact Hevs].
Defined.



(** ** The shipped sockets *)

Section ShippedSockets.
Import ElmerSocket.

Lemma socket_eta (s : ElmerSocket.t) : ElmerSocket.mk (cls s) (base s) = s.
Proof. by destruct s. Qed.

Lemma base_eta (b : BaseState) :
  mkBase (_connected b) (_process_count b) (_error_count b)
    (_last_process_time b) (_connect_time b) = b.
Proof. by destruct b. Qed.

Lemma shipped_health_entry now (s : ElmerSocket.t) :
  shipped (cls s) →
  default (PStr "unknown") (dict_get "status" (health_entry now s))
  = PStr (if is_connected s then "healthy" else "offline").
Proof.
  unfold health_entry, health_check, is_connected.
  by intros [-> | ->]; simpl; destruct (_connected (base s)).
Qed.

Lemma filter_length_all {A} (P : A → Prop) `{!∀ x, Decision (P x)}
    (l : list A) :
  length (filter P l) = length l ↔ Forall P l.
Proof.
  induction l as [|x l IH]; [by split|].
  rewrite filter_cons. pose proof (length_filter P l) as Hle.
  destruct (decide (P x)) as [Hx|Hx]; simpl.
  - rewrite Forall_cons. split.
    + intros [= Heq]. split; [done | by apply IH].
    + intros [_ Hl]. f_equal. by apply IH.
  - split; [lia|]. by intros [? _]%Forall_cons.
Qed.

Lemma filter_length_none {A} (P : A → Prop) `{!∀ x, Decision (P x)}
    (l : list A) :
  length (filter P l) = 0%nat ↔ Forall (λ x, ¬ P x) l.
Proof.
  induction l as [|x l IH]; [by split|].
  rewrite filter_cons. destruct (decide (P x)) as [Hx|Hx]; simpl.
  - split; [done|]. by intros [? _]%Forall_cons.
  - rewrite Forall_cons, IH. split; [by intros ? | by intros [_ ?]].
Qed.

End ShippedSockets.

(** X10. For the shipped sockets [connect] and [disconnect] are idempotent: a
    second [connect] changes nothing (the first connect time stays), and
    so does a second [disconnect]; neither raises, neither touches the
    counters. *)
Theorem shipped_connect_idempotent (s : ElmerSocket.t) (now1 now2 : Q) :
  shipped (ElmerSocket.cls s) →
  ElmerSocket.is_connected (ElmerSocket.connect now1 s).1 = true
  ∧ ElmerSocket.connect now2 (ElmerSocket.connect now1 s).1
    = ((ElmerSocket.connect now1 s).1, Returned ())
  ∧ (ElmerSocket.is_connected s = false →
     ElmerSocket._connect_time (ElmerSocket.base (ElmerSocket.connect now1 s).1)
     = now1)
  ∧ ElmerSocket.is_connected (ElmerSocket.disconnect s).1 = false
  ∧ ElmerSocket.disconnect (ElmerSocket.disconnect s).1
    = ((ElmerSocket.disconnect s).1, Returned ())
  ∧ ElmerSocket._process_count (ElmerSocket.base (ElmerSocket.connect now1 s).1)
    = ElmerSocket._process_count (ElmerSocket.base s)
  ∧ ElmerSocket._process_count (ElmerSocket.base (ElmerSocket.disconnect s).1)
    = ElmerSocket._process_count (ElmerSocket.base s).
Proof.
  destruct s as [c b]. simpl.
  intros [-> | ->]; unfold ElmerSocket.connect, ElmerSocket.disconnect,
    ElmerSocket.is_connected; simpl;
    unfold ComprehensionSocket.connect, MonitoringSocket.connect;
    destruct (ElmerSocket._connected b) eqn:Hc; simpl; rewrite ?Hc;
    repeat split; try done;
    unfold ComprehensionSocket.connect, MonitoringSocket.connect;
    by rewrite Hc.
Qed.

Lemma shipped_connect_idempotent_witness :
  ElmerSocket.connect Doubles.t1
    (ElmerSocket.connect Doubles.t0
       (ElmerSocket.new MonitoringSocket.class)).1
  = ((ElmerSocket.connect Doubles.t0
        (ElmerSocket.new MonitoringSocket.class)).1, Returned ()).
Proof.
  apply (shipped_connect_idempotent (ElmerSocket.new MonitoringSocket.class)
           Doubles.t0 Doubles.t1).
  right. reflexivity.
Defined.

(** X11. [process] of a shipped socket raises the not-connected error, and
    changes nothing, on a disconnected socket. On a connected one it
    returns a signal that differs from its input only in the source
    socket (the socket's id) and in the metadata, where every entry other
    than the sockets' own annotations is kept; it counts the call and
    stays connected. *)
Theorem shipped_process (s : ElmerSocket.t) (now : Q)
    (signal : SubstrateSignal) :
  shipped (ElmerSocket.cls s) →
  (ElmerSocket.is_connected s = false →
   ∃ msg, ElmerSocket.process now s signal = (s, Raised (RuntimeError msg)))
  ∧ (ElmerSocket.is_connected s = true →
     ∃ s' result,
       ElmerSocket.process now s signal = (s', Returned result)
       ∧ ElmerSocket._process_count (ElmerSocket.base s')
         = ElmerSocket._process_count (ElmerSocket.base s) + 1
       ∧ ElmerSocket._last_process_time (ElmerSocket.base s') = now
       ∧ ElmerSocket.is_connected s' = true
       ∧ source_socket result = ElmerSocket.id s
       ∧ signal_id result = signal_id signal
       ∧ signal_type result = signal_type signal
       ∧ payload result = payload signal
       ∧ confidence result = confidence signal
       ∧ priority result = priority signal
       ∧ timestamp result = timestamp signal
       ∧ graph_encoding result = graph_encoding signal
       ∧ ∀ k, k ∉ annotation_keys →
              dict_get k (metadata result) = dict_get k (metadata signal)).
Proof.
  destruct s as [c b]. simpl.
  intros [-> | ->]; unfold ElmerSocket.process, ElmerSocket.is_connected;
    simpl; unfold ComprehensionSocket.process, MonitoringSocket.process;
    (split; intros Hc; rewrite Hc; simpl; [by eexists|]);
    eexists _, _; (split; [reflexivity|]); simpl;
    repeat (split; [done|]);
    intros k Hk; unfold annotation_keys in Hk;
    rewrite !not_elem_of_cons in Hk;
    destruct Hk as (Hk1 & Hk2 & Hk3 & Hk4 & _);
    rewrite !dict_get_set_ne by congruence; done.
Qed.

Lemma shipped_process_witness :
  ∃ msg, ElmerSocket.process Doubles.t1
           (ElmerSocket.new ComprehensionSocket.class) Doubles.hello
         = (ElmerSocket.new ComprehensionSocket.class,
            Raised (RuntimeError msg)).
Proof.
  apply (shipped_process (ElmerSocket.new ComprehensionSocket.class)
           Doubles.t1 Doubles.hello); [by left | reflexivity].
Defined.

(** X12. For a registry of shipped sockets the overall health status follows
    the connection states: "healthy" exactly when all sockets are
    connected, "offline" exactly when none is, "degraded" exactly when
    some but not all are. *)
Theorem health_report_shipped (now : Q) (m : SocketManager.t) :
  NoDup (dict_keys (SocketManager._sockets m)) →
  (∀ sid s, (sid, s) ∈ SocketManager._sockets m →
            shipped (ElmerSocket.cls s)) →
  SocketManager._sockets m ≠ [] →
  let report := SocketManager.health_report now m in
  (SocketManager.hr_status report = "healthy"
   ↔ SocketManager.hr_connected_count report
     = SocketManager.hr_socket_count report)
  ∧ (SocketManager.hr_status report = "offline"
     ↔ SocketManager.hr_connected_count report = 0)
  ∧ (SocketManager.hr_status report = "degraded"
     ↔ 0 < SocketManager.hr_connected_count report
           < SocketManager.hr_socket_count report).
Proof.
  intros Hnd Hship Hne report. subst report.
  unfold SocketManager.health_report.
  rewrite health_loop_spec by done. simpl.
  set (d := SocketManager._sockets m) in *.
  assert (Hst : reported_statuses ((λ e, (e.1, health_entry now e.2)) <$> d)
                = (λ e, PStr (if ElmerSocket.is_connected e.2
                              then "healthy" else "offline")) <$> d).
  { unfold reported_statuses. rewrite <- list_fmap_compose.
    apply list_fmap_ext. intros i [k s] Hi. simpl.
    apply shipped_health_entry, (Hship k).
    by apply list_elem_of_lookup_2 in Hi. }
  rewrite Hst.
  destruct (overall_status_spec
              ((λ e, PStr (if ElmerSocket.is_connected e.2
                           then "healthy" else "offline")) <$> d))
    as [_ Hrest].
  destruct Hrest as (Hh & Ho & Hd); [by destruct d|].
  assert (Hall : Forall (λ v, v = PStr "healthy")
                   ((λ e, PStr (if ElmerSocket.is_connected e.2
                                then "healthy" else "offline")) <$> d)
                 ↔ Forall (λ s, ElmerSocket.is_connected s = true)
                     (dict_values d)).
  { unfold dict_values. rewrite !Forall_fmap. apply Forall_iff.
    intros [k s]. simpl. destruct (ElmerSocket.is_connected s); by split. }
  assert (Hnone : Forall (λ v, v = PStr "offline" ∨ v = PStr "error")
                    ((λ e, PStr (if ElmerSocket.is_connected e.2
                                 then "healthy" else "offline")) <$> d)
                  ↔ Forall (λ s, ¬ ElmerSocket.is_connected s = true)
                      (dict_values d)).
  { unfold dict_values. rewrite !Forall_fmap. apply Forall_iff.
    intros [k s]. simpl. destruct (ElmerSocket.is_connected s).
    - split; [by intros [[=]|[=]] | by intros H; destruct H].
    - split; [done | by left]. }
  pose proof (filter_length_all (λ s, ElmerSocket.is_connected s = true)
                (dict_values d)) as Fall.
  pose proof (filter_length_none (λ s, ElmerSocket.is_connected s = true)
                (dict_values d)) as Fnone.
  pose proof (length_filter (λ s, ElmerSocket.is_connected s = true)
                (dict_values d)) as Fle.
  assert (Hlen : length (dict_values d) = length d).
  { unfold dict_values. apply length_fmap. }
  rewrite Hh, Ho, Hd, Hall, Hnone, <- Fall, <- Fnone, Hlen.
  split; [|split]; lia.
Qed.

Lemma health_report_shipped_witness :
  SocketManager.hr_status
    (SocketManager.health_report Doubles.t1 Doubles.shipped) = "healthy".
Proof.
  apply (health_report_shipped Doubles.t1 Doubles.shipped).
  - vm_compute. apply (bool_decide_unpack _). vm_compute. exact I.
  - intros sid s Hin. vm_compute in Hin.
    apply elem_of_cons in Hin as [[= _ ->]|Hin]; [by left|].
    apply list_elem_of_singleton in Hin as [= _ ->]. by right.
  - vm_compute. discriminate.
  - vm_compute. reflexivity.
Defined.

(** ** Engine lifecycle *)

Section EngineMore.
Import ElmerEngine.
Context (py_str : PyDict → string) (hash_embed : Z → string → list Q).
Context (get_instance : string → option string → PyDict → Outcome NGEcosystem).

Lemma set_manager_id e : set_manager e (_socket_manager e) = e.
Proof. by destruct e. Qed.

(** The manager of an engine that has just been started, on a host
    where the hardware probe returns. *)
Lemma start_fresh env now config hw :
  2 ≤ max_sockets config →
  (SocketManager.detect_hardware env).1 = Returned hw →
  ∃ index evs,
    start py_str get_instance env now (__init__ config)
    = ({| _config := config;
          _socket_manager :=
            {| SocketManager._sockets :=
                 [ ("elmer:comprehension",
                    ElmerSocket.mk ComprehensionSocket.class
                      (ElmerSocket.mkBase true 0 0 (Qmake 0 1) now));
                   ("elmer:monitoring",
                    ElmerSocket.mk MonitoringSocket.class
                      (ElmerSocket.mkBase true 0 0 (Qmake 0 1) now)) ];
               SocketManager._type_index := index;
               SocketManager._max_sockets := max_sockets config;
               SocketManager._hardware := Some hw;
               SocketManager._started := true |};
          _graph_encoder := GraphEncoder.__init__;
          _ecosystem :=
            match get_instance (module_id (ng_ecosystem config))
                    (if decide (state_path (ng_ecosystem config) = "")
                     then None else Some (state_path (ng_ecosystem config)))
                    (ecosystem_kwargs (ng_ecosystem config)) with
            | Returned eco => Some eco
            | Raised _ => None
            end;
          _started := true; _start_time := now; _process_count := 0 |},
       Returned (Started (version config)
                   [("elmer:comprehension", true); ("elmer:monitoring", true)]
                   match get_instance (module_id (ng_ecosystem config))
                           (if decide (state_path (ng_ecosystem config) = "")
                            then None
                            else Some (state_path (ng_ecosystem config)))
                           (ecosystem_kwargs (ng_ecosystem config)) with
                   | Returned eco => tier eco
                   | Raised _ => 0
                   end hw),
       evs)
    ∧ index !! "sensory" = Some ["elmer:comprehension"]
    ∧ index !! "health" = Some ["elmer:monitoring"]
    ∧ ∀ t, t ≠ "sensory" → t ≠ "health" → index !! t = None.
Proof.
  intros Hmax Hprobe.
  destruct (SocketManager.detect_hardware env) as [probed evs5] eqn:Hhw.
  simpl in Hprobe. subst probed.
  unfold start, __init__. cbn [_started _socket_manager].
  unfold SocketManager.register at 1. cbn -[Z.geb Z.of_nat].
  destruct (Z.geb_spec (Z.of_nat 0) (max_sockets config)); [lia|].
  cbn -[Z.geb Z.of_nat alter insert lookup].
  unfold SocketManager.register at 1. cbn -[Z.geb Z.of_nat alter insert lookup].
  destruct (Z.geb_spec (Z.of_nat 1) (max_sockets config)); [lia|].
  cbn -[Z.geb Z.of_nat alter insert lookup SocketManager.detect_hardware].
  unfold SocketManager.connect_all.
  cbn -[Z.geb Z.of_nat alter insert lookup SocketManager.detect_hardware].
  rewrite !Hhw.
  cbn -[Z.geb Z.of_nat alter insert lookup SocketManager.detect_hardware].
  destruct (get_instance _ _ _) as [eco|exc];
    (eexists _, _; split; [reflexivity|]);
    cbn [SocketManager._type_index];
    (split; [vm_compute; reflexivity|]); (split; [vm_compute; reflexivity|]);
    intros t Ht1 Ht2;
    rewrite register_index; unfold MonitoringSocket.SOCKET_TYPE;
    rewrite decide_False by done;
    rewrite register_index; unfold ComprehensionSocket.SOCKET_TYPE;
    rewrite decide_False by done; apply lookup_empty.
Qed.

(** The same start on a host where the hardware probe raises: the
    exception leaves [start] after both sockets were registered and
    before any of them was connected. *)
Lemma start_fresh_raises env now config exc :
  2 ≤ max_sockets config →
  (SocketManager.detect_hardware env).1 = Raised exc →
  ∃ index evs,
    start py_str get_instance env now (__init__ config)
    = ({| _config := config;
          _socket_manager :=
            {| SocketManager._sockets :=
                 [ ("elmer:comprehension",
                    ElmerSocket.new ComprehensionSocket.class);
                   ("elmer:monitoring",
                    ElmerSocket.new MonitoringSocket.class) ];
               SocketManager._type_index := index;
               SocketManager._max_sockets := max_sockets config;
               SocketManager._hardware := None;
               SocketManager._started := false |};
          _graph_encoder := GraphEncoder.__init__;
          _ecosystem := None;
          _started := false; _start_time := Qmake 0 1;
          _process_count := 0 |},
       Raised exc, evs).
Proof.
  intros Hmax Hprobe.
  destruct (SocketManager.detect_hardware env) as [probed evs5] eqn:Hhw.
  simpl in Hprobe. subst probed.
  unfold start, __init__. cbn [_started _socket_manager].
  unfold SocketManager.register at 1. cbn -[Z.geb Z.of_nat].
  destruct (Z.geb_spec (Z.of_nat 0) (max_sockets config)); [lia|].
  cbn -[Z.geb Z.of_nat alter insert lookup].
  unfold SocketManager.register at 1. cbn -[Z.geb Z.of_nat alter insert lookup].
  destruct (Z.geb_spec (Z.of_nat 1) (max_sockets config)); [lia|].
  cbn -[Z.geb Z.of_nat alter insert lookup SocketManager.detect_hardware].
  unfold SocketManager.connect_all.
  cbn -[Z.geb Z.of_nat alter insert lookup SocketManager.detect_hardware].
  rewrite !Hhw.
  cbn -[Z.geb Z.of_nat alter insert lookup SocketManager.detect_hardware].
  by eexists _, _.
Qed.


(** [disconnect_all] keeps every id in the registry. *)
Lemma disconnect_all_keeps_ids m sid :
  is_Some (SocketManager.get_socket m sid) →
  is_Some (SocketManager.get_socket (SocketManager.disconnect_all m).1 sid).
Proof.
  unfold SocketManager.get_socket, SocketManager.disconnect_all.
  pose proof (disconnect_loop_classes (SocketManager._sockets m)) as Hc.
  destruct (SocketManager.disconnect_loop (SocketManager._sockets m))
    as [d' evs]. simpl in *. intros [s Hs].
  pose proof (classes_of_get sid d') as Hg.
  rewrite Hc, classes_of_get, Hs in Hg. simpl in Hg.
  destruct (dict_get sid d'); [by eexists | done].
Qed.

(** [start] on an engine that is not started and already holds the
    comprehension socket fails on the first registration. *)
Lemma start_already_registered env now e :
  _started e = false →
  is_Some (SocketManager.get_socket (_socket_manager e) "elmer:comprehension") →
  start py_str get_instance env now e
  = (e, Raised (ValueError "Socket already registered: elmer:comprehension"),
     [ EvLog INFO ("Starting Elmer engine v" +:+ version (_config e)) ]).
Proof.
  intros Hs Hreg. unfold start. rewrite Hs.
  destruct (register_cases (_socket_manager e)
              (ElmerSocket.new ComprehensionSocket.class)) as (Hdup & _ & _).
  rewrite (Hdup Hreg). by rewrite set_manager_id.
Qed.

(** [stop] on a started engine whose collaborator (if any) shuts down. *)
Lemma stop_started e :
  _started e = true →
  (∀ eco, _ecosystem e = Some eco → shutdown eco = Returned ()) →
  (stop e).1.2 = Returned ()
  ∧ _started (stop e).1.1 = false
  ∧ _socket_manager (stop e).1.1
    = (SocketManager.disconnect_all (_socket_manager e)).1
  ∧ _process_count (stop e).1.1 = _process_count e
  ∧ _config (stop e).1.1 = _config e.
Proof.
  intros Hs Hshut. unfold stop. rewrite Hs. simpl.
  destruct (SocketManager.disconnect_all (_socket_manager e)) as [m evs].
  destruct (_ecosystem e) as [eco|]; [rewrite (Hshut eco eq_refl)|]; done.
Qed.

End EngineMore.

(** X13. A new engine whose configuration allows two sockets, on a host
    where the hardware probe returns, starts whatever the collaborator's
    initialisation does: the report carries the probe's result, both
    shipped sockets are registered and connected, each in the bucket of
    its type, the engine is marked started with its counter at zero, and
    a failed collaborator leaves the engine in standalone mode with tier 0
    in the report.  On a host where the probe raises, [start] raises the
    same exception: the two sockets are registered but not connected, the
    engine is not started and has no collaborator. *)
Theorem engine_start_fresh
    (py_str : PyDict → string)
    (get_instance : string → option string → PyDict
                    → Outcome ElmerEngine.NGEcosystem)
    (env : SocketManager.HostEnv) (now : Q)
    (config : ElmerEngine.ElmerConfig) :
  2 ≤ ElmerEngine.max_sockets config →
  let r := ElmerEngine.start py_str get_instance env now
             (ElmerEngine.__init__ config) in
  let e := r.1.1 in
  let init :=
    get_instance (ElmerEngine.module_id (ElmerEngine.ng_ecosystem config))
      (if decide (ElmerEngine.state_path (ElmerEngine.ng_ecosystem config) = "")
       then None
       else Some (ElmerEngine.state_path (ElmerEngine.ng_ecosystem config)))
      (ElmerEngine.ecosystem_kwargs (ElmerEngine.ng_ecosystem config)) in
  dict_keys (SocketManager._sockets (ElmerEngine._socket_manager e))
  = ["elmer:comprehension"; "elmer:monitoring"]
  ∧ ElmerEngine._process_count e = 0
  ∧ match (SocketManager.detect_hardware env).1 with
    | Returned hw =>
        r.1.2
        = Returned (ElmerEngine.Started (ElmerEngine.version config)
                      [ ("elmer:comprehension", true);
                        ("elmer:monitoring", true) ]
                      match init with
                      | Returned eco => ElmerEngine.tier eco
                      | Raised _ => 0
                      end hw)
        ∧ ElmerEngine._started e = true
        ∧ ElmerEngine._ecosystem e
          = match init with Returned eco => Some eco | Raised _ => None end
        ∧ Forall (λ s, ElmerSocket.is_connected s = true)
            (dict_values
               (SocketManager._sockets (ElmerEngine._socket_manager e)))
        ∧ SocketManager._type_index (ElmerEngine._socket_manager e)
            !! "sensory" = Some ["elmer:comprehension"]
        ∧ SocketManager._type_index (ElmerEngine._socket_manager e)
            !! "health" = Some ["elmer:monitoring"]
    | Raised exc =>
        r.1.2 = Raised exc
        ∧ ElmerEngine._started e = false
        ∧ ElmerEngine._ecosystem e = None
        ∧ Forall (λ s, ElmerSocket.is_connected s = false)
            (dict_values
               (SocketManager._sockets (ElmerEngine._socket_manager e)))
    end.
Proof.
  intros Hmax r e init. subst r e init.
  destruct (SocketManager.detect_hardware env).1 as [hw|exc] eqn:Hprobe.
  - destruct (start_fresh py_str get_instance env now config hw Hmax Hprobe)
      as (index & evs & -> & Hs & Hh & _).
    simpl. split; [done|]. split; [done|]. split; [done|]. split; [done|].
    split; [done|]. split; [|done]. by repeat constructor.
  - destruct (start_fresh_raises py_str get_instance env now config exc
                Hmax Hprobe) as (index & evs & ->).
    simpl. split; [done|]. split; [done|]. split; [done|]. split; [done|].
    split; [done|]. by repeat constructor.
Qed.

Lemma engine_start_fresh_witness :
  ElmerEngine._started
    (ElmerEngine.start (λ _, "")
       (λ _ _ _, Raised (OtherException "ImportError" "no ng"))
       Doubles.laptop Doubles.t0
       (ElmerEngine.__init__ ElmerEngine.default_config)).1.1 = true
  ∧ ElmerEngine._ecosystem
      (ElmerEngine.start (λ _, "")
         (λ _ _ _, Raised (OtherException "ImportError" "no ng"))
         Doubles.laptop Doubles.t0
         (ElmerEngine.__init__ ElmerEngine.default_config)).1.1 = None.
Proof.
  destruct (engine_start_fresh (λ _, "")
              (λ _ _ _, Raised (OtherException "ImportError" "no ng"))
              Doubles.laptop Doubles.t0 ElmerEngine.default_config)
    as (_ & _ & H); [by vm_compute|].
  change (SocketManager.detect_hardware Doubles.laptop).1
    with (Returned (A := SocketManager.Hardware)
            {| SocketManager.cpu_available := true;
               SocketManager.cpu_cores := 8;
               SocketManager.gpu_available := false;
               SocketManager.gpu_devices := [];
               SocketManager.gpu_cuda_available := false;
               SocketManager.npu_available := false |}) in H.
  destruct H as (_ & Hs & He & _).
  split; [exact Hs | exact He].
Defined.

(** X14. With room for fewer than two sockets [start] fails with the capacity
    error of [register]: the engine stays not started, without a
    collaborator, and [process_text] keeps raising the not-started
    error. *)
Theorem engine_start_without_capacity
    (py_str : PyDict → string) (hash_embed : Z → string → list Q)
    (get_instance : string → option string → PyDict
                    → Outcome ElmerEngine.NGEcosystem)
    (env : SocketManager.HostEnv) (now : Q)
    (config : ElmerEngine.ElmerConfig) :
  ElmerEngine.max_sockets config < 2 →
  let r := ElmerEngine.start py_str get_instance env now
             (ElmerEngine.__init__ config) in
  (∃ sid, r.1.2
          = Raised (ValueError ("Socket limit reached ("
                                +:+ pretty (ElmerEngine.max_sockets config)
                                +:+ "). Cannot register " +:+ sid)))
  ∧ ElmerEngine._started r.1.1 = false
  ∧ ElmerEngine._ecosystem r.1.1 = None
  ∧ ∀ uid now' text,
      (ElmerEngine.process_text py_str hash_embed uid now' r.1.1 text).1.2
      = Raised (RuntimeError "Engine not started. Call start() first.").
Proof.
  intros Hmax r.
  assert (Hstart : ∃ sid e' evs,
            r = (e', Raised (ValueError ("Socket limit reached ("
                               +:+ pretty (ElmerEngine.max_sockets config)
                               +:+ "). Cannot register " +:+ sid)), evs)
            ∧ ElmerEngine._started e' = false
            ∧ ElmerEngine._ecosystem e' = None).
  { subst r. unfold ElmerEngine.start, ElmerEngine.__init__.
    cbn [ElmerEngine._started ElmerEngine._socket_manager].
    unfold SocketManager.register at 1. cbn -[Z.geb Z.of_nat pretty].
    destruct (Z.geb_spec (Z.of_nat 0) (ElmerEngine.max_sockets config)).
    - cbn -[pretty]. by eexists _, _, _.
    - cbn -[Z.geb Z.of_nat alter insert lookup pretty].
      unfold SocketManager.register at 1.
      cbn -[Z.geb Z.of_nat alter insert lookup pretty].
      destruct (Z.geb_spec (Z.of_nat 1) (ElmerEngine.max_sockets config));
        [|lia].
      cbn -[alter insert lookup pretty]. by eexists _, _, _. }
  destruct Hstart as (sid & e' & evs & -> & Hs & He). simpl.
  split; [by eexists|]. split; [done|]. split; [done|].
  intros uid now' text. unfold ElmerEngine.process_text. by rewrite Hs.
Qed.

Lemma engine_start_without_capacity_witness :
  ElmerEngine._started
    (ElmerEngine.start (λ _, "") (λ _ _ _, Raised (OtherException "ImportError" "no ng"))
       Doubles.laptop Doubles.t0
       (ElmerEngine.__init__
          (ElmerEngine.mkConfig "0.1.0" 1
             (ElmerEngine.ng_ecosystem ElmerEngine.default_config)))).1.1
  = false.
Proof.
  apply (engine_start_without_capacity (λ _, "") (λ _ _, [])
           (λ _ _ _, Raised (OtherException "ImportError" "no ng"))
           Doubles.laptop Doubles.t0
           (ElmerEngine.mkConfig "0.1.0" 1
              (ElmerEngine.ng_ecosystem ElmerEngine.default_config))).
  by vm_compute.
Defined.

(** X15. [stop] does nothing on an engine that is not started. On a started
    engine whose collaborator shuts down (or is absent) it leaves the
    engine not started, with counter and registry ids intact, so that a
    second [stop] does nothing and [process_text] raises the not-started
    error. When the collaborator's [shutdown] raises, the exception comes
    out of [stop] and the engine is still marked started. *)
Theorem engine_stop_contract
    (py_str : PyDict → string) (hash_embed : Z → string → list Q)
    (e : ElmerEngine.t) :
  (ElmerEngine._started e = false →
   ElmerEngine.stop e = (e, Returned (), []))
  ∧ (ElmerEngine._started e = true →
     (∀ eco, ElmerEngine._ecosystem e = Some eco →
             ElmerEngine.shutdown eco = Returned ()) →
     (ElmerEngine.stop e).1.2 = Returned ()
     ∧ ElmerEngine._started (ElmerEngine.stop e).1.1 = false
     ∧ ElmerEngine._process_count (ElmerEngine.stop e).1.1
       = ElmerEngine._process_count e
     ∧ dict_keys (SocketManager._sockets
                    (ElmerEngine._socket_manager (ElmerEngine.stop e).1.1))
       = dict_keys (SocketManager._sockets (ElmerEngine._socket_manager e))
     ∧ ElmerEngine.stop (ElmerEngine.stop e).1.1
       = ((ElmerEngine.stop e).1.1, Returned (), [])
     ∧ ∀ uid now text,
         (ElmerEngine.process_text py_str hash_embed uid now
            (ElmerEngine.stop e).1.1 text).1.2
         = Raised (RuntimeError "Engine not started. Call start() first."))
  ∧ (∀ eco exc,
       ElmerEngine._started e = true →
       ElmerEngine._ecosystem e = Some eco →
       ElmerEngine.shutdown eco = Raised exc →
       (ElmerEngine.stop e).1.2 = Raised exc
       ∧ ElmerEngine._started (ElmerEngine.stop e).1.1 = true).
Proof.
  split; [|split].
  - intros Hs. unfold ElmerEngine.stop. by rewrite Hs.
  - intros Hs Hshut.
    destruct (stop_started e Hs Hshut) as (Hr & Hs' & Hm & Hc & _).
    split; [done|]. split; [done|]. split; [done|]. split; [|split].
    + rewrite Hm, <- !classes_of_keys. f_equal.
      unfold SocketManager.disconnect_all.
      pose proof (disconnect_loop_classes
                    (SocketManager._sockets (ElmerEngine._socket_manager e)))
        as H.
      by destruct (SocketManager.disconnect_loop _).
    + unfold ElmerEngine.stop at 1. by rewrite Hs'.
    + intros uid now text. unfold ElmerEngine.process_text. by rewrite Hs'.
  - intros eco exc Hs Heco Hraise. unfold ElmerEngine.stop.
    rewrite Hs, Heco, Hraise. simpl.
    by destruct (SocketManager.disconnect_all _).
Qed.

(** X16. An engine that was started and stopped cannot be started again: the
    sockets of the first start are still registered, so [start] raises
    the duplicate-id error of [register] and the engine stays as it is,
    not started. *)
Theorem engine_restart_fails
    (py_str : PyDict → string)
    (get_instance : string → option string → PyDict
                    → Outcome ElmerEngine.NGEcosystem)
    (env : SocketManager.HostEnv) (now : Q) (e : ElmerEngine.t) :
  ElmerEngine._started e = true →
  is_Some (SocketManager.get_socket (ElmerEngine._socket_manager e)
             "elmer:comprehension") →
  (∀ eco, ElmerEngine._ecosystem e = Some eco →
          ElmerEngine.shutdown eco = Returned ()) →
  let stopped := (ElmerEngine.stop e).1.1 in
  (ElmerEngine.start py_str get_instance env now stopped).1.2
  = Raised (ValueError "Socket already registered: elmer:comprehension")
  ∧ (ElmerEngine.start py_str get_instance env now stopped).1.1 = stopped
  ∧ ElmerEngine._started stopped = false.
Proof.
  intros Hs Hreg Hshut stopped.
  destruct (stop_started e Hs Hshut) as (_ & Hs' & Hm & _).
  fold stopped in Hs', Hm.
  rewrite (start_already_registered py_str get_instance env now stopped Hs').
  - done.
  - rewrite Hm. by apply disconnect_all_keeps_ids.
Qed.

Lemma engine_restart_fails_witness :
  let started :=
    (ElmerEngine.start (λ _, "") (λ _ _ _, Raised (OtherException "ImportError" "no ng"))
       Doubles.laptop Doubles.t0
       (ElmerEngine.__init__ ElmerEngine.default_config)).1.1 in
  (ElmerEngine.start (λ _, "") (λ _ _ _, Raised (OtherException "ImportError" "no ng"))
     Doubles.laptop Doubles.t1 (ElmerEngine.stop started).1.1).1.2
  = Raised (ValueError "Socket already registered: elmer:comprehension").
Proof.
  apply (engine_restart_fails (λ _, "")
           (λ _ _ _, Raised (OtherException "ImportError" "no ng"))
           Doubles.laptop Doubles.t1
           (ElmerEngine.start (λ _, "")
              (λ _ _ _, Raised (OtherException "ImportError" "no ng"))
              Doubles.laptop Doubles.t0
              (ElmerEngine.__init__ ElmerEngine.default_config)).1.1).
  - vm_compute. reflexivity.
  - vm_compute. by eexists.
  - intros eco Heco. vm_compute in Heco. discriminate Heco.
Defined.

(** X17. On a host where the hardware probe returns, the first text
    processed by a freshly started engine comes back from the
    comprehension socket: the record names that socket as source, keeps
    the signal's identity, type and text payload, carries the socket's two
    annotations next to the process id in its metadata, and has process
    id 1. *)
Theorem engine_first_text
    (py_str : PyDict → string) (hash_embed : Z → string → list Q)
    (get_instance : string → option string → PyDict
                    → Outcome ElmerEngine.NGEcosystem)
    (env : SocketManager.HostEnv) (hw : SocketManager.Hardware) (now now' : Q)
    (config : ElmerEngine.ElmerConfig) (uid text : string) :
  2 ≤ ElmerEngine.max_sockets config →
  (SocketManager.detect_hardware env).1 = Returned hw →
  (∀ a b c eco embedding, get_instance a b c = Returned eco →
     ∃ ctx, ElmerEngine.get_context eco embedding = Returned ctx) →
  let e := (ElmerEngine.start py_str get_instance env now
              (ElmerEngine.__init__ config)).1.1 in
  ∃ result,
    (ElmerEngine.process_text py_str hash_embed uid now' e text).1.2
    = Returned result
    ∧ dict_get "source_socket" result = Some (PStr "elmer:comprehension")
    ∧ dict_get "signal_id" result = Some (PStr uid)
    ∧ dict_get "signal_type" result = Some (PStr "sensory")
    ∧ dict_get "payload" result = Some (PDict [("text", PStr text)])
    ∧ dict_get "metadata" result
      = Some (PDict [ ("process_id", PInt 1);
                      ("comprehension_processed", PBool true);
                      ("comprehension_version", PStr "0.1.0") ])
    ∧ dict_get "process_id" result = Some (PInt 1).
Proof.
  intros Hmax Hprobe Heco e. subst e.
  destruct (start_fresh py_str get_instance env now config hw Hmax Hprobe)
    as (index & evs & -> & Hs & _).
  unfold ElmerEngine.process_text.
  cbn [fst ElmerEngine._started ElmerEngine._socket_manager negb
       ElmerEngine._process_count ElmerEngine._ecosystem
       ElmerEngine._graph_encoder].
  unfold SocketManager.route_signal.
  cbn [signal_type SubstrateSignal_create SignalType_value
       SocketManager._type_index SocketManager._sockets].
  rewrite Hs.
  destruct (get_instance _ _ _) as [eco|exc] eqn:Hinit; simpl.
  - match goal with |- context [ElmerEngine.get_context eco ?emb] =>
      destruct (Heco _ _ _ eco emb Hinit) as [ctx ->]
    end.
    destruct ctx as [|entry ctx]; eexists; (split; [reflexivity|]);
      repeat split.
  - eexists. split; [reflexivity|]. repeat split.
Qed.

Lemma engine_first_text_witness :
  ∃ result,
    (ElmerEngine.process_text (λ _, "") (λ _ _, []) "sig-1" Doubles.t1
       (ElmerEngine.start (λ _, "")
          (λ _ _ _, Raised (OtherException "ImportError" "no ng"))
          Doubles.laptop Doubles.t0
          (ElmerEngine.__init__ ElmerEngine.default_config)).1.1 "hi").1.2
    = Returned result
    ∧ dict_get "process_id" result = Some (PInt 1).
Proof.
  destruct (engine_first_text (λ _, "") (λ _ _, [])
              (λ _ _ _, Raised (OtherException "ImportError" "no ng"))
              Doubles.laptop
              {| SocketManager.cpu_available := true;
                 SocketManager.cpu_cores := 8;
                 SocketManager.gpu_available := false;
                 SocketManager.gpu_devices := [];
                 SocketManager.gpu_cuda_available := false;
                 SocketManager.npu_available := false |}
              Doubles.t0 Doubles.t1 ElmerEngine.default_config
              "sig-1" "hi") as (result & Hr & _ & _ & _ & _ & _ & Hid).
  - by vm_compute.
  - reflexivity.
  - intros a b c eco embedding Hinit. discriminate Hinit.
  - exists result. split; [exact Hr | exact Hid].
Defined.

(** ** Encoder and decoder *)

Lemma SignalType_value_inj (t1 t2 : SignalType) :
  SignalType_value t1 = SignalType_value t2 → t1 = t2.
Proof. destruct t1, t2; simpl; congruence. Qed.

(** X18. The decoded record determines the signal up to its timestamp, the one
    field [decode] does not expose: two signals decode to the same record
    exactly when they agree on every other field. *)
Theorem decode_lossless_but_timestamp (s1 s2 : SubstrateSignal) :
  SignalDecoder.decode s1 = SignalDecoder.decode s2
  ↔ signal_id s1 = signal_id s2
    ∧ signal_type s1 = signal_type s2
    ∧ source_socket s1 = source_socket s2
    ∧ payload s1 = payload s2
    ∧ confidence s1 = confidence s2
    ∧ priority s1 = priority s2
    ∧ metadata s1 = metadata s2
    ∧ graph_encoding s1 = graph_encoding s2.
Proof.
  unfold SignalDecoder.decode. split.
  - intros H. injection H as Hid Hty Hsrc Hpay Hconf Hprio Hmeta Hge.
    apply SignalType_value_inj in Hty.
    repeat (split; [done|]).
    destruct (graph_encoding s1), (graph_encoding s2); congruence.
  - intros (-> & -> & -> & -> & -> & -> & -> & ->). done.
Qed.

(** X19. The target id of an encoding identifies the signal's type and source
    socket: two signals get the same target id exactly when they agree on
    both. *)
Theorem encode_target_id_inj (py_str : PyDict → string)
    (hash_embed : Z → string → list Q) (enc : GraphEncoder.t)
    (s1 s2 : SubstrateSignal) :
  GraphEncoder.target_id (GraphEncoder.encode py_str hash_embed enc s1)
  = GraphEncoder.target_id (GraphEncoder.encode py_str hash_embed enc s2)
  ↔ signal_type s1 = signal_type s2 ∧ source_socket s1 = source_socket s2.
Proof.
  simpl. split.
  - destruct (signal_type s1), (signal_type s2); simpl; intros H;
      try discriminate H; (split; [done|]); by simplify_eq.
  - by intros [-> ->].
Qed.

(** ** Memory pipeline *)

Section Memory.
Import MemoryPipeline.

Lemma slice_last_pos {A} (n : Z) (l : list A) :
  0 < n → slice_last n l = drop (length l - Z.to_nat n) l.
Proof. intros Hn. unfold slice_last. by rewrite decide_True. Qed.

Lemma slice_last_zero {A} (l : list A) : slice_last 0 l = l.
Proof. done. Qed.

(** One [store] on a buffer that holds the latest signals of a history
    holds the latest signals of the history extended by the new one. *)
Lemma store_latest uid now self signal (history : list SubstrateSignal) :
  1 ≤ _max_signals self →
  _buffer self
  = drop (length history - Z.to_nat (_max_signals self)) history →
  _buffer (store uid now self signal).1
  = drop (length (history ++ [signal]) - Z.to_nat (_max_signals self))
      (history ++ [signal]).
Proof.
  intros Hmax Hbuf. simpl. rewrite Hbuf.
  set (M := Z.to_nat (_max_signals self)).
  assert (HM : (1 ≤ M)%nat) by (subst M; lia).
  assert (HMz : _max_signals self = Z.of_nat M) by (subst M; lia).
  rewrite HMz. rewrite !length_app, length_drop. simpl.
  destruct (decide (length history < M)%nat) as [Hlt|Hge].
  - replace (length history - M)%nat with 0%nat by lia. simpl.
    replace (length history + 1 - M)%nat with 0%nat by lia. simpl.
    destruct (Z.gtb_spec (Z.of_nat (length history - 0 + 1)) (Z.of_nat M));
      [lia | done].
  - destruct (Z.gtb_spec
                (Z.of_nat (length history - (length history - M) + 1))
                (Z.of_nat M)); [|lia].
    rewrite slice_last_pos by lia.
    rewrite length_app, length_drop, Nat2Z.id. simpl.
    replace (length history - (length history - M) + 1 - M)%nat
      with 1%nat by lia.
    replace (length history + 1 - M)%nat
      with (S (length history - M)) by lia.
    rewrite (drop_app_le history _ (S (length history - M))) by lia.
    rewrite (drop_app_le (drop (length history - M) history) _ 1)
      by (rewrite length_drop; lia).
    rewrite drop_drop. do 2 f_equal. lia.
Qed.

Lemma store_all_latest self calls (history : list SubstrateSignal) :
  1 ≤ _max_signals self →
  _buffer self
  = drop (length history - Z.to_nat (_max_signals self)) history →
  _buffer (store_all self calls)
  = drop (length (history ++ calls.*2) - Z.to_nat (_max_signals self))
      (history ++ calls.*2)
  ∧ _max_signals (store_all self calls) = _max_signals self
  ∧ _store_count (store_all self calls)
    = _store_count self + Z.of_nat (length calls).
Proof.
  revert self history.
  induction calls as [|[[uid now] signal] calls IH]; intros self history Hmax Hbuf.
  - simpl. rewrite app_nil_r. split; [done|]. split; [done|]. lia.
  - cbn [store_all fmap list_fmap snd].
    pose proof (store_latest uid now self signal history Hmax Hbuf) as Hstep.
    assert (Hmax' : _max_signals (store uid now self signal).1
                    = _max_signals self) by done.
    destruct (IH (store uid now self signal).1 (history ++ [signal]))
      as (Hb & Hm & Hc).
    + by rewrite Hmax'.
    + by rewrite Hmax'.
    + rewrite <- app_assoc, Hmax' in Hb. simpl in Hb.
      split; [done|]. split; [by rewrite Hm|].
      rewrite Hc. simpl. lia.
Qed.

Lemma store_all_unbounded self calls :
  _max_signals self = 0 →
  _buffer (store_all self calls) = _buffer self ++ calls.*2.
Proof.
  revert self. induction calls as [|[[uid now] signal] calls IH]; intros self Hmax.
  - simpl. by rewrite app_nil_r.
  - cbn [store_all fmap list_fmap snd]. rewrite IH by done.
    simpl. rewrite Hmax.
    destruct (Z.gtb_spec (Z.of_nat (length (_buffer self ++ [signal]))) 0).
    + rewrite slice_last_zero. by rewrite <- app_assoc.
    + rewrite length_app in *. simpl in *. lia.
Qed.

End Memory.

(** X20. A memory pipeline created with a bound of at least one holds, after
    any number of [store] calls, exactly the most recent signals up to
    that bound, oldest first; its store counter is the number of calls. *)
Theorem memory_keeps_latest (max_signals : Z)
    (calls : list (string * Q * SubstrateSignal)) :
  1 ≤ max_signals →
  let self := MemoryPipeline.store_all (MemoryPipeline.__init__ max_signals)
                calls in
  MemoryPipeline._buffer self
  = drop (length calls - Z.to_nat max_signals) calls.*2
  ∧ Z.of_nat (length (MemoryPipeline._buffer self))
    = Z.min (Z.of_nat (length calls)) max_signals
  ∧ MemoryPipeline._store_count self = Z.of_nat (length calls).
Proof.
  intros Hmax self.
  destruct (store_all_latest (MemoryPipeline.__init__ max_signals) calls [])
    as (Hb & _ & Hc); [done | by rewrite drop_nil |].
  simpl in Hb, Hc. rewrite length_fmap in Hb. fold self in Hb, Hc.
  split; [done|]. split; [|lia].
  rewrite Hb, length_drop, length_fmap. lia.
Qed.

Lemma memory_keeps_latest_witness :
  (signal_id <$> MemoryPipeline._buffer
     (MemoryPipeline.store_all (MemoryPipeline.__init__ 2)
        [ ("m1", Doubles.t0, Doubles.hello);
          ("m2", Doubles.t0, Doubles.recall);
          ("m3", Doubles.t1, Doubles.hello) ]))
  = ["sig-2"; "sig-1"].
Proof.
  destruct (memory_keeps_latest 2
              [ ("m1", Doubles.t0, Doubles.hello);
                ("m2", Doubles.t0, Doubles.recall);
                ("m3", Doubles.t1, Doubles.hello) ]) as [-> _]; [lia|].
  reflexivity.
Defined.

(** X21. With [max_signals] set to zero the bound is not enforced: the slice
    [buffer[-0:]] is the whole buffer, so every stored signal is kept. *)
Theorem memory_zero_bound_keeps_all
    (calls : list (string * Q * SubstrateSignal)) :
  MemoryPipeline._buffer
    (MemoryPipeline.store_all (MemoryPipeline.__init__ 0) calls)
  = calls.*2.
Proof. by rewrite store_all_unbounded. Qed.

(** X22. [recall] reports the last [k] signals of the buffer, oldest first,
    when [k] is at least one (all of them when the buffer is shorter),
    and the whole buffer when [k] is zero; it counts the call and leaves
    the buffer alone. *)
Theorem memory_recall_recent (uid : string) (now : Q)
    (self : MemoryPipeline.t) (query : string) (k : Z) :
  let r := MemoryPipeline.recall uid now self query k in
  let buffer := MemoryPipeline._buffer self in
  MemoryPipeline._buffer r.1 = buffer
  ∧ MemoryPipeline._recall_count r.1 = MemoryPipeline._recall_count self + 1
  ∧ dict_get "query" (payload r.2) = Some (PStr query)
  ∧ (1 ≤ k →
     dict_get "signal_ids" (payload r.2)
     = Some (PList ((λ s, PStr (signal_id s))
                      <$> drop (length buffer - Z.to_nat k) buffer))
     ∧ dict_get "recalled_count" (payload r.2)
       = Some (PInt (Z.min k (Z.of_nat (length buffer)))))
  ∧ (k = 0 →
     dict_get "signal_ids" (payload r.2)
     = Some (PList ((λ s, PStr (signal_id s)) <$> buffer))
     ∧ dict_get "recalled_count" (payload r.2)
       = Some (PInt (Z.of_nat (length buffer)))).
Proof.
  intros r buffer. subst r buffer. simpl.
  split; [done|]. split; [done|]. split; [done|].
  unfold MemoryPipeline.recent. split.
  - intros Hk. destruct (MemoryPipeline._buffer self) as [|s l] eqn:Hb.
    + cbn [length]. rewrite drop_nil. simpl. split; [done|].
      do 2 f_equal. lia.
    + rewrite slice_last_pos by lia. split; [done|].
      do 2 f_equal. rewrite length_drop. lia.
  - intros ->. by destruct (MemoryPipeline._buffer self).
Qed.

(** ** Pipelines behind the hook *)

Section Pipelines.

Lemma last_drop_snoc {A} (n : nat) (l : list A) (x : A) :
  (n ≤ length l)%nat → last (drop n (l ++ [x])) = Some x.
Proof. intros Hn. rewrite drop_app_le by done. apply last_snoc. Qed.

(** With a bound of at least one, the signal just stored is the newest
    entry of the buffer, and the buffer does not outgrow a bound it was
    within. *)
Lemma store_newest uid now self signal :
  1 ≤ MemoryPipeline._max_signals self →
  last (MemoryPipeline._buffer (MemoryPipeline.store uid now self signal).1)
  = Some signal
  ∧ (Z.of_nat (length (MemoryPipeline._buffer self))
       ≤ MemoryPipeline._max_signals self →
     Z.of_nat (length (MemoryPipeline._buffer
                         (MemoryPipeline.store uid now self signal).1))
       ≤ MemoryPipeline._max_signals self).
Proof.
  intros Hmax. simpl.
  destruct (Z.gtb_spec
              (Z.of_nat (length (MemoryPipeline._buffer self ++ [signal])))
              (MemoryPipeline._max_signals self)) as [Hgt|Hle].
  - rewrite slice_last_pos by lia. rewrite length_app in *. simpl in *.
    split.
    + apply last_drop_snoc. lia.
    + intros _. rewrite length_drop, length_app. simpl. lia.
  - split; [apply last_snoc | done].
Qed.

Lemma dict_get_of_elem {A} k (a : A) (d : list (string * A)) :
  NoDup (dict_keys d) → (k, a) ∈ d → dict_get k d = Some a.
Proof.
  unfold dict_keys. induction d as [|[k' a'] d IH]; simpl; intros Hnd Hin.
  - by apply elem_of_nil in Hin.
  - apply NoDup_cons in Hnd as [Hnotin Hnd].
    apply elem_of_cons in Hin as [[= -> ->]|Hin].
    + by rewrite decide_True.
    + rewrite decide_False; [by apply IH|].
      intros ->. apply Hnotin. apply list_elem_of_fmap. by exists (k, a).
Qed.

End Pipelines.

(** X23. The inference pipeline answers every signal with a new INFERENCE
    signal of its own: it inherits confidence and priority, carries no
    encoding, keeps every payload entry except "inference_result", which
    it sets, and records the input's id as "parent_signal" while keeping
    the other metadata entries. *)
Theorem inference_process_result (uid : string) (now : Q)
    (self : InferencePipeline.t) (signal : SubstrateSignal) :
  let r := InferencePipeline.process uid now self signal in
  InferencePipeline._process_count r.1
    = InferencePipeline._process_count self + 1
  ∧ signal_type r.2 = INFERENCE
  ∧ source_socket r.2 = "pipeline:inference"
  ∧ signal_id r.2 = uid
  ∧ confidence r.2 = confidence signal
  ∧ priority r.2 = priority signal
  ∧ graph_encoding r.2 = None
  ∧ dict_get "inference_result" (payload r.2) = Some (PStr "pass_through")
  ∧ (∀ k, k ≠ "inference_result" →
          dict_get k (payload r.2) = dict_get k (payload signal))
  ∧ dict_get "parent_signal" (metadata r.2) = Some (PStr (signal_id signal))
  ∧ dict_get "pipeline" (metadata r.2) = Some (PStr "inference")
  ∧ (∀ k, k ∉ ["pipeline"; "version"; "parent_signal"] →
          dict_get k (metadata r.2) = dict_get k (metadata signal)).
Proof.
  intros r. subst r. simpl.
  repeat (split; [done|]).
  split; [apply dict_get_set_eq|].
  split; [intros k Hk; by rewrite dict_get_set_ne|].
  split; [apply dict_get_set_eq|].
  split.
  - rewrite !dict_get_set_ne by done. apply dict_get_set_eq.
  - intros k Hk. rewrite !not_elem_of_cons in Hk.
    destruct Hk as (Hk1 & Hk2 & Hk3 & _).
    by rewrite !dict_get_set_ne by congruence.
Qed.

(** X24. One message through the hook's pipelines: the sensory signal wraps
    the text with its length in characters, the inference signal derived from it (which
    names the sensory signal as parent) becomes the newest entry of the
    memory buffer, each pipeline counts one call, and the result gains an
    "elmer" entry naming both signals while its other entries stay. *)
Theorem process_message_chain (uid1 uid2 uid3 : string) (now : Q)
    (self : ElmerHook.Pipelines) (text : string) (result : PyDict) :
  1 ≤ MemoryPipeline._max_signals (ElmerHook._memory self) →
  let r := ElmerHook._process_message uid1 uid2 uid3 now self text result in
  (∃ stored,
     last (MemoryPipeline._buffer (ElmerHook._memory r.1)) = Some stored
     ∧ signal_id stored = uid2
     ∧ signal_type stored = INFERENCE
     ∧ dict_get "text" (payload stored) = Some (PStr text)
     ∧ dict_get "input_length" (payload stored)
       = Some (PInt (py_len text))
     ∧ dict_get "parent_signal" (metadata stored) = Some (PStr uid1))
  ∧ dict_get "elmer" r.2
    = Some (PDict [ ("sensory_signal", PStr uid1);
                    ("inference_signal", PStr uid2);
                    ("pipelines_active", PBool true) ])
  ∧ (∀ k, k ≠ "elmer" → dict_get k r.2 = dict_get k result)
  ∧ SensoryPipeline._process_count (ElmerHook._sensory r.1)
    = SensoryPipeline._process_count (ElmerHook._sensory self) + 1
  ∧ InferencePipeline._process_count (ElmerHook._inference r.1)
    = InferencePipeline._process_count (ElmerHook._inference self) + 1
  ∧ MemoryPipeline._store_count (ElmerHook._memory r.1)
    = MemoryPipeline._store_count (ElmerHook._memory self) + 1.
Proof.
  intros Hmax r. subst r. unfold ElmerHook._process_message.
  cbn [SensoryPipeline.process InferencePipeline.process fst snd].
  match goal with |- context [MemoryPipeline.store uid3 now _ ?sig] =>
    destruct (store_newest uid3 now (ElmerHook._memory self) sig Hmax)
      as [Hlast _];
    destruct (MemoryPipeline.store uid3 now (ElmerHook._memory self) sig)
      as [memory confirmation] eqn:Hstore
  end.
  cbn [fst snd ElmerHook._memory ElmerHook._sensory ElmerHook._inference
       SensoryPipeline._process_count InferencePipeline._process_count].
  split; [|split; [apply dict_get_set_eq|split]].
  - eexists. split; [exact Hlast|]. repeat split.
  - intros k Hk. by rewrite dict_get_set_ne.
  - repeat (split; [done|]). injection Hstore as <- _. done.
Qed.

Lemma process_message_chain_witness :
  ∃ stored,
    last (MemoryPipeline._buffer
            (ElmerHook._memory
               (ElmerHook._process_message "s-1" "s-2" "s-3" Doubles.t0
                  ElmerHook.new_pipelines "héllo"
                  [("status", PStr "ingested")]).1))
    = Some stored
    ∧ dict_get "input_length" (payload stored) = Some (PInt 5).
Proof.
  destruct (process_message_chain "s-1" "s-2" "s-3" Doubles.t0
              ElmerHook.new_pipelines "héllo" [("status", PStr "ingested")])
    as [(stored & Hlast & _ & _ & _ & Hlen & _) _].
  - by vm_compute.
  - exists stored. split; [exact Hlast | exact Hlen].
Defined.

(** X25. [list_sockets] lists the registered sockets in registry order, one
    entry per socket under its id; the entries marked connected are as
    many as the health report's connected count, which never exceeds its
    socket count. *)
Theorem list_sockets_view (now : Q) (m : SocketManager.t) :
  registry_ok m →
  let infos := SocketViews.list_sockets m in
  let report := SocketManager.health_report now m in
  SocketViews.info_socket_id <$> infos = dict_keys (SocketManager._sockets m)
  ∧ Z.of_nat (length infos) = SocketManager.hr_socket_count report
  ∧ Z.of_nat (length (filter (λ i, SocketViews.info_connected i = true) infos))
    = SocketManager.hr_connected_count report
  ∧ 0 ≤ SocketManager.hr_connected_count report
      ≤ SocketManager.hr_socket_count report.
Proof.
  intros [Hnd Hid] infos report. subst infos report.
  unfold SocketViews.list_sockets, SocketManager.health_report.
  destruct (SocketManager.health_loop now (SocketManager._sockets m) [] [])
    as [socket_health statuses]. simpl.
  set (d := SocketManager._sockets m) in *.
  assert (Hcount : length (filter (λ i, SocketViews.info_connected i = true)
                     ((λ s, {| SocketViews.info_socket_id := ElmerSocket.id s;
                               SocketViews.info_socket_type := ElmerSocket.type s;
                               SocketViews.info_connected :=
                                 ElmerSocket.is_connected s;
                               SocketViews.info_hardware_affinity :=
                                 ElmerSocket.hardware_affinity
                                   (ElmerSocket.cls s) |})
                        <$> dict_values d))
                   = length (filter (λ s, ElmerSocket.is_connected s = true)
                               (dict_values d))).
  { induction (dict_values d) as [|s l IH]; [done|].
    rewrite fmap_cons, !filter_cons. simpl.
    destruct (decide (ElmerSocket.is_connected s = true)); simpl; by rewrite IH. }
  pose proof (length_filter (λ s, ElmerSocket.is_connected s = true)
                (dict_values d)) as Hle.
  assert (Hlen : length (dict_values d) = length d)
    by (unfold dict_values; apply length_fmap).
  split; [|split; [|split]].
  - unfold dict_values, dict_keys. rewrite <- !list_fmap_compose.
    apply list_fmap_ext. intros i [k s] Hi. simpl.
    apply Hid, dict_get_of_elem; [done|].
    by apply list_elem_of_lookup_2 in Hi.
  - rewrite length_fmap. lia.
  - by rewrite Hcount.
  - lia.
Qed.

Lemma list_sockets_view_witness :
  SocketViews.info_socket_id <$> SocketViews.list_sockets Doubles.one_unplugged
  = ["elmer:comprehension"; "lab:gpu"; "elmer:monitoring"].
Proof.
  apply (list_sockets_view Doubles.t0 Doubles.one_unplugged).
  apply (manager_inv_run _ _ (manager_inv_init 16)).
Defined.
